(** * ToneBridge frontend: transport, storage and capture, verified

    A shallow embedding of the resilient data pipeline of the ToneBridge
    frontend:

    - [ApiUtils.request]               (src/utils/index.ts), the retry loop;
    - [StorageUtils], [DailyStorageManager], [TranscriptStorageManager]
                                       (src/utils/index.ts), the local store;
    - the [AudioRecorder] component    (src/components/audio/AudioRecorder.tsx),
                                       the capture life cycle.

    Conventions.  A JavaScript value is a term of [value].  A function that
    can throw returns a [res].  The browser's [localStorage] is a
    [gmap string string].  [setItem] can throw a QuotaExceededError: where
    the source catches it ([saveTranscripts]) the refusal is a variable of
    the section; where nothing catches it, the functions are those of a
    store that takes the write.  [Date.now()] is read once per top-level
    call and passed as [now].  Stored strings are sequences of bytes, so
    the size of a [Blob] built from a string is its length; the texts that
    the formatting functions measure are sequences of UTF-16 code units.
    The platform functions the source calls
    but does not define ([JSON.parse], [JSON.stringify], [Date.parse],
    [Date.prototype.toISOString], ...) are variables of the sections. *)

From Stdlib Require Import ZArith List String Ascii Bool Lia.
From stdpp Require Import base option list strings pretty gmap.

#[local] Set Warnings "-register-all".
Local Open Scope string_scope.
Local Open Scope Z_scope.

(** ** JavaScript values *)

(** [VNum m e] is the finite number [m * 10^(-e)]; every finite double has
    such a form.  [VDate None] is an Invalid Date, [VDate (Some t)] the date
    with time value [t] (milliseconds since the epoch). *)
Inductive value : Type :=
| VUndef
| VNull
| VBool (b : bool)
| VNum (m : Z) (e : nat)
| VStr (s : string)
| VDate (t : option Z)
| VArr (xs : list value)
| VObj (fs : list (string * value)).

Inductive res (A : Type) : Type :=
| Ok (a : A)
| Throw (msg : string).
Arguments Ok {A} a.
Arguments Throw {A} msg.

Definition bind {A B} (r : res A) (k : A -> res B) : res B :=
  match r with Ok a => k a | Throw m => Throw m end.

Notation "'let*' x := r 'in' k" := (bind r (fun x => k))
  (at level 10, x name, r at level 100, k at level 200).

(** [try { r } catch { h }] *)
Definition catch {A} (r : res A) (h : string -> A) : A :=
  match r with Ok a => a | Throw m => h m end.

Definition VInt (n : Z) : value := VNum n 0.

(** ToBoolean. *)
Definition truthy (v : value) : bool :=
  match v with
  | VUndef | VNull => false
  | VBool b => b
  | VNum m _ => negb (m =? 0)
  | VStr s => negb (String.eqb s "")
  | VDate _ | VArr _ | VObj _ => true
  end.

Fixpoint assoc (k : string) (fs : list (string * value)) : option value :=
  match fs with
  | [] => None
  | (k', v) :: fs' => if String.eqb k k' then Some v else assoc k fs'
  end.

(** [o.k] for the property names the program reads ([value], [expiresAt],
    [date], [settings], [displayMode], [metadata], [timestamp]): none of
    them is inherited from a prototype, so only own properties of objects
    answer; reading a property of [null] or [undefined] is a TypeError. *)
Definition prop (v : value) (k : string) : res value :=
  match v with
  | VUndef | VNull => Throw "TypeError: Cannot read properties"
  | VObj fs => Ok (default VUndef (assoc k fs))
  | _ => Ok VUndef
  end.

(** [o[k] = v] on the own properties: an existing key keeps its place, a
    new key goes last. *)
Fixpoint obj_set (k : string) (v : value) (fs : list (string * value))
  : list (string * value) :=
  match fs with
  | [] => [(k, v)]
  | (k', v') :: fs' =>
      if String.eqb k k' then (k, v) :: fs' else (k', v') :: obj_set k v fs'
  end.

Fixpoint indexed {A} (i : nat) (xs : list A) : list (string * A) :=
  match xs with
  | [] => []
  | x :: xs' => (pretty i, x) :: indexed (S i) xs'
  end.

Fixpoint chars (s : string) : list value :=
  match s with
  | EmptyString => []
  | String c s' => VStr (String c EmptyString) :: chars s'
  end.

(** The own enumerable properties copied by [{...v}]. *)
Definition spread (v : value) : list (string * value) :=
  match v with
  | VObj fs => fs
  | VArr xs => indexed 0 xs
  | VStr s => indexed 0 (chars s)
  | _ => []
  end.

(** [s.includes(p)] *)
Fixpoint includes (s p : string) : bool :=
  String.prefix p s ||
  match s with
  | EmptyString => false
  | String _ s' => includes s' p
  end.

(** [a || b] on strings *)
Definition or_else (a b : string) : string :=
  if String.eqb a "" then b else a.

(** What [JSON.stringify] writes of a value, as a value: a date is written
    as its [toJSON()] (the ISO string, or [null] for an Invalid Date), a
    property whose value is [undefined] is left out, an [undefined] element
    becomes [null]. *)
Fixpoint toJSON (Date_toISOString : Z -> string) (v : value) : value :=
  match v with
  | VDate (Some t) => VStr (Date_toISOString t)
  | VDate None => VNull
  | VArr xs =>
      VArr (map (fun x => match x with
                          | VUndef => VNull
                          | _ => toJSON Date_toISOString x
                          end) xs)
  | VObj fs =>
      VObj ((fix members (fs : list (string * value)) :=
               match fs with
               | [] => []
               | (_, VUndef) :: fs' => members fs'
               | (k, x) :: fs' =>
                   (k, toJSON Date_toISOString x) :: members fs'
               end) fs)
  | _ => v
  end.

(** ** ApiUtils.request *)

Module ApiUtils.

Definition maxRetries : nat := 3.
Definition retryDelay : Z := 1000.

(** What one [fetch] does: it rejects with an error, or it resolves to a
    response. *)
Inductive outcome : Type :=
| Rejected (msg : string)
| Response (status : Z) (statusText body : string).

(** What the caller can observe of one [request]. *)
Inductive event : Type :=
| EFetch (attempt : nat)
| EClearTimeout
| ESleep (ms : Z).

Definition response_ok (status : Z) : bool :=
  (200 <=? status) && (status <=? 299).

(** The error thrown for a response that is not [ok]. *)
Definition http_error (status : Z) (statusText errorText : string) : string :=
  if status =? 0 then "Network error - check your connection and try again"
  else if status =? 404 then
    "API endpoint not found - please check the server configuration"
  else if status =? 413 then
    "Audio file too large - please record a shorter message"
  else if status =? 500 then "Server error - please try again later"
  else if status =? 503 then
    "Service temporarily unavailable - please try again later"
  else "Server error (" +:+ pretty status +:+ "): "
       +:+ or_else errorText statusText.

(** The test of the [catch] block that ends the loop. *)
Definition no_retry (msg : string) : bool :=
  includes msg "abort" || includes msg "signal is aborted"
  || includes msg "Network error" || includes msg "API endpoint not found".

(** The message of the error thrown after the loop. *)
Definition summarize (lastError : option string) : string :=
  match lastError with
  | None => "API request failed"
  | Some m =>
      if includes m "Failed to fetch" then
        "Cannot connect to server. Please check your internet connection and try again."
      else if includes m "abort" || includes m "signal is aborted" then
        "Request timed out. The server is taking longer than expected to process your audio. Please try again."
      else if includes m "Network error" then
        "Network connection issue. Please check your connection and try again."
      else m
  end.

Section Request.

(** [response.json()]: the parsed body, or the message of the error it
    rejects with. *)
Variable body_json : string -> res value.
(** The outcome of the [fetch] of each attempt (attempts count from 1). *)
Variable fetch : nat -> outcome.

(** The body of the [try] block of one attempt. *)
Definition try_attempt (attempt : nat) : res value * list event :=
  match fetch attempt with
  | Rejected msg => (Throw msg, [EFetch attempt])
  | Response status statusText body =>
      if response_ok status
      then (body_json body, [EFetch attempt; EClearTimeout])
      else (Throw (http_error status statusText body),
            [EFetch attempt; EClearTimeout])
  end.

(** The [for] loop; [remaining] is [maxRetries - attempt + 1].  The result
    is the returned data or the last error, with the events in order. *)
Fixpoint attempts_loop (remaining attempt : nat) (lastError : option string)
  : (value + option string) * list event :=
  match remaining with
  | O => (inr lastError, [])
  | S remaining' =>
      match try_attempt attempt with
      | (Ok data, evs) => (inl data, evs)
      | (Throw msg, evs) =>
          if no_retry msg then (inr (Some msg), evs)
          else
            let sleep :=
              if (attempt <? maxRetries)%nat
              then [ESleep (retryDelay * Z.of_nat attempt)] else [] in
            let '(r, evs') := attempts_loop remaining' (S attempt) (Some msg) in
            (r, (evs ++ sleep ++ evs')%list)
      end
  end.

Definition request : res value * list event :=
  match attempts_loop maxRetries 1 None with
  | (inl data, evs) => (Ok data, evs)
  | (inr lastError, evs) => (Throw (summarize lastError), (evs ++ [EClearTimeout])%list)
  end.

End Request.

Definition fetches (evs : list event) : list nat :=
  omap (fun e => match e with EFetch a => Some a | _ => None end) evs.

Definition sleeps (evs : list event) : list Z :=
  omap (fun e => match e with ESleep d => Some d | _ => None end) evs.

End ApiUtils.

(** ** The local store *)

Module Store.

Definition MAX_TRANSCRIPTS : nat := 1000.
Definition MAX_STORAGE_SIZE : Z := 5 * 1024 * 1024.

Definition prefix : string := "tonebridge_".
Definition TRANSCRIPTS_KEY : string := "transcripts".
Definition STORAGE_KEY : string := "daily_data".

(** [new Blob([s]).size] *)
Definition Blob_size (s : string) : Z := Z.of_nat (String.length s).

Definition defaultDisplayMode : value :=
  VObj [("id", VStr "combined"); ("name", VStr "Combined");
        ("description", VStr "Show both emojis and tags");
        ("icon", VStr "heartOutline")].

Definition defaultSettings : value :=
  VObj [("theme", VStr "modern-blue"); ("fontSize", VStr "medium");
        ("showEmojis", VBool true); ("showTags", VBool true);
        ("autoSave", VBool true); ("displayMode", defaultDisplayMode);
        ("accessibility",
         VObj [("reducedMotion", VBool false);
               ("dyslexiaFriendly", VBool false)])].

Fixpoint mapM {A B} (f : A -> res B) (xs : list A) : res (list B) :=
  match xs with
  | [] => Ok []
  | x :: xs' => let* y := f x in let* ys := mapM f xs' in Ok (y :: ys)
  end.

(** [s.split('T')[0]] *)
Fixpoint before_T (s : string) : string :=
  match s with
  | EmptyString => EmptyString
  | String c s' => if Ascii.eqb c "T"%char then EmptyString
                   else String c (before_T s')
  end.

(** TimeClip *)
Definition TimeClip (t : Z) : option Z :=
  if Z.abs t <=? 8640000000000000 then Some t else None.

Section Platform.

(** [JSON.parse]; [None] stands for the SyntaxError. *)
Variable JSON_parse : string -> option value.
(** [JSON.stringify(v)] and [JSON.stringify(v, null, 2)]. *)
Variable JSON_stringify : value -> string.
Variable JSON_stringify_2 : value -> string.
(** [Date.parse] ([None] is NaN) and [Date.prototype.toISOString]. *)
Variable Date_parse : string -> option Z.
Variable Date_toISOString : Z -> string.
(** ToString of an array or an object, and ToNumber of a string
    ([Some (m, e)] is [m * 10^(-e)], [None] is NaN). *)
Variable ToString : value -> string.
Variable StringToNumber : string -> option (Z * nat).

Definition parse (s : string) : res value :=
  match JSON_parse s with
  | Some v => Ok v
  | None => Throw "SyntaxError"
  end.

Definition ToNumber (v : value) : option (Z * nat) :=
  match v with
  | VUndef => None
  | VNull => Some (0, 0%nat)
  | VBool b => Some (if b then 1 else 0, 0%nat)
  | VNum m e => Some (m, e)
  | VStr s => StringToNumber s
  | VDate t => (fun n => (n, 0%nat)) <$> t
  | VArr _ | VObj _ => StringToNumber (ToString v)
  end.

(** [now > v] *)
Definition gt (now : Z) (v : value) : bool :=
  match ToNumber v with
  | Some (m, e) => m <? now * 10 ^ Z.of_nat e
  | None => false
  end.

(** [new Date(v)], as a time value. *)
Definition new_Date (v : value) : option Z :=
  match v with
  | VUndef => None
  | VNull => Some 0
  | VBool b => Some (if b then 1 else 0)
  | VNum m e => TimeClip (Z.quot m (10 ^ Z.of_nat e))
  | VStr s => Date_parse s
  | VDate t => t
  | VArr _ | VObj _ => Date_parse (ToString v)
  end.

(** *** StorageUtils *)

(** [StorageUtils.set] when [setItem] takes the write; [try_set] below is
    the call that can throw. *)
Definition set (key : string) (v : value) (expiresIn : option Z) (now : Z)
    (ls : gmap string string) : gmap string string :=
  let expiresAt :=
    match expiresIn with
    | Some d => if d =? 0 then VUndef else VInt (now + d)
    | None => VUndef
    end in
  let item := VObj [("value", v); ("timestamp", VInt now);
                    ("expiresAt", expiresAt)] in
  <[prefix +:+ key := JSON_stringify item]> ls.

Definition get (key : string) (now : Z) (ls : gmap string string)
  : value * gmap string string :=
  match ls !! (prefix +:+ key) with
  | None => (VNull, ls)
  | Some item =>
      if String.eqb item "" then (VNull, ls)
      else
        catch
          (let* parsed := parse item in
           let* expiresAt := prop parsed "expiresAt" in
           if truthy expiresAt && gt now expiresAt
           then Ok (VNull, delete (prefix +:+ key) ls)
           else let* v := prop parsed "value" in Ok (v, ls))
          (fun _ => (VNull, ls))
  end.

Definition remove (key : string) (ls : gmap string string)
  : gmap string string :=
  delete (prefix +:+ key) ls.

Definition saveSettings (settings : value) (now : Z)
    (ls : gmap string string) : gmap string string :=
  set "settings" settings None now ls.

Definition getSettings (now : Z) (ls : gmap string string)
  : res (value * gmap string string) :=
  let '(savedSettings, ls1) := get "settings" now ls in
  if negb (truthy savedSettings) then Ok (defaultSettings, ls1)
  else
    let* displayMode := prop savedSettings "displayMode" in
    if negb (truthy displayMode) then
      let migratedSettings :=
        VObj (obj_set "displayMode" defaultDisplayMode
                (spread savedSettings)) in
      Ok (migratedSettings, saveSettings migratedSettings now ls1)
    else Ok (savedSettings, ls1).

(** *** DailyStorageManager *)

(** [{...base, k1: v1, ..., kn: vn}] *)
Definition obj_lit (base : list (string * value))
    (kvs : list (string * value)) : list (string * value) :=
  fold_left (fun fs kv => obj_set kv.1 kv.2 fs) kvs base.

Definition getCurrentDate (now : Z) : string :=
  before_T (Date_toISOString now).

Definition calculateStorageSize (data : value) : Z :=
  Blob_size (JSON_stringify data).

(** [data.metadata.k = v].  The module is strict-mode code: creating a
    property on a primitive throws.  A property added to an array is not
    an element, and leaves the array as it serializes. *)
Definition set_metadata (k : string) (v : value) (data : value) : res value :=
  let* metadata := prop data "metadata" in
  match metadata with
  | VUndef | VNull => Throw "TypeError: Cannot set properties"
  | VObj ms =>
      Ok (VObj (obj_set "metadata" (VObj (obj_set k v ms)) (spread data)))
  | VArr _ | VDate _ => Ok data
  | VBool _ | VNum _ _ | VStr _ => Throw "TypeError: Cannot create property"
  end.

(** [saveData] updates [data.metadata] in place; the updated [data] is
    returned with the storage. *)
Definition saveData (data : value) (now : Z) (ls : gmap string string)
  : res (value * gmap string string) :=
  let* data1 := set_metadata "lastUpdated" (VInt now) data in
  let* data2 :=
    set_metadata "storageSize" (VInt (calculateStorageSize data1)) data1 in
  Ok (data2, set STORAGE_KEY data2 None now ls).

(** [v !== s] for a string [s] *)
Definition differs (v : value) (s : string) : bool :=
  match v with
  | VStr s' => negb (String.eqb s' s)
  | _ => true
  end.

Definition getCurrentData (now : Z) (ls : gmap string string)
  : res (value * gmap string string) :=
  let '(stored, ls1) := get STORAGE_KEY now ls in
  let today := getCurrentDate now in
  let* is_new :=
    if negb (truthy stored) then Ok true
    else let* date := prop stored "date" in Ok (differs date today) in
  if is_new : bool then
    let newData :=
      VObj [("date", VStr today);
            ("settings", defaultSettings);
            ("transcripts", VArr []);
            ("metadata",
             VObj [("lastUpdated", VInt now); ("storageSize", VInt 0);
                   ("transcriptCount", VInt 0);
                   ("themeLastChanged", VInt now)])] in
    saveData newData now ls1
  else
    let* settings := prop stored "settings" in
    let* migrate :=
      if truthy settings
      then let* displayMode := prop settings "displayMode" in
           Ok (negb (truthy displayMode))
      else Ok false in
    if migrate : bool then
      let migratedData :=
        VObj (obj_lit (spread stored)
                [("settings",
                  VObj (obj_lit (spread settings)
                          [("displayMode", defaultDisplayMode)]))]) in
      saveData migratedData now ls1
    else Ok (stored, ls1).

Definition resetDailyData (now : Z) (ls : gmap string string)
  : res (value * gmap string string) :=
  let* r := getCurrentData now ls in
  let '(data, ls1) := r in
  let* metadata := prop data "metadata" in
  let newData :=
    VObj (obj_lit (spread data)
            [("date", VStr (getCurrentDate now));
             ("transcripts", VArr []);
             ("metadata",
              VObj (obj_lit (spread metadata)
                      [("transcriptCount", VInt 0);
                       ("storageSize", VInt 0);
                       ("lastUpdated", VInt now)]))]) in
  saveData newData now ls1.

(** *** TranscriptStorageManager *)

(** [segment => ({...segment, timestamp: new Date(segment.timestamp)})] *)
Definition revive (segment : value) : res value :=
  let* timestamp := prop segment "timestamp" in
  Ok (VObj (obj_lit (spread segment)
              [("timestamp", VDate (new_Date timestamp))])).

Definition getTranscripts (now : Z) (ls : gmap string string)
  : list value * gmap string string :=
  let '(stored, ls1) := get TRANSCRIPTS_KEY now ls in
  catch
    (if negb (truthy stored) then Ok ([], ls1)
     else match stored with
          | VArr xs => let* ys := mapM revive xs in Ok (ys, ls1)
          | _ => Throw "TypeError: stored.map is not a function"
          end)
    (fun _ => ([], ls1)).

Definition size_of (transcripts : list value) : Z :=
  Blob_size (JSON_stringify (VArr transcripts)).

(** [transcripts.slice(-n)] *)
Definition slice_last (n : nat) (transcripts : list value) : list value :=
  drop (length transcripts - n) transcripts.

(** The [while] loop drops the head while the rest is not empty and does
    not fit. *)
Fixpoint reduceTranscriptsToFit (reduced : list value) : list value :=
  match reduced with
  | [] => []
  | _ :: rest =>
      if size_of reduced <=? MAX_STORAGE_SIZE then reduced
      else reduceTranscriptsToFit rest
  end.

(** [localStorage.setItem] throws a QuotaExceededError when the browser
    refuses a write: [quota_exceeded k x ls] tells whether it refuses to
    store [x] under [k] in [ls]. *)
Variable quota_exceeded : string -> string -> gmap string string -> bool.

(** [StorageUtils.set] inside a [try]: the store after the write, or the
    error of [setItem]. *)
Definition try_set (key : string) (v : value) (expiresIn : option Z)
    (now : Z) (ls : gmap string string) : res (gmap string string) :=
  let expiresAt :=
    match expiresIn with
    | Some d => if d =? 0 then VUndef else VInt (now + d)
    | None => VUndef
    end in
  let item := VObj [("value", v); ("timestamp", VInt now);
                    ("expiresAt", expiresAt)] in
  if quota_exceeded (prefix +:+ key) (JSON_stringify item) ls
  then Throw "QuotaExceededError"
  else Ok (<[prefix +:+ key := JSON_stringify item]> ls).

(** The [catch] block logs the error and returns: the store is left as it
    was. *)
Definition saveTranscripts (transcripts : list value) (now : Z)
    (ls : gmap string string) : gmap string string :=
  catch
    (let limitedTranscripts := slice_last MAX_TRANSCRIPTS transcripts in
     let storageSize := size_of limitedTranscripts in
     if MAX_STORAGE_SIZE <? storageSize then
       let reducedTranscripts := reduceTranscriptsToFit limitedTranscripts in
       try_set TRANSCRIPTS_KEY (VArr reducedTranscripts) None now ls
     else try_set TRANSCRIPTS_KEY (VArr limitedTranscripts) None now ls)
    (fun _ => ls).

Definition addTranscript (transcript : value) (now : Z)
    (ls : gmap string string) : gmap string string :=
  let '(transcripts, ls1) := getTranscripts now ls in
  saveTranscripts (transcripts ++ [transcript]) now ls1.

Definition addTranscripts (newTranscripts : list value) (now : Z)
    (ls : gmap string string) : gmap string string :=
  let '(transcripts, ls1) := getTranscripts now ls in
  saveTranscripts (transcripts ++ newTranscripts) now ls1.

Definition clearTranscripts (ls : gmap string string) : gmap string string :=
  remove TRANSCRIPTS_KEY ls.

Definition exportTranscripts (now : Z) (ls : gmap string string)
  : string * gmap string string :=
  let '(transcripts, ls1) := getTranscripts now ls in
  (JSON_stringify_2 (VArr transcripts), ls1).

Definition importTranscripts (jsonData : string) (now : Z)
    (ls : gmap string string) : bool * gmap string string :=
  catch
    (let* imported := parse jsonData in
     match imported with
     | VArr xs =>
         let* validatedTranscripts := mapM revive xs in
         Ok (true, saveTranscripts validatedTranscripts now ls)
     | _ => Throw "Invalid data format: expected array"
     end)
    (fun _ => (false, ls)).

End Platform.

End Store.

(** ** The AudioRecorder component *)

Module AudioRecorder.

(** A call of one of the two callbacks of the component. *)
Inductive callback : Type :=
| RecordingComplete (blob_size : Z) (format : string)
| RecordingError (msg : string).

(** A thrown error: its [name] and its [message]. *)
Record js_error : Type := JsError { name : string; message : string }.

(** The refs and the state of the component, with the two platform
    resources of a session: the tracks of the acquired stream and the
    interval timer. *)
Record state : Type := State {
  tracks_live : bool;
  timer_running : bool;
  streamRef : bool;
  durationIntervalRef : bool;
  mediaRecorderRef : bool;
  mimeType : string;
  audioChunks : list Z;
  isRecording : bool;
  error : option string;
  emitted : list callback
}.

Definition idle : state :=
  State false false false false false "" [] false None [].

(** What the platform does during one [startRecording]. *)
Record platform : Type := Platform {
  isIOSSafari : bool;
  isSecureContext : bool;
  isTypeSupported : string -> bool;
  getUserMedia : option js_error;
  newMediaRecorder : option js_error;
  start : option js_error
}.

Definition types : list string :=
  ["audio/webm;codecs=opus"; "audio/webm"; "audio/mp4";
   "audio/mp4;codecs=mp4a"; "audio/wav"; "audio/ogg;codecs=opus";
   "audio/ogg"].

Definition getSupportedMimeType (p : platform) : string :=
  match List.find (isTypeSupported p) types with
  | Some type => type
  | None => if isIOSSafari p then "audio/mp4" else "audio/webm;codecs=opus"
  end.

(** [s.split(c)[0]] and [s.split(c)[1]] *)
Fixpoint before (c : ascii) (s : string) : string :=
  match s with
  | EmptyString => EmptyString
  | String c' s' => if Ascii.eqb c' c then EmptyString
                    else String c' (before c s')
  end.

Fixpoint after (c : ascii) (s : string) : option string :=
  match s with
  | EmptyString => None
  | String c' s' => if Ascii.eqb c' c then Some (before c s') else after c s'
  end.

(** [mimeType.split(';')[0].split('/')[1]]; reading [[1]] where there is no
    slash gives [undefined]. *)
Definition format_of (mimeType : string) : string :=
  default "undefined" (after "/" (before ";" mimeType)).

(** The message of the [catch] block of [startRecording]. *)
Definition start_error_message (e : js_error) : string :=
  if String.eqb (name e) "NotAllowedError" then
    "Microphone access denied. Please allow microphone access and try again."
  else if String.eqb (name e) "NotFoundError" then
    "No microphone found. Please connect a microphone and try again."
  else if String.eqb (name e) "NotSupportedError" then
    "Recording not supported in this browser. Please try a different browser."
  else if String.eqb (name e) "SecurityError" then
    "Microphone access blocked. Please use HTTPS or localhost for secure access."
  else message e.

Definition report (msg : string) (st : state) : state :=
  State (tracks_live st) (timer_running st) (streamRef st)
    (durationIntervalRef st) (mediaRecorderRef st) (mimeType st)
    (audioChunks st) (isRecording st) (Some msg)
    (emitted st ++ [RecordingError msg]).

(** [startRecording], on a component that holds no stream.  The state
    has one [tracks_live] flag, for the stream of [streamRef]: a start on a
    component that still holds a stream would overwrite [streamRef] and
    leave the tracks of the first stream live and out of reach, which
    this state cannot tell.  Every statement below starts from [idle]. *)
Definition startRecording (p : platform) (st : state) : state :=
  if isIOSSafari p && negb (isSecureContext p) then
    report "iOS Safari requires HTTPS for microphone access. Please use HTTPS or localhost."
      st
  else
    match getUserMedia p with
    | Some e => report (start_error_message e) st
    | None =>
        (* [streamRef.current = stream] *)
        let st1 := State true (timer_running st) true (durationIntervalRef st)
                     (mediaRecorderRef st) (mimeType st) (audioChunks st)
                     (isRecording st) (error st) (emitted st) in
        match newMediaRecorder p with
        | Some e => report (start_error_message e) st1
        | None =>
            let st2 := State true (timer_running st) true
                         (durationIntervalRef st) true
                         (getSupportedMimeType p) [] (isRecording st)
                         (error st) (emitted st) in
            match start p with
            | Some e => report (start_error_message e) st2
            | None =>
                State true true true true true (getSupportedMimeType p) []
                  true None (emitted st)
            end
        end
    end.

(** [mediaRecorder.ondataavailable] *)
Definition ondataavailable (size : Z) (st : state) : state :=
  if 0 <? size then
    State (tracks_live st) (timer_running st) (streamRef st)
      (durationIntervalRef st) (mediaRecorderRef st) (mimeType st)
      (audioChunks st ++ [size]) (isRecording st) (error st) (emitted st)
  else st.

(** [new Blob(chunks).size] *)
Definition blob_size (chunks : list Z) : Z := fold_right Z.add 0 chunks.

Section Handlers.

(** The parent's [onRecordingComplete]: [None] when it returns, the
    message of the error when it throws. *)
Variable onRecordingComplete : Z -> string -> option string.

(** [mediaRecorder.onstop] *)
Definition onstop (st : state) : state :=
  let size := blob_size (audioChunks st) in
  let format := format_of (mimeType st) in
  let emitted1 := (emitted st ++ [RecordingComplete size format])%list in
  match onRecordingComplete size format with
  | Some msg =>
      State (tracks_live st) (timer_running st) (streamRef st)
        (durationIntervalRef st) (mediaRecorderRef st) (mimeType st)
        (audioChunks st) (isRecording st) (error st)
        (emitted1 ++ [RecordingError ("Failed to process recording: " +:+ msg)])
  | None =>
      State (if streamRef st then false else tracks_live st)
        (if durationIntervalRef st then false else timer_running st)
        false false (mediaRecorderRef st) (mimeType st) (audioChunks st)
        (isRecording st) (error st) emitted1
  end.

End Handlers.

(** [mediaRecorder.onerror]; [msg] is [event.error?.message]. *)
Definition onerror (msg : option string) (st : state) : state :=
  report ("Recording error: " +:+ or_else (default "" msg) "Unknown error") st.

(** [stopRecording]: asks the recorder to stop; the platform then fires
    the last [dataavailable] and [stop]. *)
Definition stopRecording (st : state) : state :=
  if mediaRecorderRef st && isRecording st then
    State (tracks_live st) (timer_running st) (streamRef st)
      (durationIntervalRef st) (mediaRecorderRef st) (mimeType st)
      (audioChunks st) false (error st) (emitted st)
  else st.

(** The cleanup of the unmount effect. *)
Definition unmount (st : state) : state :=
  State (if streamRef st then false else tracks_live st)
    (if durationIntervalRef st then false else timer_running st)
    (streamRef st) (durationIntervalRef st) (mediaRecorderRef st)
    (mimeType st) (audioChunks st) (isRecording st) (error st) (emitted st).

End AudioRecorder.

(** ** A concrete platform

    An executable instance of the platform functions, used to run the
    program on concrete stores: a JSON printer and parser, and the ISO 8601
    dates of [toISOString]. *)

Module Browser.

Definition digit (c : ascii) : option Z :=
  let n := Z.of_N (N_of_ascii c) in
  if (48 <=? n) && (n <=? 57) then Some (n - 48) else None.

(** Reads a run of decimal digits: its value, its length, the rest. *)
Fixpoint digits (acc : Z) (len : nat) (s : string) : Z * nat * string :=
  match s with
  | String c s' =>
      match digit c with
      | Some d => digits (10 * acc + d) (S len) s'
      | None => (acc, len, s)
      end
  | EmptyString => (acc, len, s)
  end.

Definition zeros (n : nat) : string := string_of_list_ascii (repeat "0"%char n).

(** [n] in decimal, padded with zeros on the left to [width] digits. *)
Definition padded (width : nat) (n : Z) : string :=
  let p := pretty n in zeros (width - String.length p) +:+ p.

(** *** Dates *)

(** The civil date of a day number (days since 1970-01-01). *)
Definition civil_from_days (days : Z) : Z * Z * Z :=
  let z := days + 719468 in
  let era := z / 146097 in
  let doe := z - era * 146097 in
  let yoe := (doe - doe / 1460 + doe / 36524 - doe / 146096) / 365 in
  let doy := doe - (365 * yoe + yoe / 4 - yoe / 100) in
  let mp := (5 * doy + 2) / 153 in
  let d := doy - (153 * mp + 2) / 5 + 1 in
  let m := if mp <? 10 then mp + 3 else mp - 9 in
  let y := yoe + era * 400 + (if m <=? 2 then 1 else 0) in
  (y, m, d).

Definition days_from_civil (y m d : Z) : Z :=
  let y' := if m <=? 2 then y - 1 else y in
  let era := y' / 400 in
  let yoe := y' - era * 400 in
  let doy := (153 * (if 2 <? m then m - 3 else m + 9) + 2) / 5 + d - 1 in
  let doe := yoe * 365 + yoe / 4 - yoe / 100 + doy in
  era * 146097 + doe - 719468.

Definition year_string (y : Z) : string :=
  if (0 <=? y) && (y <=? 9999) then padded 4 y
  else if y <? 0 then "-" +:+ padded 6 (- y)
  else "+" +:+ padded 6 y.

Definition Date_toISOString (t : Z) : string :=
  let '(y, m, d) := civil_from_days (t / 86400000) in
  let ms := t mod 86400000 in
  year_string y +:+ "-" +:+ padded 2 m +:+ "-" +:+ padded 2 d
  +:+ "T" +:+ padded 2 (ms / 3600000)
  +:+ ":" +:+ padded 2 (ms / 60000 mod 60)
  +:+ ":" +:+ padded 2 (ms / 1000 mod 60)
  +:+ "." +:+ padded 3 (ms mod 1000) +:+ "Z".

(** Reads exactly [n] digits. *)
Definition fixed (n : nat) (s : string) : option (Z * string) :=
  let '(v, len, rest) := digits 0 0 s in
  if (len =? n)%nat then Some (v, rest) else None.

Definition expect (c : ascii) (s : string) : option string :=
  match s with
  | String c' s' => if Ascii.eqb c c' then Some s' else None
  | EmptyString => None
  end.

(** [Date.parse] on the format of [toISOString] with a four-digit year;
    every other string is not a date. *)
Definition Date_parse (s : string) : option Z :=
  '(y, s) ← fixed 4 s; s ← expect "-" s;
  '(m, s) ← fixed 2 s; s ← expect "-" s;
  '(d, s) ← fixed 2 s; s ← expect "T" s;
  '(hh, s) ← fixed 2 s; s ← expect ":" s;
  '(mm, s) ← fixed 2 s; s ← expect ":" s;
  '(ss, s) ← fixed 2 s; s ← expect "." s;
  '(ms, s) ← fixed 3 s; s ← expect "Z" s;
  let t := days_from_civil y m d * 86400000
           + hh * 3600000 + mm * 60000 + ss * 1000 + ms in
  if String.eqb s "" && String.eqb (Date_toISOString t)
       (year_string y +:+ "-" +:+ padded 2 m +:+ "-" +:+ padded 2 d
        +:+ "T" +:+ padded 2 hh +:+ ":" +:+ padded 2 mm +:+ ":" +:+ padded 2 ss
        +:+ "." +:+ padded 3 ms +:+ "Z")
  then Some t else None.

(** *** JSON text *)

Definition hex_digit (n : Z) : ascii :=
  ascii_of_N (Z.to_N (if n <? 10 then 48 + n else 87 + n)).

Definition dquote : string := String (ascii_of_N 34) EmptyString.

(** The characters of a string literal. *)
Fixpoint escape (s : string) : string :=
  match s with
  | EmptyString => EmptyString
  | String c s' =>
      let n := Z.of_N (N_of_ascii c) in
      (if n =? 34 then "\" +:+ dquote
       else if n =? 92 then "\\"
       else if n =? 8 then "\b"
       else if n =? 9 then "\t"
       else if n =? 10 then "\n"
       else if n =? 12 then "\f"
       else if n =? 13 then "\r"
       else if n <? 32 then
         "\u00" +:+ String (hex_digit (n / 16)) (String (hex_digit (n mod 16)) "")
       else String c "")
      +:+ escape s'
  end.

Definition quote (s : string) : string := dquote +:+ escape s +:+ dquote.

(** [m * 10^(-e)] in decimal notation. *)
Definition number_string (m : Z) (e : nat) : string :=
  let sign := if m <? 0 then "-" else "" in
  let a := Z.abs m in
  let p := 10 ^ Z.of_nat e in
  match e with
  | O => sign +:+ pretty a
  | _ => sign +:+ pretty (a / p) +:+ "." +:+ padded e (a mod p)
  end.

Fixpoint join (sep : string) (xs : list string) : string :=
  match xs with
  | [] => ""
  | [x] => x
  | x :: xs' => x +:+ sep +:+ join sep xs'
  end.

Definition spaces (n : nat) : string := string_of_list_ascii (repeat " "%char n).

Definition newline : string := String (ascii_of_N 10) "".

(** [JSON.stringify(v, null, indent)] at nesting depth [depth]; with
    [indent = 0] this is [JSON.stringify(v)].  A property whose value is
    [undefined] is left out, an [undefined] element is written [null], a
    date is written as its [toJSON()]. *)
Fixpoint stringify_at (indent depth : nat) (v : value) : string :=
  let open := if (indent =? 0)%nat then ""
              else newline +:+ spaces (indent * S depth) in
  let close := if (indent =? 0)%nat then ""
               else newline +:+ spaces (indent * depth) in
  let colon := if (indent =? 0)%nat then ":" else ": " in
  match v with
  | VUndef => "undefined"
  | VNull => "null"
  | VBool b => if b then "true" else "false"
  | VNum m e => number_string m e
  | VStr s => quote s
  | VDate (Some t) => quote (Date_toISOString t)
  | VDate None => "null"
  | VArr xs =>
      match xs with
      | [] => "[]"
      | _ =>
          "[" +:+ open
          +:+ join ("," +:+ open)
                (map (fun x => match x with
                               | VUndef => "null"
                               | _ => stringify_at indent (S depth) x
                               end) xs)
          +:+ close +:+ "]"
      end
  | VObj fs =>
      let members :=
        (fix go (fs : list (string * value)) : list string :=
           match fs with
           | [] => []
           | (_, VUndef) :: fs' => go fs'
           | (k, x) :: fs' =>
               (quote k +:+ colon +:+ stringify_at indent (S depth) x) :: go fs'
           end) fs in
      match members with
      | [] => "{}"
      | _ => "{" +:+ open +:+ join ("," +:+ open) members +:+ close +:+ "}"
      end
  end.

Definition JSON_stringify (v : value) : string := stringify_at 0 0 v.
Definition JSON_stringify_2 (v : value) : string := stringify_at 2 0 v.

(** *** JSON.parse *)

Definition code (c : ascii) : Z := Z.of_N (N_of_ascii c).

Fixpoint skip_ws (s : string) : string :=
  match s with
  | String c s' =>
      let n := code c in
      if (n =? 32) || (n =? 9) || (n =? 10) || (n =? 13) then skip_ws s' else s
  | EmptyString => s
  end.

Definition hex (c : ascii) : option Z :=
  let n := code c in
  if (48 <=? n) && (n <=? 57) then Some (n - 48)
  else if (97 <=? n) && (n <=? 102) then Some (n - 87)
  else if (65 <=? n) && (n <=? 70) then Some (n - 55)
  else None.

Definition byte (n : Z) : string := String (ascii_of_N (Z.to_N n)) "".

(** UTF-8 of a code point of the basic plane. *)
Definition utf8 (cp : Z) : string :=
  if cp <? 128 then byte cp
  else if cp <? 2048 then byte (192 + cp / 64) +:+ byte (128 + cp mod 64)
  else byte (224 + cp / 4096) +:+ byte (128 + cp / 64 mod 64)
       +:+ byte (128 + cp mod 64).

(** The character of a one-letter escape. *)
Definition unescape (n : Z) : option Z :=
  if (n =? 34) || (n =? 92) || (n =? 47) then Some n
  else if n =? 98 then Some 8
  else if n =? 102 then Some 12
  else if n =? 110 then Some 10
  else if n =? 114 then Some 13
  else if n =? 116 then Some 9
  else None.

(** The rest of a string literal, after its opening quote. *)
Fixpoint parse_chars (s : string) : option (string * string) :=
  match s with
  | EmptyString => None
  | String c s' =>
      let n := code c in
      if n =? 34 then Some ("", s')
      else if n =? 92 then
        match s' with
        | EmptyString => None
        | String e s'' =>
            if code e =? 117 then
              match s'' with
              | String a (String b (String c (String d rest))) =>
                  match hex a, hex b, hex c, hex d with
                  | Some x3, Some x2, Some x1, Some x0 =>
                      match parse_chars rest with
                      | Some (t, r) =>
                          Some (utf8 (4096 * x3 + 256 * x2 + 16 * x1 + x0) +:+ t, r)
                      | None => None
                      end
                  | _, _, _, _ => None
                  end
              | _ => None
              end
            else
              match unescape (code e), parse_chars s'' with
              | Some u, Some (t, r) => Some (byte u +:+ t, r)
              | _, _ => None
              end
        end
      else if n <? 32 then None
      else match parse_chars s' with
           | Some (t, r) => Some (String c t, r)
           | None => None
           end
  end.

Definition starts (n : Z) (s : string) : option string :=
  match s with
  | String c s' => if code c =? n then Some s' else None
  | EmptyString => None
  end.

(** A number token: sign, digits, optional fraction, optional exponent. *)
Definition parse_number (s : string) : option (value * string) :=
  let '(neg, s1) := match starts 45 s with
                    | Some s' => (true, s')
                    | None => (false, s)
                    end in
  let '(ip, iplen, s2) := digits 0 0 s1 in
  if (iplen =? 0)%nat then None
  else
    '(m, e, s3) ← match starts 46 s2 with
                  | Some s' =>
                      let '(v, len, r) := digits ip 0 s' in
                      if (len =? 0)%nat then None else Some (v, len, r)
                  | None => Some (ip, 0%nat, s2)
                  end;
    '(x, s4) ← match (if starts 101 s3 is Some s' then Some s' else starts 69 s3) with
               | Some s' =>
                   let '(xneg, s'') :=
                     match starts 45 s' with
                     | Some r => (true, r)
                     | None => (false, default s' (starts 43 s'))
                     end in
                   let '(v, len, r) := digits 0 0 s'' in
                   if (len =? 0)%nat then None
                   else Some (if xneg : bool then - v else v, r)
               | None => Some (0, s3)
               end;
    let m := if neg : bool then - m else m in
    let e' := Z.of_nat e - x in
    Some (if 0 <=? e' then VNum m (Z.to_nat e') else VNum (m * 10 ^ (- e')) 0,
          s4).

Definition keyword (k : string) (v : value) (s : string)
  : option (value * string) :=
  if String.prefix k s
  then Some (v, String.substring (String.length k)
                  (String.length s - String.length k) s)
  else None.

(** Values, the elements of an array after its bracket, and the members of
    an object after its brace.  Of two members with one key the last gives
    the value, the first the place. *)
Fixpoint parse_value (fuel : nat) (s : string) {struct fuel}
  : option (value * string) :=
  match fuel with
  | O => None
  | S fuel' =>
      let s := skip_ws s in
      match s with
      | EmptyString => None
      | String c rest =>
          let n := code c in
          if n =? 110 then keyword "null" VNull s
          else if n =? 116 then keyword "true" (VBool true) s
          else if n =? 102 then keyword "false" (VBool false) s
          else if n =? 34 then
            match parse_chars rest with
            | Some (t, r) => Some (VStr t, r)
            | None => None
            end
          else if n =? 91 then
            match starts 93 (skip_ws rest) with
            | Some r => Some (VArr [], r)
            | None =>
                match parse_elements fuel' rest with
                | Some (xs, r) => Some (VArr xs, r)
                | None => None
                end
            end
          else if n =? 123 then
            match starts 125 (skip_ws rest) with
            | Some r => Some (VObj [], r)
            | None =>
                match parse_members fuel' [] rest with
                | Some (fs, r) => Some (VObj fs, r)
                | None => None
                end
            end
          else parse_number s
      end
  end
with parse_elements (fuel : nat) (s : string) {struct fuel}
  : option (list value * string) :=
  match fuel with
  | O => None
  | S fuel' =>
      match parse_value fuel' s with
      | None => None
      | Some (v, r) =>
          match starts 44 (skip_ws r), starts 93 (skip_ws r) with
          | Some r', _ =>
              match parse_elements fuel' r' with
              | Some (vs, r'') => Some (v :: vs, r'')
              | None => None
              end
          | None, Some r' => Some ([v], r')
          | None, None => None
          end
      end
  end
with parse_members (fuel : nat) (acc : list (string * value)) (s : string)
  {struct fuel} : option (list (string * value) * string) :=
  match fuel with
  | O => None
  | S fuel' =>
      match starts 34 (skip_ws s) with
      | None => None
      | Some s1 =>
          match parse_chars s1 with
          | None => None
          | Some (k, s2) =>
              match starts 58 (skip_ws s2) with
              | None => None
              | Some s3 =>
                  match parse_value fuel' s3 with
                  | None => None
                  | Some (v, r) =>
                      let acc' := obj_set k v acc in
                      match starts 44 (skip_ws r), starts 125 (skip_ws r) with
                      | Some r', _ => parse_members fuel' acc' r'
                      | None, Some r' => Some (acc', r')
                      | None, None => None
                      end
                  end
              end
          end
      end
  end.

Definition JSON_parse (s : string) : option value :=
  match parse_value (2 * String.length s + 2) s with
  | Some (v, r) => if String.eqb (skip_ws r) "" then Some v else None
  | None => None
  end.

(** ToString of a value, and ToNumber of a string holding a decimal
    number (other strings are NaN, the empty string is 0). *)
Fixpoint ToString (v : value) : string :=
  match v with
  | VUndef => "undefined"
  | VNull => "null"
  | VBool b => if b then "true" else "false"
  | VNum m e => number_string m e
  | VStr s => s
  | VDate (Some t) => Date_toISOString t
  | VDate None => "Invalid Date"
  | VArr xs =>
      join "," (map (fun x => match x with
                              | VUndef | VNull => ""
                              | _ => ToString x
                              end) xs)
  | VObj _ => "[object Object]"
  end.

Definition StringToNumber (s : string) : option (Z * nat) :=
  if String.eqb (skip_ws s) "" then Some (0, 0%nat)
  else match parse_number (skip_ws s) with
       | Some (VNum m e, r) =>
           if String.eqb (skip_ws r) "" then Some (m, e) else None
       | _ => None
       end.

End Browser.

(** ** Notions used by the statements *)

(** The record that [StorageUtils.set] serializes. *)
Definition item (v : value) (now : Z) : value :=
  VObj [("value", v); ("timestamp", VInt now); ("expiresAt", VUndef)].

(** A value as [JSON.parse] builds them: no [undefined], no date. *)
Fixpoint pure (v : value) : bool :=
  match v with
  | VUndef | VDate _ => false
  | VNull | VBool _ | VNum _ _ | VStr _ => true
  | VArr xs => forallb pure xs
  | VObj fs => forallb (fun kv => pure kv.2) fs
  end.

Section Stored.

Variable JSON_parse : string -> option value.
Variable JSON_stringify : value -> string.
Variable Date_toISOString : Z -> string.

(** Writing [v] and parsing the text gives back what was written. *)
Definition reads_back (v : value) : Prop :=
  JSON_parse (JSON_stringify v) = Some (toJSON Date_toISOString v)
  /\ JSON_stringify v <> "".

(** The store holds, under [key], a record without expiry whose value is
    [v]. *)
Definition holds (ls : gmap string string) (key : string) (v : value)
  : Prop :=
  exists raw fs,
    ls !! (Store.prefix +:+ key) = Some raw
    /\ raw <> ""
    /\ JSON_parse raw = Some (VObj fs)
    /\ assoc "value" fs = Some v
    /\ assoc "expiresAt" fs = None.

(** The bucket that [getCurrentData] saves when the stored one lacks a
    display mode. *)
Definition migratedData (fs ms : list (string * value)) (settings : value)
    (now : Z) : value :=
  let data :=
    VObj (obj_set "settings"
            (VObj (obj_set "displayMode" Store.defaultDisplayMode
                     (spread settings))) fs) in
  let data1 :=
    VObj (obj_set "metadata" (VObj (obj_set "lastUpdated" (VInt now) ms))
            (spread data)) in
  VObj (obj_set "metadata"
          (VObj (obj_set "storageSize"
                   (VInt (Store.Blob_size (JSON_stringify data1)))
                   (obj_set "lastUpdated" (VInt now) ms)))
          (spread data1)).

End Stored.

(** A stored segment as [saveTranscripts] writes those with a valid date:
    an object of parsed values whose [timestamp] is the ISO string of a
    date. *)
Definition stamped (Date_parse : string -> option Z)
    (Date_toISOString : Z -> string) (x : value) : bool :=
  match x with
  | VObj fs =>
      match assoc "timestamp" fs with
      | Some (VStr s) =>
          match Date_parse s with
          | Some t => String.eqb (Date_toISOString t) s && pure x
          | None => false
          end
      | _ => false
      end
  | _ => false
  end.

(** ** Example data *)

Module Examples.
Import ApiUtils.

Definition ok_body : value :=
  VObj [("success", VBool true); ("message", VStr "ok");
        ("data", VObj [("transcript", VStr "hello"); ("confidence", VNum 93 2)]);
        ("timestamp", VInt 1704067200000)].

(** An endpoint that answers 500 twice, then 200. *)
Definition flaky (attempt : nat) : outcome :=
  if (attempt <? 3)%nat then Response 500 "Internal Server Error" "boom"
  else Response 200 "OK" "{}".

(** An endpoint that always answers with the same status. *)
Definition always (status : Z) (attempt : nat) : outcome :=
  Response status "" "".

(** A desktop browser where everything works. *)
Definition chrome : AudioRecorder.platform :=
  AudioRecorder.Platform false true (fun _ => true) None None None.

(** A browser that grants the microphone and then cannot build the
    recorder. *)
Definition no_recorder : AudioRecorder.platform :=
  AudioRecorder.Platform false true (fun _ => false) None
    (Some (AudioRecorder.JsError "NotSupportedError"
             "Failed to construct 'MediaRecorder'")) None.

(** A parent whose [onRecordingComplete] returns. *)
Definition returns (size : Z) (format : string) : option string := None.

(** A browser with room for the write; one that refuses every write: its
    storage is full, or disabled; and one with room for 200 characters
    more. *)
Definition roomy (key raw : string) (ls : gmap string string) : bool := false.
Definition full (key raw : string) (ls : gmap string string) : bool := true.
Definition cramped (key raw : string) (ls : gmap string string) : bool :=
  200 <? Z.of_nat (String.length raw).

(** The program on the concrete platform, in a browser with room. *)
Module Run.
Definition get := Store.get Browser.JSON_parse Browser.ToString
                    Browser.StringToNumber.
Definition set := Store.set Browser.JSON_stringify.
Definition getSettings :=
  Store.getSettings Browser.JSON_parse Browser.JSON_stringify
    Browser.ToString Browser.StringToNumber.
Definition getCurrentDate := Store.getCurrentDate Browser.Date_toISOString.
Definition getCurrentData :=
  Store.getCurrentData Browser.JSON_parse Browser.JSON_stringify
    Browser.Date_toISOString Browser.ToString Browser.StringToNumber.
Definition resetDailyData :=
  Store.resetDailyData Browser.JSON_parse Browser.JSON_stringify
    Browser.Date_toISOString Browser.ToString Browser.StringToNumber.
Definition revive := Store.revive Browser.Date_parse Browser.ToString.
Definition getTranscripts :=
  Store.getTranscripts Browser.JSON_parse Browser.Date_parse
    Browser.ToString Browser.StringToNumber.
Definition saveTranscripts :=
  Store.saveTranscripts Browser.JSON_stringify roomy.
Definition addTranscripts :=
  Store.addTranscripts Browser.JSON_parse Browser.JSON_stringify
    Browser.Date_parse Browser.ToString Browser.StringToNumber roomy.
Definition exportTranscripts :=
  Store.exportTranscripts Browser.JSON_parse Browser.JSON_stringify_2
    Browser.Date_parse Browser.ToString Browser.StringToNumber.
Definition importTranscripts :=
  Store.importTranscripts Browser.JSON_parse Browser.JSON_stringify
    Browser.Date_parse Browser.ToString roomy.
End Run.

(** 2024-01-01T10:00:00Z and 2024-01-02T10:00:00Z *)
Definition jan1 : Z := 1704103200000.
Definition jan2 : Z := 1704189600000.

(** A store whose settings and transcripts are not JSON. *)
Definition corrupt_store : gmap string string :=
  <["tonebridge_settings" := "{oops"]>
    (<["tonebridge_transcripts" := "{oops"]> ∅).

(** Settings saved before display modes existed. *)
Definition old_settings : value :=
  VObj [("theme", VStr "dark"); ("fontSize", VStr "large");
        ("showEmojis", VBool true); ("showTags", VBool false);
        ("autoSave", VBool true);
        ("accessibility",
         VObj [("reducedMotion", VBool true);
               ("dyslexiaFriendly", VBool false)])].

Definition emoji_only : value :=
  VObj [("id", VStr "emoji-only"); ("name", VStr "Emojis Only");
        ("description", VStr "Show only emotion emojis");
        ("icon", VStr "happyOutline")].

Definition dark_settings : value :=
  VObj (obj_set "displayMode" emoji_only (spread old_settings)).

(** A stored segment: its timestamp is the ISO string or, for [None],
    [null]. *)
Definition stored_segment (id : string) (timestamp : value) : value :=
  VObj [("id", VStr id); ("text", VStr "good morning");
        ("emotion", VStr "joy"); ("emoji", VStr ":)");
        ("confidence", VNum 93 2); ("timestamp", timestamp)].

Definition bucket (date : string) (settings : value) : value :=
  VObj [("date", VStr date); ("settings", settings);
        ("transcripts",
         VArr [stored_segment "1704103140000"
                 (VStr "2024-01-01T09:59:00.000Z")]);
        ("metadata",
         VObj [("lastUpdated", VInt 1704103200000); ("storageSize", VInt 512);
               ("transcriptCount", VInt 1);
               ("themeLastChanged", VInt 1704103200000)])].

(** The store after [StorageUtils.set(key, v)] at [jan1] on an empty
    store. *)
Definition store_of (key : string) (v : value) : gmap string string :=
  Run.set key v None jan1 ∅.

(** Two segments as the page builds them. *)
Definition earlier : value :=
  stored_segment "1" (VDate (Some 1704103140000)).
Definition later : value :=
  stored_segment "2" (VDate (Some 1704189540000)).

End Examples.

(** ** The callers of ApiUtils.request, and ErrorUtils *)

Module ApiCallers.
Import ApiUtils.

(** The result of [getApiStatus]. *)
Record api_status : Type := ApiStatus {
  connected : bool;
  url : string;
  error : option string;
  responseTime : Z
}.

Section Callers.

Variable body_json : string -> res value.
(** The outcome of each [fetch], by endpoint and attempt. *)
Variable fetch : string -> nat -> outcome.
Variable baseUrl : string.
(** [Date.now() - startTime] when [getApiStatus] returns. *)
Variable elapsed : Z.

(** [ApiUtils.get] and [ApiUtils.post] *)
Definition get (endpoint : string) : res value * list event :=
  request body_json (fetch endpoint).

Definition post (endpoint : string) : res value * list event :=
  request body_json (fetch endpoint).

(** [testConnection] returns [response.success], or [false] from its
    [catch]. *)
Definition testConnection : value * list event :=
  let '(r, evs) := get "/health" in
  (catch (let* response := r in prop response "success")
     (fun _ => VBool false), evs).

Definition getApiStatus : api_status * list event :=
  let '(r, evs) := get "/health" in
  match r with
  | Ok _ => (ApiStatus true baseUrl None elapsed, evs)
  | Throw msg => (ApiStatus false baseUrl (Some msg) elapsed, evs)
  end.

End Callers.

End ApiCallers.

Module ErrorUtils.

(** [isNetworkError], on the message of the error. *)
Definition isNetworkError (message : string) : bool :=
  includes message "fetch" || includes message "network"
  || includes message "abort".

End ErrorUtils.

(** ** The rest of the storage managers *)

Module Managers.
Import Store.

Section Platform.

Variable JSON_parse : string -> option value.
Variable JSON_stringify : value -> string.
Variable Date_parse : string -> option Z.
Variable Date_toISOString : Z -> string.
Variable ToString : value -> string.
Variable StringToNumber : string -> option (Z * nat).

(** *** StorageUtils *)

(** [StorageUtils.clear]: every key that starts with the prefix is
    removed. *)
Definition clear (ls : gmap string string) : gmap string string :=
  filter (fun kv => String.prefix prefix kv.1 = false) ls.

(** *** DailyStorageManager *)

Definition isNewDay (now : Z) (ls : gmap string string)
  : res (bool * gmap string string) :=
  let '(stored, ls1) := get JSON_parse ToString StringToNumber STORAGE_KEY
                          now ls in
  if negb (truthy stored) then Ok (true, ls1)
  else let* date := prop stored "date" in
       Ok (differs date (getCurrentDate Date_toISOString now), ls1).

Definition clearCurrentData (ls : gmap string string) : gmap string string :=
  remove STORAGE_KEY ls.

(** *** ThemeStorageManager *)

(** [data.k1.k2 = v], in strict mode; as for [set_metadata], a property
    added to an array or a date does not show in what is serialized. *)
Definition assign2 (k1 k2 : string) (v : value) (data : value) : res value :=
  let* inner := prop data k1 in
  match inner with
  | VUndef | VNull => Throw "TypeError: Cannot set properties"
  | VObj fs => Ok (VObj (obj_set k1 (VObj (obj_set k2 v fs)) (spread data)))
  | VArr _ | VDate _ => Ok data
  | VBool _ | VNum _ _ | VStr _ => Throw "TypeError: Cannot create property"
  end.

(** [data.k = v] *)
Definition assign (k : string) (v : value) (data : value) : res value :=
  match data with
  | VUndef | VNull => Throw "TypeError: Cannot set properties"
  | VObj fs => Ok (VObj (obj_set k v fs))
  | VArr _ | VDate _ => Ok data
  | VBool _ | VNum _ _ | VStr _ => Throw "TypeError: Cannot create property"
  end.

#[local] Abbreviation getCurrentData :=
  (getCurrentData JSON_parse JSON_stringify Date_toISOString ToString
     StringToNumber).
#[local] Abbreviation saveData := (saveData JSON_stringify).

Definition getCurrentTheme (now : Z) (ls : gmap string string)
  : res (value * gmap string string) :=
  let* r := getCurrentData now ls in
  let* settings := prop r.1 "settings" in
  let* theme := prop settings "theme" in
  Ok (theme, r.2).

Definition saveTheme (theme : value) (now : Z) (ls : gmap string string)
  : res (gmap string string) :=
  let* r := getCurrentData now ls in
  let* data1 := assign2 "settings" "theme" theme r.1 in
  let* data2 := assign2 "metadata" "themeLastChanged" (VInt now) data1 in
  let* r3 := saveData data2 now r.2 in
  let* settings := prop r3.1 "settings" in
  Ok (saveSettings JSON_stringify settings now r3.2).

Definition getSettings (now : Z) (ls : gmap string string)
  : res (value * gmap string string) :=
  let* r := getCurrentData now ls in
  let* settings := prop r.1 "settings" in
  Ok (settings, r.2).

Definition saveSettings (settings : value) (now : Z) (ls : gmap string string)
  : res (gmap string string) :=
  let* r := getCurrentData now ls in
  let* data1 := assign "settings" settings r.1 in
  let* data2 := assign2 "metadata" "themeLastChanged" (VInt now) data1 in
  let* r3 := saveData data2 now r.2 in
  Ok (Store.saveSettings JSON_stringify settings now r3.2).

(** [ThemeStorageManager.initialize] *)
Definition initialize (now : Z) (ls : gmap string string)
  : res (gmap string string) :=
  let '(legacySettings, ls1) :=
    get JSON_parse ToString StringToNumber "settings" now ls in
  if truthy legacySettings then saveSettings legacySettings now ls1
  else Ok ls1.

(** *** TranscriptStorageManager *)

(** [getStorageInfo]: the count and the size; the limit is
    [MAX_STORAGE_SIZE]. *)
Definition getStorageInfo (now : Z) (ls : gmap string string)
  : (nat * Z * Z) * gmap string string :=
  let '(transcripts, ls1) :=
    getTranscripts JSON_parse Date_parse ToString StringToNumber now ls in
  ((length transcripts, size_of JSON_stringify transcripts, MAX_STORAGE_SIZE),
   ls1).

(** The sequence that [saveTranscripts] hands to [StorageUtils.set]. *)
Definition evicted (transcripts : list value) : list value :=
  let limitedTranscripts := slice_last MAX_TRANSCRIPTS transcripts in
  if MAX_STORAGE_SIZE <? size_of JSON_stringify limitedTranscripts
  then reduceTranscriptsToFit JSON_stringify limitedTranscripts
  else limitedTranscripts.

End Platform.

End Managers.

(** ** The Home page: from a recording to a saved segment *)

Module Home.
Import ApiUtils.

(** The state of the page that the handlers read and write, the
    [localStorage], and the requests made, by endpoint, oldest first.  A
    toast is its message and its type. *)
Record state : Type := State {
  transcriptionSegments : list value;
  isProcessing : bool;
  isRecording : bool;
  toasts : list (string * string);
  localStorage : gmap string string;
  requests : list (string * list event)
}.

(** What a [catch] block receives: an [Error] with its message, or a value
    that is not an [Error]. *)
Inductive thrown : Type :=
| AnError (message : string)
| NotAnError.

(** The message that the [catch] block of [handleRecordingComplete]
    shows. *)
Definition user_message (error : thrown) : string :=
  match error with
  | NotAnError => "Transcription failed"
  | AnError m =>
      if includes m "Cannot connect to server" then
        "Cannot connect to server. Please check your internet connection and try again."
      else if includes m "Network error" then
        "Network connection issue. Please check your connection and try again."
      else if includes m "Request timed out" then
        "Request timed out. Please try again."
      else if includes m "Audio file too large" then
        "Recording too long. Please record a shorter message."
      else m
  end.

Fixpoint filterM (f : value -> res bool) (xs : list value) : res (list value) :=
  match xs with
  | [] => Ok []
  | x :: xs' =>
      let* keep := f x in
      let* ys := filterM f xs' in
      Ok (if keep : bool then x :: ys else ys)
  end.

(** [segment.text.length], for [trackTranscription]: reading [length] of
    [undefined] or [null] throws. *)
Definition text_length (segment : value) : res unit :=
  let* text := prop segment "text" in
  match text with
  | VUndef | VNull => Throw "TypeError: Cannot read properties"
  | _ => Ok tt
  end.

Section Handlers.

Variable body_json : string -> res value.
(** The outcome of each [fetch], by endpoint and attempt. *)
Variable fetch : string -> nat -> outcome.
Variable JSON_stringify : value -> string.
(** [String(v)] *)
Variable ToString : value -> string.
(** [blobToBase64(recording.blob)]: the text, or a rejection with the
    event of the FileReader, which is not an [Error]. *)
Variable blobToBase64 : option string.
(** Whether [localStorage.setItem] refuses a write. *)
Variable quota_exceeded : string -> string -> gmap string string -> bool.

Definition showToast (message type : string) (st : state) : state :=
  State (transcriptionSegments st) (isProcessing st) (isRecording st)
    (toasts st ++ [(message, type)]) (localStorage st) (requests st).

Definition requested (endpoint : string) (evs : list event) (st : state)
  : state :=
  State (transcriptionSegments st) (isProcessing st) (isRecording st)
    (toasts st) (localStorage st) (requests st ++ [(endpoint, evs)]).

(** [setTranscriptionSegments(prev => ...)] with the save inside it. *)
Definition appendSegment (segment : value) (now : Z) (st : state) : state :=
  let updatedSegments := (transcriptionSegments st ++ [segment])%list in
  State updatedSegments (isProcessing st) (isRecording st) (toasts st)
    (Store.saveTranscripts JSON_stringify quota_exceeded updatedSegments now
       (localStorage st))
    (requests st).

(** The [try] block of [handleRecordingComplete]: the state it leaves, and
    what it throws if it throws. *)
Definition try_block (now : Z) (st : state) : state * option thrown :=
  (* DebugUtils.testAudioData catches its own errors *)
  let st1 :=
    match blobToBase64 with
    | Some _ =>
        requested "/api/debug/audio"
          (request body_json (fetch "/api/debug/audio")).2 st
    | None => st
    end in
  match blobToBase64 with
  | None => (st1, Some NotAnError)
  | Some _ =>
      let '(health, evs) := request body_json (fetch "/health") in
      let st2 := requested "/health" evs st1 in
      match health with
      | Throw e =>
          (st2, Some (AnError ("Cannot connect to server: "
                               +:+ or_else e "Unknown error")))
      | Ok _ =>
          let '(r, evs') := request body_json (fetch "/api/transcribe") in
          let st3 := requested "/api/transcribe" evs' st2 in
          match r with
          | Throw e => (st3, Some (AnError e))
          | Ok response =>
              match prop response "success" with
              | Throw e => (st3, Some (AnError e))
              | Ok success =>
                  if truthy success then
                    match
                      (let* data := prop response "data" in
                       let* transcript := prop data "transcript" in
                       let* emotion := prop data "emotion" in
                       let* emoji := prop data "emotion_emoji" in
                       let* confidence := prop data "confidence" in
                       Ok (VObj [("id", VStr (pretty now));
                                 ("text", transcript);
                                 ("emotion", emotion);
                                 ("emoji", emoji);
                                 ("confidence", confidence);
                                 ("timestamp", VDate (Some now))]))
                    with
                    | Throw e => (st3, Some (AnError e))
                    | Ok newSegment =>
                        let st4 := appendSegment newSegment now st3 in
                        match text_length newSegment with
                        | Throw e => (st4, Some (AnError e))
                        | Ok _ =>
                            (showToast "Transcription completed successfully!"
                               "success" st4, None)
                        end
                    end
                  else
                    match prop response "message" with
                    | Throw e => (st3, Some (AnError e))
                    | Ok message =>
                        (st3,
                         Some (AnError
                                 (if truthy message
                                  then match message with
                                       | VStr m => m
                                       | _ => ToString message
                                       end
                                  else "Transcription failed")))
                    end
              end
          end
      end
  end.

Definition handleRecordingComplete (now : Z) (st : state) : state :=
  let st0 := State (transcriptionSegments st) true false (toasts st)
               (localStorage st) (requests st) in
  let '(st1, error) := try_block now st0 in
  let st2 :=
    match error with
    | Some e =>
        showToast ("Transcription failed: " +:+ user_message e) "error" st1
    | None => st1
    end in
  State (transcriptionSegments st2) false (isRecording st2) (toasts st2)
    (localStorage st2) (requests st2).

(** [handleRecordingError] *)
Definition handleRecordingError (error : string) (st : state) : state :=
  let st1 := showToast ("Recording error: " +:+ error) "error" st in
  State (transcriptionSegments st1) (isProcessing st1) false (toasts st1)
    (localStorage st1) (requests st1).

(** [deleteTranscript]; reading [segment.id] throws on a segment that is
    [null] or [undefined]. *)
Definition deleteTranscript (segmentId : string) (now : Z) (st : state)
  : res state :=
  let* updatedSegments :=
    filterM (fun segment =>
               let* id := prop segment "id" in
               Ok (Store.differs id segmentId))
      (transcriptionSegments st) in
  Ok (showToast "Transcript deleted" "success"
        (State updatedSegments (isProcessing st) (isRecording st) (toasts st)
           (Store.saveTranscripts JSON_stringify quota_exceeded
              updatedSegments now (localStorage st))
           (requests st))).

(** [clearTranscript] *)
Definition clearTranscript (st : state) : state :=
  showToast "Transcript cleared" "info"
    (State [] (isProcessing st) (isRecording st) (toasts st)
       (Store.clearTranscripts (localStorage st)) (requests st)).

End Handlers.

End Home.

(** ** AudioUtils and FormatUtils *)

Module Format.

(** [s.padStart(n, '0')] *)
Definition padStart (n : nat) (s : string) : string :=
  string_of_list_ascii (repeat "0"%char (n - String.length s)) +:+ s.

(** [AudioUtils.formatDuration], for the number [m * 10^(-e)] of seconds.
    [seconds % 60] has the sign of [seconds] (it is [Z.rem]); [Math.floor]
    rounds down. *)
Definition formatDuration (m : Z) (e : nat) : string :=
  let unit := 10 ^ Z.of_nat e in
  let mins := m / (60 * unit) in
  let secs := Z.rem m (60 * unit) / unit in
  pretty mins +:+ ":" +:+ padStart 2 (pretty secs).

(** A text as [length] and [substring] measure it: the sequence of its
    UTF-16 code units.  [units s] is the text of an ASCII literal. *)
Definition units (s : string) : list N :=
  N_of_ascii <$> list_ascii_of_string s.

(** [text.substring(0, n)] for an integer [n]: a negative [n] counts as 0,
    and one beyond the length as the length. *)
Definition substring0 (n : Z) (text : list N) : list N :=
  take (Z.to_nat n) text.

(** [FormatUtils.truncateText], for an integer [maxLength] *)
Definition truncateText (text : list N) (maxLength : Z) : list N :=
  if Z.of_nat (length text) <=? maxLength then text
  else (substring0 maxLength text ++ units "...")%list.

End Format.

(** ** More notions used by the statements *)

(** A segment in memory that comes back from the store as it is: an object
    whose [timestamp] is a date that [Date.parse] reads back from its ISO
    string, and whose other properties are parsed values. *)
Definition loadable (Date_parse : string -> option Z)
    (Date_toISOString : Z -> string) (y : value) : bool :=
  match y with
  | VObj fs =>
      match assoc "timestamp" fs with
      | Some (VDate (Some t)) =>
          match Date_parse (Date_toISOString t) with
          | Some t' => (t' =? t) && pure (VObj (obj_set "timestamp" VNull fs))
          | None => false
          end
      | _ => false
      end
  | _ => false
  end.

(** The record that [StorageUtils.set] serializes for a value that
    expires. *)
Definition expiring_item (v : value) (now expiresAt : Z) : value :=
  VObj [("value", v); ("timestamp", VInt now); ("expiresAt", VInt expiresAt)].

(** ** More example data *)

Module MoreExamples.
Import ApiUtils.

(** A fetch that the timeout aborts. *)
Definition timed_out (attempt : nat) : outcome :=
  Rejected "signal is aborted without reason".

(** A gateway whose error page mentions an aborted upstream. *)
Definition bad_gateway (attempt : nat) : outcome :=
  Response 502 "Bad Gateway" "upstream connect aborted".

(** A bucket written without [metadata], before display modes existed. *)
Definition bare_bucket (date : string) : value :=
  VObj [("date", VStr date); ("settings", Examples.old_settings);
        ("transcripts", VArr [])].


(** A segment as the page builds it. *)
Definition live_segment (id : string) (t : Z) : value :=
  VObj [("id", VStr id); ("text", VStr "good morning");
        ("emotion", VStr "joy"); ("emoji", VStr ":)");
        ("confidence", VNum 93 2); ("timestamp", VDate (Some t))].

(** A server that cannot be reached, and one that refuses the audio as
    too large and answers every other request. *)
Definition server_down (endpoint : string) (attempt : nat) : outcome :=
  Rejected "Failed to fetch".

Definition audio_too_large (endpoint : string) (attempt : nat) : outcome :=
  if String.eqb endpoint "/api/transcribe"
  then Response 413 "Payload Too Large" ""
  else Response 200 "OK" "{}".

Definition home : Home.state :=
  Home.State [live_segment "1" 1704103140000; live_segment "2" 1704103150000]
    false true [] ∅ [].

(** The rest of the program on the concrete platform. *)
Module Run.
Definition isNewDay :=
  Managers.isNewDay Browser.JSON_parse Browser.Date_toISOString
    Browser.ToString Browser.StringToNumber.
Definition saveTheme :=
  Managers.saveTheme Browser.JSON_parse Browser.JSON_stringify
    Browser.Date_toISOString Browser.ToString Browser.StringToNumber.
Definition getCurrentTheme :=
  Managers.getCurrentTheme Browser.JSON_parse Browser.JSON_stringify
    Browser.Date_toISOString Browser.ToString Browser.StringToNumber.
Definition initialize :=
  Managers.initialize Browser.JSON_parse Browser.JSON_stringify
    Browser.Date_toISOString Browser.ToString Browser.StringToNumber.
Definition getStorageInfo :=
  Managers.getStorageInfo Browser.JSON_parse Browser.JSON_stringify
    Browser.Date_parse Browser.ToString Browser.StringToNumber.
Definition evicted := Managers.evicted Browser.JSON_stringify.
Definition handleRecordingComplete fetch blobToBase64 :=
  Home.handleRecordingComplete (fun _ => Ok Examples.ok_body) fetch
    Browser.JSON_stringify Browser.ToString blobToBase64 Examples.roomy.
Definition deleteTranscript :=
  Home.deleteTranscript Browser.JSON_stringify Examples.roomy.
End Run.

End MoreExamples.

(** ** Calls of the transcript store *)

Module Calls.
Import Store.

Inductive call : Type :=
| SaveTranscripts (transcripts : list value)
| AddTranscript (transcript : value)
| AddTranscripts (newTranscripts : list value).

Section Platform.

Variable JSON_parse : string -> option value.
Variable JSON_stringify : value -> string.
Variable Date_parse : string -> option Z.
Variable ToString : value -> string.
Variable StringToNumber : string -> option (Z * nat).
Variable quota_exceeded : string -> string -> gmap string string -> bool.

(** The call [c.1], made at the time [c.2]. *)
Definition perform (ls : gmap string string) (c : call * Z)
  : gmap string string :=
  match c.1 with
  | SaveTranscripts transcripts =>
      saveTranscripts JSON_stringify quota_exceeded transcripts c.2 ls
  | AddTranscript transcript =>
      addTranscript JSON_parse JSON_stringify Date_parse ToString
        StringToNumber quota_exceeded transcript c.2 ls
  | AddTranscripts newTranscripts =>
      addTranscripts JSON_parse JSON_stringify Date_parse ToString
        StringToNumber quota_exceeded newTranscripts c.2 ls
  end.

(** What the store holds under the transcripts key, if anything, is the
    record of a sequence within the two limits. *)
Definition within_limits (ls : gmap string string) : Prop :=
  forall raw, ls !! "tonebridge_transcripts" = Some raw ->
    exists kept t,
      raw = JSON_stringify (item (VArr kept) t)
      /\ (length kept <= MAX_TRANSCRIPTS)%nat
      /\ (size_of JSON_stringify kept <= MAX_STORAGE_SIZE \/ kept = []).

End Platform.

End Calls.

(** ** The life of the recorder component *)

Module Lifecycle.
Import AudioRecorder.

(** What can happen to the component after [startRecording]: the recorder
    delivers a chunk, [stopRecording] is called (by the button or by the
    auto-stop effect), the recorder fires [stop] or [error]. *)
Inductive happening : Type :=
| DataAvailable (size : Z)
| StopRecording
| Stop
| Error (msg : option string).

(** What the component holds is reachable through its refs. *)
Definition owned (st : state) : Prop :=
  (tracks_live st = true -> streamRef st = true)
  /\ (timer_running st = true -> durationIntervalRef st = true).

Section Component.

Variable onRecordingComplete : Z -> string -> option string.

Definition handle (st : state) (h : happening) : state :=
  match h with
  | DataAvailable size => ondataavailable size st
  | StopRecording => stopRecording st
  | Stop => onstop onRecordingComplete st
  | Error msg => onerror msg st
  end.

(** The component after [startRecording] and the given happenings. *)
Definition session (p : platform) (hs : list happening) : state :=
  foldl handle (startRecording p idle) hs.

End Component.

End Lifecycle.

(** * Properties *)

(** ** The transcript store: eviction *)

Module StoreFacts.
Import Store.

Section Eviction.

Variable JSON_parse : string -> option value.
Variable JSON_stringify : value -> string.
Variable Date_parse : string -> option Z.
Variable ToString : value -> string.
Variable StringToNumber : string -> option (Z * nat).
Variable quota_exceeded : string -> string -> gmap string string -> bool.

Lemma slice_last_suffix n (ts : list value) : slice_last n ts `suffix_of` ts.
Proof. apply suffix_drop. Qed.

Lemma slice_last_length n (ts : list value) :
  (length (slice_last n ts) <= n)%nat.
Proof. unfold slice_last. rewrite length_drop. lia. Qed.

Lemma reduce_suffix (ts : list value) :
  reduceTranscriptsToFit JSON_stringify ts `suffix_of` ts.
Proof.
  induction ts as [|t ts IH]; simpl; [done|].
  destruct (_ <=? _); [done|]. by apply suffix_cons_r.
Qed.

Lemma reduce_fits (ts : list value) :
  size_of JSON_stringify (reduceTranscriptsToFit JSON_stringify ts)
    <= MAX_STORAGE_SIZE
  \/ reduceTranscriptsToFit JSON_stringify ts = [].
Proof.
  induction ts as [|t ts IH]; simpl; [by right|].
  destruct (Z.leb_spec (size_of JSON_stringify (t :: ts)) MAX_STORAGE_SIZE);
    [by left|exact IH].
Qed.

Lemma reduce_longest (ts s : list value) :
  s `suffix_of` ts ->
  (length (reduceTranscriptsToFit JSON_stringify ts) < length s)%nat ->
  MAX_STORAGE_SIZE < size_of JSON_stringify s.
Proof.
  induction ts as [|t ts IH]; simpl.
  - intros ->%suffix_nil_inv. simpl. lia.
  - destruct (Z.leb_spec (size_of JSON_stringify (t :: ts)) MAX_STORAGE_SIZE).
    + intros Hs%suffix_length. simpl in *. lia.
    + intros [[|x k] Hk]; simpl in Hk; [by subst s|].
      injection Hk as _ Hk. apply IH. by exists k.
Qed.

Lemma suffix_slice_last n (ts s : list value) :
  s `suffix_of` ts -> (length s <= n)%nat -> s `suffix_of` slice_last n ts.
Proof.
  intros [k ->] Hn. unfold slice_last.
  exists (drop (length (k ++ s) - n) k).
  rewrite length_app, drop_app_le by lia. done.
Qed.

#[local] Abbreviation evicted := (Managers.evicted JSON_stringify).

(** What [saveTranscripts] hands to the store: the longest suffix of the
    input that is within the two limits. *)
Lemma evicted_spec (ts : list value) :
  evicted ts `suffix_of` ts
  /\ (length (evicted ts) <= MAX_TRANSCRIPTS)%nat
  /\ (size_of JSON_stringify (evicted ts) <= MAX_STORAGE_SIZE
      \/ evicted ts = [])
  /\ (forall s, s `suffix_of` ts ->
        (length (evicted ts) < length s <= MAX_TRANSCRIPTS)%nat ->
        MAX_STORAGE_SIZE < size_of JSON_stringify s).
Proof.
  unfold Managers.evicted.
  destruct (Z.ltb_spec MAX_STORAGE_SIZE
              (size_of JSON_stringify (slice_last MAX_TRANSCRIPTS ts))).
  - split; [|split; [|split]].
    + etrans; [apply reduce_suffix|apply slice_last_suffix].
    + etrans; [apply suffix_length, reduce_suffix|apply slice_last_length].
    + apply reduce_fits.
    + intros s Hs [Hlt Hle].
      apply (reduce_longest (slice_last MAX_TRANSCRIPTS ts)); [|done].
      by apply suffix_slice_last.
  - split; [|split; [|split]].
    + apply slice_last_suffix.
    + apply slice_last_length.
    + by left.
    + intros s Hs%suffix_length [Hlt Hle]. unfold slice_last in Hlt.
      rewrite length_drop in Hlt. lia.
Qed.

(** The [try] and the [catch] of [saveTranscripts]. *)
Lemma saveTranscripts_written (ts : list value) now
    (ls : gmap string string) :
  saveTranscripts JSON_stringify quota_exceeded ts now ls
  = if quota_exceeded "tonebridge_transcripts"
         (JSON_stringify (item (VArr (evicted ts)) now)) ls
    then ls
    else <["tonebridge_transcripts" :=
             JSON_stringify (item (VArr (evicted ts)) now)]> ls.
Proof.
  unfold saveTranscripts, Managers.evicted, try_set, item.
  change (prefix +:+ TRANSCRIPTS_KEY) with "tonebridge_transcripts".
  destruct (_ <? _); simpl; by destruct (quota_exceeded _ _ _).
Qed.

Lemma within_limits_saveTranscripts (ts : list value) now
    (ls : gmap string string) :
  Calls.within_limits JSON_stringify ls ->
  Calls.within_limits JSON_stringify
    (saveTranscripts JSON_stringify quota_exceeded ts now ls).
Proof.
  intros Hls. rewrite saveTranscripts_written.
  destruct (quota_exceeded _ _ _); [done|].
  intros raw. rewrite lookup_insert_eq. intros [= <-].
  destruct (evicted_spec ts) as (_ & Hlen & Hsize & _).
  by exists (evicted ts), now.
Qed.

Lemma getTranscripts_store now (ls : gmap string string) :
  (getTranscripts JSON_parse Date_parse ToString StringToNumber now ls).2 = ls
  \/ (getTranscripts JSON_parse Date_parse ToString StringToNumber now ls).2
     = delete "tonebridge_transcripts" ls.
Proof.
  unfold getTranscripts, get.
  change (prefix +:+ TRANSCRIPTS_KEY) with "tonebridge_transcripts".
  destruct (ls !! "tonebridge_transcripts") as [raw|]; [|by left].
  destruct (String.eqb raw ""); [by left|].
  destruct (parse JSON_parse raw) as [parsed|]; [|by left]. simpl.
  destruct (prop parsed "expiresAt") as [expiresAt|]; [|by left]. simpl.
  destruct (truthy expiresAt && gt ToString StringToNumber now expiresAt).
  - by right.
  - destruct (prop parsed "value") as [v|]; [|by left]. simpl.
    destruct (negb (truthy v)); [by left|].
    destruct v; simpl; try (by left).
    destruct (mapM _ _); by left.
Qed.

Lemma within_limits_getTranscripts now (ls : gmap string string) :
  Calls.within_limits JSON_stringify ls ->
  Calls.within_limits JSON_stringify
    (getTranscripts JSON_parse Date_parse ToString StringToNumber now ls).2.
Proof.
  intros Hls. destruct (getTranscripts_store now ls) as [->| ->]; [done|].
  intros raw. by rewrite lookup_delete_eq.
Qed.

Lemma within_limits_perform (ls : gmap string string) c :
  Calls.within_limits JSON_stringify ls ->
  Calls.within_limits JSON_stringify
    (Calls.perform JSON_parse JSON_stringify Date_parse ToString
       StringToNumber quota_exceeded ls c).
Proof.
  intros Hls. unfold Calls.perform, addTranscript, addTranscripts.
  pose proof (within_limits_getTranscripts c.2 ls Hls) as Hread.
  destruct c.1 as [ts|x|ts].
  - by apply within_limits_saveTranscripts.
  - destruct (getTranscripts _ _ _ _ _ _) as [old ls1].
    by apply within_limits_saveTranscripts.
  - destruct (getTranscripts _ _ _ _ _ _) as [old ls1].
    by apply within_limits_saveTranscripts.
Qed.

(** C1, amended.  [saveTranscripts] hands to the store the longest suffix
    of its input that has at most 1000 segments and serializes to at most
    5*1024*1024 bytes (the oldest segments are the ones dropped, and what
    fits is kept); it is empty only when no such suffix fits.  When the
    browser takes the write, that suffix is what is persisted.  When
    [setItem] throws, the error is swallowed and the store is left as it
    was: what is persisted is then the sequence of an earlier call.  In
    both cases, on a store whose transcripts are within the two limits,
    they are within the limits after every call of any sequence of calls
    of [saveTranscripts], [addTranscript] and [addTranscripts]. *)
Theorem eviction_invariant (ts : list value) (now : Z)
    (ls : gmap string string) :
  let kept := evicted ts in
  let raw := JSON_stringify (item (VArr kept) now) in
  kept `suffix_of` ts
  /\ (length kept <= 1000)%nat
  /\ (size_of JSON_stringify kept <= 5 * 1024 * 1024 \/ kept = [])
  /\ (forall s, s `suffix_of` ts -> (length kept < length s <= 1000)%nat ->
        5 * 1024 * 1024 < size_of JSON_stringify s)
  /\ (quota_exceeded "tonebridge_transcripts" raw ls = false ->
      saveTranscripts JSON_stringify quota_exceeded ts now ls
      = <["tonebridge_transcripts" := raw]> ls)
  /\ (quota_exceeded "tonebridge_transcripts" raw ls = true ->
      saveTranscripts JSON_stringify quota_exceeded ts now ls = ls)
  /\ (forall new : list value,
        addTranscripts JSON_parse JSON_stringify Date_parse ToString
          StringToNumber quota_exceeded new now ls
        = saveTranscripts JSON_stringify quota_exceeded
            ((getTranscripts JSON_parse Date_parse ToString StringToNumber
                now ls).1 ++ new)%list now
            (getTranscripts JSON_parse Date_parse ToString StringToNumber
               now ls).2)
  /\ (forall t : value,
        addTranscript JSON_parse JSON_stringify Date_parse ToString
          StringToNumber quota_exceeded t now ls
        = addTranscripts JSON_parse JSON_stringify Date_parse ToString
            StringToNumber quota_exceeded [t] now ls)
  /\ Calls.within_limits JSON_stringify ∅
  /\ (forall calls : list (Calls.call * Z),
        Calls.within_limits JSON_stringify ls ->
        Calls.within_limits JSON_stringify
          (foldl (Calls.perform JSON_parse JSON_stringify Date_parse
                    ToString StringToNumber quota_exceeded) ls calls)).
Proof.
  intros kept raw. subst kept raw.
  destruct (evicted_spec ts) as (Hsuffix & Hlen & Hsize & Hlongest).
  split; [done|]. split; [done|]. split; [done|]. split; [done|].
  split; [by intros H; rewrite saveTranscripts_written, H|].
  split; [by intros H; rewrite saveTranscripts_written, H|].
  split.
  { intros new. unfold addTranscripts.
    by destruct (getTranscripts _ _ _ _ _ _). }
  split; [done|]. split; [by intros raw|].
  intros calls. revert ls. induction calls as [|c calls IH]; intros ls Hls.
  - done.
  - simpl. by apply IH, within_limits_perform.
Qed.

End Eviction.

End StoreFacts.

(** ** Transport: retry, backoff and terminal failures *)

Module ApiFacts.
Import ApiUtils Examples.

Section Loop.

Variable body_json : string -> res value.
Variable fetch : nat -> outcome.

Lemma try_attempt_error attempt status statusText body :
  fetch attempt = Response status statusText body ->
  response_ok status = false ->
  try_attempt body_json fetch attempt
  = (Throw (http_error status statusText body),
     [EFetch attempt; EClearTimeout]).
Proof. intros Hf Hok. unfold try_attempt. by rewrite Hf, Hok. Qed.

Lemma loop_stops remaining attempt lastError msg evs :
  try_attempt body_json fetch attempt = (Throw msg, evs) ->
  no_retry msg = true ->
  attempts_loop body_json fetch (S remaining) attempt lastError
  = (inr (Some msg), evs).
Proof. intros Ht Hn. simpl. by rewrite Ht, Hn. Qed.

Lemma loop_retries remaining attempt lastError msg evs :
  try_attempt body_json fetch attempt = (Throw msg, evs) ->
  no_retry msg = false ->
  attempts_loop body_json fetch (S remaining) attempt lastError
  = let r := attempts_loop body_json fetch remaining (S attempt) (Some msg) in
    (r.1,
     (evs ++ (if (attempt <? maxRetries)%nat
              then [ESleep (retryDelay * Z.of_nat attempt)] else [])
          ++ r.2)%list).
Proof.
  intros Ht Hn. simpl. rewrite Ht, Hn.
  by destruct (attempts_loop _ _ _ _ _).
Qed.

Lemma loop_first_fetch remaining attempt lastError :
  exists evs,
    (attempts_loop body_json fetch (S remaining) attempt lastError).2
    = EFetch attempt :: evs.
Proof.
  simpl. unfold try_attempt.
  destruct (fetch attempt) as [m|s t bd].
  - destruct (no_retry m); [simpl; eauto|].
    destruct (attempts_loop _ _ _ _ _); simpl; eauto.
  - destruct (response_ok s); [destruct (body_json bd) as [d|m]|];
      simpl; eauto;
      match goal with |- context [no_retry ?m] => destruct (no_retry m) end;
      simpl; eauto; destruct (attempts_loop _ _ _ _ _); simpl; eauto.
Qed.

(** C5.  When the first two attempts are answered by a 500 and the third
    by a successful response, [request] returns the data of that response
    after exactly three attempts and exactly two waits, of
    [retryDelay * 1 = 1000] and [retryDelay * 2 = 2000] milliseconds, the
    second longer than the first. *)
Theorem retry_then_success st1 b1 st2 b2 status st3 b3 data :
  fetch 1%nat = Response 500 st1 b1 ->
  fetch 2%nat = Response 500 st2 b2 ->
  fetch 3%nat = Response status st3 b3 ->
  response_ok status = true ->
  body_json b3 = Ok data ->
  (request body_json fetch).1 = Ok data
  /\ fetches (request body_json fetch).2 = [1; 2; 3]%nat
  /\ (length (fetches (request body_json fetch).2) <= maxRetries)%nat
  /\ sleeps (request body_json fetch).2 = [retryDelay * 1; retryDelay * 2]
  /\ sleeps (request body_json fetch).2 = [1000; 2000]
  /\ 1000 < 2000.
Proof.
  intros H1 H2 H3 Hok Hdata.
  assert (Hreq : request body_json fetch
                 = (Ok data, [EFetch 1; EClearTimeout; ESleep 1000;
                              EFetch 2; EClearTimeout; ESleep 2000;
                              EFetch 3; EClearTimeout])).
  { unfold request, maxRetries.
    rewrite (loop_retries _ _ _ _ _ (try_attempt_error _ _ _ _ H1 eq_refl))
      by reflexivity.
    rewrite (loop_retries _ _ _ _ _ (try_attempt_error _ _ _ _ H2 eq_refl))
      by reflexivity.
    simpl. unfold try_attempt. by rewrite H3, Hok, Hdata. }
  rewrite Hreq. simpl. repeat split; try reflexivity; unfold maxRetries; lia.
Qed.

(** C6, as the code has it.  A failure whose message contains "abort",
    "signal is aborted", "Network error" or "API endpoint not found" ends
    the loop at once, whatever is left of the attempt budget; a 404 on
    the first attempt therefore fails after that single attempt and
    without any wait.  A 413 is not in that class: a 413 on the first
    attempt is followed by a wait of 1000 ms and a second attempt, and a
    send that is only ever answered by 413 makes all three attempts, with
    the waits 1000 and 2000, before it fails with the message of the
    413. *)
Theorem terminal_failures :
  (forall remaining attempt lastError msg evs,
      try_attempt body_json fetch attempt = (Throw msg, evs) ->
      no_retry msg = true ->
      attempts_loop body_json fetch (S remaining) attempt lastError
      = (inr (Some msg), evs))
  /\ (forall st b,
      fetch 1%nat = Response 404 st b ->
      request body_json fetch
      = (Throw "API endpoint not found - please check the server configuration",
         [EFetch 1; EClearTimeout; EClearTimeout]))
  /\ (forall st b,
      fetch 1%nat = Response 413 st b ->
      exists evs,
        (request body_json fetch).2
        = EFetch 1 :: EClearTimeout :: ESleep 1000 :: EFetch 2 :: evs)
  /\ ((forall attempt, exists st b, fetch attempt = Response 413 st b) ->
      request body_json fetch
      = (Throw "Audio file too large - please record a shorter message",
         [EFetch 1; EClearTimeout; ESleep 1000;
          EFetch 2; EClearTimeout; ESleep 2000;
          EFetch 3; EClearTimeout; EClearTimeout])).
Proof.
  split; [exact loop_stops|]. split; [|split].
  - intros st b H1. unfold request, maxRetries.
    by rewrite (loop_stops _ _ _ _ _ (try_attempt_error _ _ _ _ H1 eq_refl)).
  - intros st b H1. unfold request, maxRetries.
    rewrite (loop_retries _ _ _ _ _ (try_attempt_error _ _ _ _ H1 eq_refl))
      by reflexivity.
    destruct (loop_first_fetch 1 2
                (Some (http_error 413 st b))) as [evs Hevs].
    destruct (attempts_loop body_json fetch 2 2 _) as [r evs2].
    simpl in Hevs. subst evs2. destruct r; simpl; eauto.
  - intros H. unfold request, maxRetries.
    destruct (H 1%nat) as (st1 & b1 & H1).
    destruct (H 2%nat) as (st2 & b2 & H2).
    destruct (H 3%nat) as (st3 & b3 & H3).
    rewrite (loop_retries _ _ _ _ _ (try_attempt_error _ _ _ _ H1 eq_refl))
      by reflexivity.
    rewrite (loop_retries _ _ _ _ _ (try_attempt_error _ _ _ _ H2 eq_refl))
      by reflexivity.
    rewrite (loop_retries _ _ _ _ _ (try_attempt_error _ _ _ _ H3 eq_refl))
      by reflexivity.
    reflexivity.
Qed.

End Loop.

Lemma retry_then_success_witness :
  (request (fun _ => Ok ok_body) flaky).1 = Ok ok_body
  /\ fetches (request (fun _ => Ok ok_body) flaky).2 = [1; 2; 3]%nat
  /\ (length (fetches (request (fun _ => Ok ok_body) flaky).2) <= maxRetries)%nat
  /\ sleeps (request (fun _ => Ok ok_body) flaky).2
     = [retryDelay * 1; retryDelay * 2]
  /\ sleeps (request (fun _ => Ok ok_body) flaky).2 = [1000; 2000]
  /\ 1000 < 2000.
Proof.
  apply (retry_then_success (fun _ => Ok ok_body) flaky
           "Internal Server Error" "boom" "Internal Server Error" "boom"
           200 "OK" "{}" ok_body); reflexivity.
Defined.

(** A send answered by 413 is attempted three times: the claim that a 413
    is never retried fails. *)
Lemma payload_too_large_is_retried :
  fetches (request (fun _ => Ok ok_body) (always 413)).2 = [1; 2; 3]%nat
  /\ sleeps (request (fun _ => Ok ok_body) (always 413)).2 = [1000; 2000]
  /\ ~ (fetches (request (fun _ => Ok ok_body) (always 413)).2 = [1]%nat).
Proof. vm_compute. repeat split; congruence. Qed.

Lemma terminal_failures_witness :
  request (fun _ => Ok ok_body) (always 404)
  = (Throw "API endpoint not found - please check the server configuration",
     [EFetch 1; EClearTimeout; EClearTimeout])
  /\ request (fun _ => Ok ok_body) (always 413)
     = (Throw "Audio file too large - please record a shorter message",
        [EFetch 1; EClearTimeout; ESleep 1000;
         EFetch 2; EClearTimeout; ESleep 2000;
         EFetch 3; EClearTimeout; EClearTimeout]).
Proof.
  pose proof (terminal_failures (fun _ => Ok ok_body) (always 404)) as H404.
  pose proof (terminal_failures (fun _ => Ok ok_body) (always 413)) as H413.
  split.
  - apply (proj1 (proj2 H404) "" ""). reflexivity.
  - apply (proj2 (proj2 (proj2 H413))). intros attempt.
    exists "", "". reflexivity.
Defined.

End ApiFacts.

(** ** Reading the store *)

Module ReadFacts.
Import Store.

Section Reads.

Variable JSON_parse : string -> option value.
Variable JSON_stringify : value -> string.
Variable Date_parse : string -> option Z.
Variable ToString : value -> string.
Variable StringToNumber : string -> option (Z * nat).
Variable quota_exceeded : string -> string -> gmap string string -> bool.

Lemma get_corrupt key item now (ls : gmap string string) :
  ls !! (prefix +:+ key) = Some item ->
  JSON_parse item = None ->
  get JSON_parse ToString StringToNumber key now ls = (VNull, ls).
Proof.
  intros Hitem Hparse. unfold get, parse. rewrite Hitem, Hparse.
  by destruct (String.eqb item "").
Qed.

(** C8.  When the bytes stored under a key do not parse, [StorageUtils.get]
    returns [null] and leaves the store as it is; for the transcripts key
    [getTranscripts] returns the empty list, and for the settings key
    [getSettings] returns the default settings. None of them throws. *)
Theorem corrupt_is_absent key item now (ls : gmap string string) :
  ls !! (prefix +:+ key) = Some item ->
  JSON_parse item = None ->
  get JSON_parse ToString StringToNumber key now ls = (VNull, ls)
  /\ (key = "transcripts" ->
      getTranscripts JSON_parse Date_parse ToString StringToNumber now ls
      = ([], ls))
  /\ (key = "settings" ->
      getSettings JSON_parse JSON_stringify ToString StringToNumber now ls
      = Ok (defaultSettings, ls)).
Proof.
  intros Hitem Hparse.
  pose proof (get_corrupt _ _ now _ Hitem Hparse) as Hget.
  split; [exact Hget|]. split; intros ->.
  - unfold getTranscripts, TRANSCRIPTS_KEY. by rewrite Hget.
  - unfold getSettings. by rewrite Hget.
Qed.

(** C9.  On an input that is not JSON, or that parses to something other
    than an array, [importTranscripts] returns [false] and leaves the
    store as it is; and whatever the input, a call that returns [false]
    has left the store as it was. *)
Theorem import_rejects jsonData now (ls : gmap string string) :
  (JSON_parse jsonData = None
   \/ exists v, JSON_parse jsonData = Some v /\ forall xs, v <> VArr xs) ->
  importTranscripts JSON_parse JSON_stringify Date_parse ToString
    quota_exceeded jsonData now ls = (false, ls)
  /\ forall input,
      (importTranscripts JSON_parse JSON_stringify Date_parse ToString
         quota_exceeded input now ls).1 = false ->
      (importTranscripts JSON_parse JSON_stringify Date_parse ToString
         quota_exceeded input now ls).2 = ls.
Proof.
  intros H. split.
  - unfold importTranscripts, parse.
    destruct H as [->|(v & -> & Hv)]; [done|].
    simpl. destruct v; try done. by destruct (Hv xs).
  - intros input. unfold importTranscripts, parse.
    destruct (JSON_parse input) as [v|]; [|done].
    simpl. destruct v; try done.
    by destruct (mapM _ _).
Qed.

End Reads.

End ReadFacts.

(** ** Values, objects and what is read back *)

Module ValueFacts.
Import Store.

Lemma value_induction (P : value -> Prop) :
  P VUndef -> P VNull -> (forall b, P (VBool b)) -> (forall m e, P (VNum m e)) ->
  (forall s, P (VStr s)) -> (forall t, P (VDate t)) ->
  (forall xs, Forall P xs -> P (VArr xs)) ->
  (forall fs, Forall (fun kv => P kv.2) fs -> P (VObj fs)) ->
  forall v, P v.
Proof.
  intros HU HN HB HNum HS HD HA HO. fix IH 1.
  intros [| |b|m e|s|t|xs|fs];
    [exact HU|exact HN|apply HB|apply HNum|apply HS|apply HD| |].
  - apply HA. revert xs. fix IHxs 1.
    intros [|x xs]; constructor; [apply IH|apply IHxs].
  - apply HO. revert fs. fix IHfs 1.
    intros [|[k x] fs]; constructor; [apply IH|apply IHfs].
Qed.

Lemma toJSON_pure iso v : pure v = true -> toJSON iso v = v.
Proof.
  induction v as [| | | | | |xs IH|fs IH] using value_induction;
    simpl; try done.
  - intros Hp. f_equal. induction IH as [|x xs Hx _ IHxs]; [done|].
    simpl in Hp. apply andb_prop in Hp as [Hpx Hpxs]. simpl.
    rewrite IHxs by done. rewrite Hx by done. by destruct x.
  - intros Hp. f_equal. induction IH as [|[k x] fs Hx _ IHfs]; [done|].
    simpl in Hp, Hx. apply andb_prop in Hp as [Hpx Hpfs].
    rewrite IHfs by done. rewrite Hx by done. by destruct x.
Qed.


Lemma assoc_obj_set_eq k v fs : assoc k (obj_set k v fs) = Some v.
Proof.
  induction fs as [|[k' v'] fs IH]; simpl.
  - by rewrite String.eqb_refl.
  - destruct (String.eqb k k') eqn:E; simpl; [by rewrite String.eqb_refl|].
    by rewrite E.
Qed.

Lemma assoc_obj_set_ne k k' v fs :
  k <> k' -> assoc k (obj_set k' v fs) = assoc k fs.
Proof.
  intros Hne. induction fs as [|[k'' v''] fs IH]; simpl.
  - by apply String.eqb_neq in Hne as ->.
  - destruct (String.eqb k' k'') eqn:E; simpl.
    + apply String.eqb_eq in E as <-. by apply String.eqb_neq in Hne as ->.
    + by rewrite IH.
Qed.






Section ReadBack.

Variable JSON_parse : string -> option value.
Variable JSON_stringify : value -> string.
Variable Date_toISOString : Z -> string.
Variable ToString : value -> string.
Variable StringToNumber : string -> option (Z * nat).

Lemma get_holds (ls : gmap string string) key v now :
  holds JSON_parse ls key v ->
  get JSON_parse ToString StringToNumber key now ls = (v, ls).
Proof.
  intros (raw & fs & Hraw & Hne & Hparse & Hv & Hexp).
  unfold get, parse. rewrite Hraw.
  apply String.eqb_neq in Hne as ->. rewrite Hparse. simpl.
  by rewrite Hexp, Hv.
Qed.

Lemma set_holds (ls : gmap string string) key v now :
  v <> VUndef ->
  reads_back JSON_parse JSON_stringify Date_toISOString (item v now) ->
  holds JSON_parse (set JSON_stringify key v None now ls) key
    (toJSON Date_toISOString v).
Proof.
  intros Hv [Hparse Hne]. unfold set.
  exists (JSON_stringify (item v now)).
  eexists. split; [apply lookup_insert_eq|]. split; [done|].
  split; [exact Hparse|]. by destruct v as [| | | | |[t|]| |].
Qed.

End ReadBack.

End ValueFacts.

(** ** The display-mode migration *)

Module MigrationFacts.
Import Store ValueFacts.

Section Migration.

Variable JSON_parse : string -> option value.
Variable JSON_stringify : value -> string.
Variable Date_toISOString : Z -> string.
Variable ToString : value -> string.
Variable StringToNumber : string -> option (Z * nat).

#[local] Abbreviation getSettings :=
  (getSettings JSON_parse JSON_stringify ToString StringToNumber).
#[local] Abbreviation getCurrentData :=
  (getCurrentData JSON_parse JSON_stringify Date_toISOString ToString
     StringToNumber).
#[local] Abbreviation getCurrentDate := (getCurrentDate Date_toISOString).
#[local] Abbreviation holds := (holds JSON_parse).
#[local] Abbreviation reads_back := (reads_back JSON_parse JSON_stringify Date_toISOString).
#[local] Abbreviation migratedData := (migratedData JSON_stringify).







Ltac assoc_simpl :=
  repeat (rewrite assoc_obj_set_eq
          || rewrite assoc_obj_set_ne by discriminate).



End Migration.

End MigrationFacts.

(** ** Day rotation *)

Module RotationFacts.
Import Store ValueFacts.

Section Rotation.

Variable JSON_parse : string -> option value.
Variable JSON_stringify : value -> string.
Variable Date_toISOString : Z -> string.
Variable ToString : value -> string.
Variable StringToNumber : string -> option (Z * nat).

#[local] Abbreviation getCurrentData :=
  (getCurrentData JSON_parse JSON_stringify Date_toISOString ToString
     StringToNumber).
#[local] Abbreviation resetDailyData :=
  (resetDailyData JSON_parse JSON_stringify Date_toISOString ToString
     StringToNumber).
#[local] Abbreviation getCurrentDate := (getCurrentDate Date_toISOString).

(** C2, as the code has it.  When the stored bucket is dated another day
    than today, [getCurrentData] saves and returns a bucket dated today,
    without transcripts, whose settings are the default settings: the
    settings of the stored bucket are not carried into it.  The midnight
    [resetDailyData] starts from that bucket, so its bucket has the
    default settings as well. *)
Theorem rotation_resets_settings fs d now (ls : gmap string string) :
  holds JSON_parse ls "daily_data" (VObj fs) ->
  assoc "date" fs = Some (VStr d) ->
  d <> getCurrentDate now ->
  exists data ls1,
    getCurrentData now ls = Ok (data, ls1)
    /\ ls1 = <["tonebridge_daily_data" := JSON_stringify (item data now)]> ls
    /\ prop data "date" = Ok (VStr (getCurrentDate now))
    /\ prop data "transcripts" = Ok (VArr [])
    /\ prop data "settings" = Ok defaultSettings
    /\ (forall settings,
          assoc "settings" fs = Some settings ->
          settings <> defaultSettings ->
          prop data "settings" <> Ok settings)
    /\ exists data' ls2,
         resetDailyData now ls = Ok (data', ls2)
         /\ prop data' "settings" = Ok defaultSettings.
Proof.
  intros Hholds Hdate Hd.
  assert (exists data,
    getCurrentData now ls
    = Ok (data, <["tonebridge_daily_data" :=
                    JSON_stringify (item data now)]> ls)
    /\ prop data "date" = Ok (VStr (getCurrentDate now))
    /\ prop data "transcripts" = Ok (VArr [])
    /\ prop data "settings" = Ok defaultSettings
    /\ exists ms, prop data "metadata" = Ok (VObj ms))
    as (data & Hdata & H1 & H2 & H3 & ms & H4).
  { unfold Store.getCurrentData, STORAGE_KEY.
    rewrite (get_holds _ ToString StringToNumber _ _ _ now Hholds).
    simpl. rewrite Hdate. simpl.
    apply String.eqb_neq in Hd as ->. simpl.
    eexists. split; [reflexivity|]. simpl. eauto 10. }
  exists data, (<["tonebridge_daily_data" :=
                   JSON_stringify (item data now)]> ls).
  repeat (split; [done|]). split.
  - intros settings _ Hne. rewrite H3. congruence.
  - unfold Store.resetDailyData. rewrite Hdata. simpl. rewrite H4. simpl.
    destruct data as [| | | | | | |dfs]; try done. simpl in *.
    unfold saveData, set_metadata. simpl.
    rewrite !assoc_obj_set_eq. simpl. rewrite !assoc_obj_set_eq. simpl.
    eexists _, _. split; [reflexivity|]. simpl.
    rewrite !assoc_obj_set_ne by discriminate. exact H3.
Qed.

End Rotation.

End RotationFacts.

(** ** Export and import *)

Module ExportFacts.
Import Store ValueFacts.

#[local] Arguments String.eqb : simpl never.

Section RoundTrip.

Variable JSON_parse : string -> option value.
Variable JSON_stringify : value -> string.
Variable JSON_stringify_2 : value -> string.
Variable Date_parse : string -> option Z.
Variable Date_toISOString : Z -> string.
Variable ToString : value -> string.
Variable StringToNumber : string -> option (Z * nat).
Variable quota_exceeded : string -> string -> gmap string string -> bool.

#[local] Abbreviation revive := (revive Date_parse ToString).
#[local] Abbreviation is_stamped := (stamped Date_parse Date_toISOString).
#[local] Abbreviation toJSON := (toJSON Date_toISOString).

Lemma toJSON_stamp fs s t :
  pure (VObj fs) = true -> assoc "timestamp" fs = Some (VStr s) ->
  Date_toISOString t = s ->
  toJSON (VObj (obj_set "timestamp" (VDate (Some t)) fs)) = VObj fs.
Proof.
  intros Hp Ha Ht. induction fs as [|[k v] fs IH]; [done|].
  simpl in Hp, Ha. apply andb_prop in Hp as [Hv Hfs].
  simpl. destruct (String.eqb "timestamp" k) eqn:E.
  - apply String.eqb_eq in E as <-. injection Ha as ->.
    pose proof (toJSON_pure Date_toISOString (VObj fs) Hfs) as Hpure.
    simpl in Hpure. injection Hpure as Hpure. simpl. by rewrite Hpure, Ht.
  - specialize (IH Hfs Ha). simpl in IH. injection IH as IH.
    rewrite (toJSON_pure _ _ Hv). simpl. rewrite IH.
    by destruct v.
Qed.

Lemma revive_stamped x :
  is_stamped x = true ->
  exists y, revive x = Ok y /\ toJSON y = x /\ y <> VUndef.
Proof.
  destruct x as [| | | | | | |fs]; try done. unfold stamped.
  destruct (assoc "timestamp" fs) as [[| | | |s| | |]|] eqn:Ha; try done.
  destruct (Date_parse s) as [t|] eqn:Hs; [|done].
  intros [Ht Hp]%andb_prop. apply String.eqb_eq in Ht.
  unfold Store.revive. simpl. rewrite Ha. simpl. rewrite Hs.
  eexists. split; [reflexivity|]. split; [|done].
  by apply (toJSON_stamp fs s t).
Qed.

Lemma mapM_revive_stamped xs :
  forallb is_stamped xs = true ->
  exists ys, mapM revive xs = Ok ys
             /\ toJSON (VArr ys) = VArr xs /\ length ys = length xs.
Proof.
  induction xs as [|x xs IH]; simpl; [by exists []|].
  intros [Hx Hxs]%andb_prop.
  destruct (revive_stamped x Hx) as (y & Hy & Hty & Hne).
  destruct (IH Hxs) as (ys & Hys & Htys & Hlen).
  exists (y :: ys). rewrite Hy, Hys. simpl. split; [done|].
  simpl in Htys. injection Htys as Htys. rewrite Htys, Hlen.
  split; [|done]. f_equal. f_equal. by destruct y.
Qed.

Lemma slice_last_short n (ts : list value) :
  (length ts <= n)%nat -> slice_last n ts = ts.
Proof.
  intros H. unfold slice_last.
  replace (length ts - n)%nat with 0%nat by lia. done.
Qed.

(** C10, as the code has it.  Take a persisted sequence of at most 1000
    segments that serializes to at most 5*1024*1024 bytes, each segment
    an object whose [timestamp] is the ISO string of a date.  Then
    [importTranscripts(exportTranscripts())] returns [true], and the
    sequence persisted afterwards is the original one, segment by
    segment and field by field. *)
Theorem export_import_roundtrip xs ys now now' (ls : gmap string string) :
  holds JSON_parse ls "transcripts" (VArr xs) ->
  forallb is_stamped xs = true ->
  (length xs <= 1000)%nat ->
  size_of JSON_stringify xs <= 5 * 1024 * 1024 ->
  mapM revive xs = Ok ys ->
  JSON_stringify (VArr ys) = JSON_stringify (toJSON (VArr ys)) ->
  JSON_parse (JSON_stringify_2 (VArr ys)) = Some (toJSON (VArr ys)) ->
  reads_back JSON_parse JSON_stringify Date_toISOString
    (item (VArr ys) now') ->
  exportTranscripts JSON_parse JSON_stringify_2 Date_parse ToString
    StringToNumber now ls = (JSON_stringify_2 (VArr ys), ls)
  /\ exists ls',
      importTranscripts JSON_parse JSON_stringify Date_parse ToString
        quota_exceeded (JSON_stringify_2 (VArr ys)) now' ls = (true, ls')
      /\ holds JSON_parse ls' "transcripts" (VArr xs)
      /\ getTranscripts JSON_parse Date_parse ToString StringToNumber
           now' ls' = (ys, ls').
Proof.
  intros Hholds Hst Hlen Hsize Hys Hstr Hparse Hrb.
  destruct (mapM_revive_stamped xs Hst) as (ys' & Hys' & Hto & Hlen').
  rewrite Hys in Hys'. injection Hys' as <-.
  assert (Hget : forall t l, holds JSON_parse l "transcripts" (VArr xs) ->
    getTranscripts JSON_parse Date_parse ToString StringToNumber t l
    = (ys, l)).
  { intros t l Hl. unfold getTranscripts, TRANSCRIPTS_KEY.
    rewrite (get_holds _ ToString StringToNumber _ _ _ t Hl).
    simpl. by rewrite Hys. }
  assert (Hsaved : holds JSON_parse
            (saveTranscripts JSON_stringify quota_exceeded ys now' ls)
            "transcripts" (VArr xs)).
  { rewrite StoreFacts.saveTranscripts_written.
    destruct (quota_exceeded _ _ _); [exact Hholds|].
    assert (Managers.evicted JSON_stringify ys = ys) as ->.
    { unfold Managers.evicted, MAX_TRANSCRIPTS.
      rewrite slice_last_short by lia.
      assert (size_of JSON_stringify ys = size_of JSON_stringify xs) as ->.
      { unfold size_of. by rewrite Hstr, Hto. }
      by destruct (Z.ltb_spec MAX_STORAGE_SIZE (size_of JSON_stringify xs))
        as [Hlt|_]; [unfold MAX_STORAGE_SIZE in Hlt; lia|]. }
    change (<["tonebridge_transcripts" :=
                JSON_stringify (item (VArr ys) now')]> ls)
      with (set JSON_stringify TRANSCRIPTS_KEY (VArr ys) None now' ls).
    rewrite <- Hto. by apply set_holds. }
  split.
  - unfold exportTranscripts. by rewrite Hget.
  - eexists. split; [|split].
    + unfold importTranscripts, parse. rewrite Hparse, Hto. simpl.
      rewrite Hys. simpl. reflexivity.
    + exact Hsaved.
    + by apply Hget.
Qed.

End RoundTrip.

End ExportFacts.

(** ** The capture life cycle *)

Module CaptureFacts.
Import AudioRecorder Examples.

(** C4 fails as stated.  A session that is started and stopped before any
    chunk arrives calls
    [onRecordingComplete] with an empty blob and reports no error: the
    claim that an empty buffer is reported as a failure fails. *)
Lemma empty_capture_is_a_success :
  let st := onstop returns (stopRecording (startRecording chrome idle)) in
  audioChunks (stopRecording (startRecording chrome idle)) = []
  /\ emitted st = [RecordingComplete 0 "webm"]
  /\ error st = None
  /\ forall msg, ~ In (RecordingError msg) (emitted st).
Proof. vm_compute. repeat split; try done. by intros msg [H|[]]. Qed.

Section Stop.

Variable onRecordingComplete : Z -> string -> option string.

(** C4, as the code has it.  When the recorder stops with an empty chunk
    buffer, [onstop] calls [onRecordingComplete] with a blob of size 0;
    when that call returns, nothing is reported through
    [onRecordingError] and the error of the recording state is left as
    it was. *)
Theorem empty_buffer_completes st :
  audioChunks st = [] ->
  onRecordingComplete 0 (format_of (mimeType st)) = None ->
  emitted (onstop onRecordingComplete st)
  = (emitted st ++ [RecordingComplete 0 (format_of (mimeType st))])%list
  /\ error (onstop onRecordingComplete st) = error st.
Proof.
  intros Hchunks Hret. unfold onstop. rewrite Hchunks. simpl.
  by rewrite Hret.
Qed.

(** C7, as the code has it.  [onstop] releases the stream and clears the
    timer when [onRecordingComplete] returns, and so does the unmount
    cleanup.  The [catch] block of [startRecording] and [onerror] release
    nothing: when the stream has been acquired and the construction of
    the MediaRecorder throws, the tracks of the stream stay live, and
    after [onerror] the tracks and the timer are as they were. *)
Theorem stream_leaks_on_error p e :
  isIOSSafari p && negb (isSecureContext p) = false ->
  getUserMedia p = None ->
  newMediaRecorder p = Some e ->
  tracks_live (startRecording p idle) = true
  /\ streamRef (startRecording p idle) = true
  /\ isRecording (startRecording p idle) = false
  /\ emitted (startRecording p idle) = [RecordingError (start_error_message e)]
  /\ (forall msg st,
        tracks_live (onerror msg st) = tracks_live st
        /\ timer_running (onerror msg st) = timer_running st
        /\ isRecording (onerror msg st) = isRecording st)
  /\ (forall st,
        streamRef st = true -> durationIntervalRef st = true ->
        (forall size format, onRecordingComplete size format = None) ->
        tracks_live (onstop onRecordingComplete st) = false
        /\ timer_running (onstop onRecordingComplete st) = false)
  /\ (forall st,
        streamRef st = true -> durationIntervalRef st = true ->
        tracks_live (unmount st) = false /\ timer_running (unmount st) = false).
Proof.
    intros Hios Hgum Hrec. unfold startRecording.
  rewrite Hios, Hgum, Hrec. simpl. repeat (split; [done|]). split.
  - intros st Hstream Htimer Hret. unfold onstop.
    rewrite Hret. simpl. by rewrite Hstream, Htimer.
  - intros st Hstream Htimer. simpl. by rewrite Hstream, Htimer.
Qed.

End Stop.

Lemma empty_buffer_completes_witness :
  emitted (onstop returns (stopRecording (startRecording chrome idle)))
  = [RecordingComplete 0 "webm"]
  /\ error (onstop returns (stopRecording (startRecording chrome idle))) = None.
Proof.
  apply (empty_buffer_completes returns
           (stopRecording (startRecording chrome idle))); reflexivity.
Defined.

Lemma stream_leaks_on_error_witness :
  tracks_live (startRecording no_recorder idle) = true
  /\ emitted (startRecording no_recorder idle)
     = [RecordingError
          "Recording not supported in this browser. Please try a different browser."].
Proof.
  pose proof (stream_leaks_on_error returns no_recorder
                (JsError "NotSupportedError" "Failed to construct 'MediaRecorder'")
                eq_refl eq_refl eq_refl) as H.
  split; [apply H|apply H].
Defined.

End CaptureFacts.

(** ** The properties on concrete stores *)

Module Concrete.
Import Store Examples.

(** The store [store_of key v] holds [v] under [key], for [v] without
    [undefined] and without dates. *)
Ltac holds_stored v :=
  exists (Browser.JSON_stringify (item v jan1)),
         [("value", v); ("timestamp", VInt jan1)];
  split; [vm_compute; reflexivity|];
  split; [vm_compute; discriminate|];
  split; [vm_compute; reflexivity|];
  split; reflexivity.

Ltac reads_back_computed :=
  split; [vm_compute; reflexivity|vm_compute; discriminate].

(** C1 fails as stated.  In a browser with little room left, a first save
    is taken and a second, larger one is refused: [setItem] throws,
    [saveTranscripts] swallows the error, and the store keeps the sequence
    of the first save.  The input of the second save is far within the two
    limits, and what is persisted after it is not a suffix of it. *)
Lemma refused_write_keeps_old_sequence :
  let save := Store.saveTranscripts Browser.JSON_stringify cramped in
  let ls := save [earlier] jan1 ∅ in
  let ls' := save [earlier; later] jan2 ls in
  (Run.getTranscripts jan2 ls).1 = [earlier]
  /\ ls' = ls
  /\ (Run.getTranscripts jan2 ls').1 = [earlier]
  /\ ~ [earlier] `suffix_of` [earlier; later]
  /\ size_of Browser.JSON_stringify [earlier; later] <= 5 * 1024 * 1024.
Proof.
  intros save ls ls'.
  split; [vm_compute; reflexivity|]. split; [vm_compute; reflexivity|].
  split; [vm_compute; reflexivity|]. split; [|vm_compute; discriminate].
  intros [[|x [|y k]] Hk]; simpl in Hk.
  - discriminate Hk.
  - injection Hk as _ Hk. vm_compute in Hk. discriminate Hk.
  - apply (f_equal length) in Hk. simpl in Hk. rewrite length_app in Hk.
    simpl in Hk. lia.
Qed.

Lemma eviction_invariant_witness :
  Run.saveTranscripts [earlier; later] jan2 ∅ !! "tonebridge_transcripts"
  = Some (Browser.JSON_stringify (item (VArr [earlier; later]) jan2))
  /\ Store.saveTranscripts Browser.JSON_stringify full [earlier; later] jan2 ∅
     = ∅.
Proof.
  pose proof (StoreFacts.eviction_invariant Browser.JSON_parse
                Browser.JSON_stringify Browser.Date_parse Browser.ToString
                Browser.StringToNumber roomy [earlier; later] jan2 ∅)
    as Htaken.
  pose proof (StoreFacts.eviction_invariant Browser.JSON_parse
                Browser.JSON_stringify Browser.Date_parse Browser.ToString
                Browser.StringToNumber full [earlier; later] jan2 ∅)
    as Hrefused.
  cbv zeta in Htaken, Hrefused.
  destruct Htaken as (_ & _ & _ & _ & Htaken & _).
  destruct Hrefused as (_ & _ & _ & _ & _ & Hrefused & _).
  split; [|exact (Hrefused eq_refl)].
  unfold Run.saveTranscripts. rewrite (Htaken eq_refl), lookup_insert_eq.
  vm_compute. reflexivity.
Defined.

Lemma corrupt_is_absent_witness :
  Run.get "settings" jan2 corrupt_store = (VNull, corrupt_store)
  /\ Run.getSettings jan2 corrupt_store = Ok (defaultSettings, corrupt_store)
  /\ Run.getTranscripts jan2 corrupt_store = ([], corrupt_store).
Proof.
  assert (Hs : corrupt_store !! (prefix +:+ "settings") = Some "{oops")
    by (vm_compute; reflexivity).
  assert (Ht : corrupt_store !! (prefix +:+ "transcripts") = Some "{oops")
    by (vm_compute; reflexivity).
  assert (Hp : Browser.JSON_parse "{oops" = None) by (vm_compute; reflexivity).
  pose proof (ReadFacts.corrupt_is_absent Browser.JSON_parse
                Browser.JSON_stringify Browser.Date_parse Browser.ToString
                Browser.StringToNumber "settings" "{oops" jan2 corrupt_store
                Hs Hp) as (H1 & _ & H2).
  pose proof (ReadFacts.corrupt_is_absent Browser.JSON_parse
                Browser.JSON_stringify Browser.Date_parse Browser.ToString
                Browser.StringToNumber "transcripts" "{oops" jan2 corrupt_store
                Ht Hp) as (_ & H3 & _).
  split; [exact H1|]. split; [exact (H2 eq_refl)|exact (H3 eq_refl)].
Defined.

Lemma import_rejects_witness :
  Run.importTranscripts "{oops" jan2 (store_of "transcripts" (VArr []))
  = (false, store_of "transcripts" (VArr []))
  /\ Run.importTranscripts (Browser.JSON_stringify (VObj [("id", VStr "1")]))
       jan2 (store_of "transcripts" (VArr []))
     = (false, store_of "transcripts" (VArr [])).
Proof.
  split.
  - apply (ReadFacts.import_rejects Browser.JSON_parse Browser.JSON_stringify
             Browser.Date_parse Browser.ToString roomy "{oops" jan2).
    left. vm_compute. reflexivity.
  - apply (ReadFacts.import_rejects Browser.JSON_parse Browser.JSON_stringify
             Browser.Date_parse Browser.ToString roomy
             (Browser.JSON_stringify (VObj [("id", VStr "1")])) jan2).
    right. exists (VObj [("id", VStr "1")]).
    split; [vm_compute; reflexivity|discriminate].
Defined.


Lemma rotation_resets_settings_witness :
  exists data ls1,
    Run.getCurrentData jan2
      (store_of "daily_data" (bucket "2024-01-01" dark_settings))
    = Ok (data, ls1)
    /\ prop data "date" = Ok (VStr "2024-01-02")
    /\ prop data "transcripts" = Ok (VArr [])
    /\ prop data "settings" = Ok defaultSettings
    /\ prop data "settings" <> Ok dark_settings.
Proof.
  destruct (RotationFacts.rotation_resets_settings Browser.JSON_parse
              Browser.JSON_stringify Browser.Date_toISOString
              Browser.ToString Browser.StringToNumber
              (spread (bucket "2024-01-01" dark_settings)) "2024-01-01" jan2
              (store_of "daily_data" (bucket "2024-01-01" dark_settings)))
    as (data & ls1 & H1 & _ & H2 & H3 & H4 & H5 & _).
  - holds_stored (bucket "2024-01-01" dark_settings).
  - reflexivity.
  - vm_compute. discriminate.
  - exists data, ls1. split; [exact H1|]. split; [exact H2|].
    split; [exact H3|]. split; [exact H4|].
    apply H5; [reflexivity|vm_compute; discriminate].
Defined.

(** C10 fails as stated.  Importing a segment without timestamp into an
    empty store persists it with the timestamp [null] (an Invalid Date
    serializes to [null]).  On that store the round trip returns [true], and
    the segment persisted afterwards has the timestamp
    1970-01-01T00:00:00.000Z: the persisted sequence is not the original
    one. *)
Lemma roundtrip_changes_null_timestamp :
  let ls := (Run.importTranscripts
               (Browser.JSON_stringify (VArr [VObj [("id", VStr "1")]]))
               jan1 ∅).2 in
  let exported := (Run.exportTranscripts jan2 ls).1 in
  (Run.get "transcripts" jan2 ls).1
  = VArr [VObj [("id", VStr "1"); ("timestamp", VNull)]]
  /\ (Run.importTranscripts exported jan2 ls).1 = true
  /\ (Run.get "transcripts" jan2 (Run.importTranscripts exported jan2 ls).2).1
     = VArr [VObj [("id", VStr "1");
                   ("timestamp", VStr "1970-01-01T00:00:00.000Z")]]
  /\ (Run.get "transcripts" jan2 (Run.importTranscripts exported jan2 ls).2).1
     <> (Run.get "transcripts" jan2 ls).1.
Proof. vm_compute. repeat split; discriminate. Qed.

Lemma export_import_roundtrip_witness :
  let xs := [stored_segment "1704103140000" (VStr "2024-01-01T09:59:00.000Z")] in
  let ls := store_of "transcripts" (VArr xs) in
  exists ls',
    Run.importTranscripts (Run.exportTranscripts jan2 ls).1 jan2 ls
    = (true, ls')
    /\ holds Browser.JSON_parse ls' "transcripts" (VArr xs).
Proof.
  intros xs ls.
  destruct (ExportFacts.export_import_roundtrip Browser.JSON_parse
              Browser.JSON_stringify Browser.JSON_stringify_2
              Browser.Date_parse Browser.Date_toISOString Browser.ToString
              Browser.StringToNumber roomy xs
              [VObj (obj_set "timestamp" (VDate (Some 1704103140000))
                       (spread (stored_segment "1704103140000" VNull)))]
              jan2 jan2 ls)
    as (Hexport & ls' & Himport & Hholds & _).
  - holds_stored (VArr xs).
  - vm_compute. reflexivity.
  - vm_compute. lia.
  - vm_compute. discriminate.
  - vm_compute. reflexivity.
  - vm_compute. reflexivity.
  - vm_compute. reflexivity.
  - reads_back_computed.
  - exists ls'. split; [|exact Hholds].
    unfold Run.exportTranscripts. rewrite Hexport. exact Himport.
Defined.

End Concrete.

(** ** Transport: every send *)

Module TransportFacts.
Import ApiUtils.

Lemma includes_app_r a b p : includes b p = true -> includes (a +:+ b) p = true.
Proof.
  intros H. induction a as [|c a IH]; simpl; [done|].
  rewrite IH. apply orb_true_r.
Qed.

Section Send.

Variable body_json : string -> res value.
Variable fetch : nat -> outcome.

#[local] Abbreviation try_attempt := (try_attempt body_json fetch).
#[local] Abbreviation request := (request body_json fetch).

Lemma try_attempt_events a :
  fetches (try_attempt a).2 = [a] /\ sleeps (try_attempt a).2 = []
  /\ (forall d, (try_attempt a).1 = Ok d ->
      exists evs, (try_attempt a).2 = (evs ++ [EClearTimeout])%list).
Proof.
  unfold ApiUtils.try_attempt. destruct (fetch a) as [m|s t b]; simpl.
  - repeat split. intros d [=].
  - destruct (response_ok s); simpl; repeat split;
      intros; by exists [EFetch a].
Qed.

(** The six ways a [request] can go. *)
Lemma request_cases :
  (exists d, try_attempt 1 = (Ok d, (try_attempt 1).2)
             /\ request = (Ok d, (try_attempt 1).2))
  \/ (exists m1, (try_attempt 1).1 = Throw m1 /\ no_retry m1 = true
      /\ request = (Throw (summarize (Some m1)),
                    ((try_attempt 1).2 ++ [EClearTimeout])%list))
  \/ (exists m1 d, (try_attempt 1).1 = Throw m1 /\ no_retry m1 = false
      /\ (try_attempt 2).1 = Ok d
      /\ request = (Ok d, ((try_attempt 1).2 ++ [ESleep 1000]
                           ++ (try_attempt 2).2)%list))
  \/ (exists m1 m2, (try_attempt 1).1 = Throw m1 /\ no_retry m1 = false
      /\ (try_attempt 2).1 = Throw m2 /\ no_retry m2 = true
      /\ request = (Throw (summarize (Some m2)),
                    ((try_attempt 1).2 ++ [ESleep 1000]
                     ++ (try_attempt 2).2 ++ [EClearTimeout])%list))
  \/ (exists m1 m2 d, (try_attempt 1).1 = Throw m1 /\ no_retry m1 = false
      /\ (try_attempt 2).1 = Throw m2 /\ no_retry m2 = false
      /\ (try_attempt 3).1 = Ok d
      /\ request = (Ok d, ((try_attempt 1).2 ++ [ESleep 1000]
                           ++ (try_attempt 2).2 ++ [ESleep 2000]
                           ++ (try_attempt 3).2)%list))
  \/ (exists m1 m2 m3, (try_attempt 1).1 = Throw m1 /\ no_retry m1 = false
      /\ (try_attempt 2).1 = Throw m2 /\ no_retry m2 = false
      /\ (try_attempt 3).1 = Throw m3
      /\ request = (Throw (summarize (Some m3)),
                    ((try_attempt 1).2 ++ [ESleep 1000]
                     ++ (try_attempt 2).2 ++ [ESleep 2000]
                     ++ (try_attempt 3).2 ++ [EClearTimeout])%list)).
Proof.
  unfold ApiUtils.request, maxRetries. simpl.
  destruct (try_attempt 1) as [[d1|m1] e1]; simpl; [left; eauto|].
  destruct (no_retry m1) eqn:N1; [right; left; eauto|].
  destruct (try_attempt 2) as [[d2|m2] e2]; simpl;
    [right; right; left; eauto 10|].
  destruct (no_retry m2) eqn:N2; simpl.
  { right; right; right; left. exists m1, m2. repeat split; try done.
    by rewrite <- !app_assoc. }
  destruct (try_attempt 3) as [[d3|m3] e3]; simpl.
  { right; right; right; right; left. exists m1, m2, d3.
    repeat split; done. }
  right; right; right; right; right. exists m1, m2, m3.
  repeat split; try done.
  destruct (no_retry m3); simpl; rewrite <- ?app_assoc; simpl;
    rewrite ?app_nil_r; repeat (rewrite <- ?app_assoc; simpl); done.
Qed.

Lemma fetches_app a b : fetches (a ++ b) = (fetches a ++ fetches b)%list.
Proof. apply omap_app. Qed.

Lemma sleeps_app a b : sleeps (a ++ b) = (sleeps a ++ sleeps b)%list.
Proof. apply omap_app. Qed.

Ltac events :=
  repeat (progress
    (rewrite ?fetches_app, ?sleeps_app,
       ?(proj1 (try_attempt_events 1)), ?(proj1 (try_attempt_events 2)),
       ?(proj1 (try_attempt_events 3)),
       ?(proj1 (proj2 (try_attempt_events 1))),
       ?(proj1 (proj2 (try_attempt_events 2))),
       ?(proj1 (proj2 (try_attempt_events 3)));
     simpl)).

(** X1.  Whatever the endpoint does, a [request] makes between one and
    three attempts, numbered from 1, and waits only between two attempts:
    [1000 * i] milliseconds after attempt [i].  So it never waits after its
    last attempt, and never waits more than 3000 ms in all. *)
Theorem request_bounds :
  exists n : nat,
    (1 <= n <= maxRetries)%nat
    /\ fetches request.2 = seq 1 n
    /\ sleeps request.2
       = map (fun i => retryDelay * Z.of_nat i) (seq 1 (n - 1))
    /\ foldr Z.add 0 (sleeps request.2) <= 3000.
Proof.
  unfold maxRetries, retryDelay.
  destruct request_cases
    as [(d & _ & ->)|[(m1 & _ & _ & ->)|[(m1 & d & _ & _ & _ & ->)
       |[(m1 & m2 & _ & _ & _ & _ & ->)|[(m1 & m2 & d & _ & _ & _ & _ & _ & ->)
       |(m1 & m2 & m3 & _ & _ & _ & _ & _ & ->)]]]]]; simpl.
  - exists 1%nat. events. repeat split; try reflexivity; simpl; lia.
  - exists 1%nat. events. repeat split; try reflexivity; simpl; lia.
  - exists 2%nat. events. repeat split; try reflexivity; simpl; lia.
  - exists 2%nat. events. repeat split; try reflexivity; simpl; lia.
  - exists 3%nat. events. repeat split; try reflexivity; simpl; lia.
  - exists 3%nat. events. repeat split; try reflexivity; simpl; lia.
Qed.

(** X2.  A [request] returns data exactly when one of its three attempts
    succeeds and every attempt before it failed with an error that is
    retried; the data are those of that attempt. *)
Theorem request_succeeds_iff d :
  request.1 = Ok d
  <-> (try_attempt 1).1 = Ok d
      \/ (exists m1, (try_attempt 1).1 = Throw m1 /\ no_retry m1 = false
          /\ (try_attempt 2).1 = Ok d)
      \/ (exists m1 m2,
            (try_attempt 1).1 = Throw m1 /\ no_retry m1 = false
            /\ (try_attempt 2).1 = Throw m2 /\ no_retry m2 = false
            /\ (try_attempt 3).1 = Ok d).
Proof.
  destruct request_cases
    as [(d' & H1 & ->)|[(m1 & H1 & N1 & ->)|[(m1 & d' & H1 & N1 & H2 & ->)
       |[(m1 & m2 & H1 & N1 & H2 & N2 & ->)
       |[(m1 & m2 & d' & H1 & N1 & H2 & N2 & H3 & ->)
       |(m1 & m2 & m3 & H1 & N1 & H2 & N2 & H3 & ->)]]]]]; simpl;
    try rewrite H1; try rewrite H2; try rewrite H3; simpl.
  - split; [intros [= <-]; by left|].
    intros [[= <-]|[(? & [=] & _)|(? & ? & [=] & _)]]. done.
  - split; [done|].
    intros [[=]|[(? & [= <-] & ? & _)|(? & ? & [= <-] & ? & _)]]; congruence.
  - split; [intros [= <-]; right; left; eauto|].
    intros [[=]|[(? & _ & _ & [= <-])|(? & ? & _ & _ & [=] & _)]]. done.
  - split; [done|].
    intros [[=]|[(? & _ & _ & [=])|(? & ? & _ & _ & [= <-] & ? & _)]].
    congruence.
  - split; [intros [= <-]; right; right; eauto 10|].
    intros [[=]|[(? & _ & _ & [=])|(? & ? & _ & _ & _ & _ & [= <-])]]. done.
  - split; [done|].
    intros [[=]|[(? & _ & _ & [=])|(? & ? & _ & _ & _ & _ & [=])]].
Qed.

(** X3.  When a [request] fails, the error it throws is the summary of the
    error of its last attempt: the first failure that is not retried, or
    the failure of the third attempt. *)
Theorem request_fails_with_last e :
  request.1 = Throw e ->
  exists (n : nat) m,
    (try_attempt n).1 = Throw m
    /\ e = summarize (Some m)
    /\ length (fetches request.2) = n
    /\ (n = 3%nat \/ no_retry m = true).
Proof.
  destruct request_cases
    as [(d' & H1 & ->)|[(m1 & H1 & N1 & ->)|[(m1 & d' & H1 & N1 & H2 & ->)
       |[(m1 & m2 & H1 & N1 & H2 & N2 & ->)
       |[(m1 & m2 & d' & H1 & N1 & H2 & N2 & H3 & ->)
       |(m1 & m2 & m3 & H1 & N1 & H2 & N2 & H3 & ->)]]]]]; simpl;
    try done; intros [= <-].
  - exists 1%nat, m1. events. auto.
  - exists 2%nat, m2. events. auto.
  - exists 3%nat, m3. events. auto.
Qed.

(** X4.  The last thing every [request] does, whether it returns or
    throws, is to clear its timeout: no timer is left pending. *)
Theorem request_clears_timeout :
  exists evs, request.2 = (evs ++ [EClearTimeout])%list.
Proof.
  destruct request_cases
    as [(d' & H1 & ->)|[(m1 & H1 & N1 & ->)|[(m1 & d' & H1 & N1 & H2 & ->)
       |[(m1 & m2 & H1 & N1 & H2 & N2 & ->)
       |[(m1 & m2 & d' & H1 & N1 & H2 & N2 & H3 & ->)
       |(m1 & m2 & m3 & H1 & N1 & H2 & N2 & H3 & ->)]]]]]; simpl.
  - destruct (proj2 (proj2 (try_attempt_events 1)) d') as [evs ->];
      [by rewrite H1|eauto].
  - eauto.
  - destruct (proj2 (proj2 (try_attempt_events 2)) d') as [evs ->]; [done|].
    exists ((try_attempt 1).2 ++ ESleep 1000 :: evs)%list.
    by rewrite <- app_assoc.
  - exists ((try_attempt 1).2 ++ ESleep 1000 :: (try_attempt 2).2)%list.
    by rewrite <- app_assoc.
  - destruct (proj2 (proj2 (try_attempt_events 3)) d') as [evs ->]; [done|].
    exists ((try_attempt 1).2 ++ ESleep 1000 :: (try_attempt 2).2
            ++ ESleep 2000 :: evs)%list.
    rewrite <- !app_assoc. simpl. by rewrite <- !app_assoc.
  - exists ((try_attempt 1).2 ++ ESleep 1000 :: (try_attempt 2).2
            ++ ESleep 2000 :: (try_attempt 3).2)%list.
    rewrite <- !app_assoc. simpl. by rewrite <- !app_assoc.
Qed.

(** X5.  A fetch that is aborted (the timeout fired) is not retried: when
    the first attempt rejects with a message that contains "abort", the
    request makes that single attempt, waits for nothing, and throws the
    timeout message. *)
Theorem abort_is_not_retried msg :
  fetch 1%nat = Rejected msg ->
  includes msg "abort" = true ->
  includes msg "Failed to fetch" = false ->
  request
  = (Throw "Request timed out. The server is taking longer than expected to process your audio. Please try again.",
     [EFetch 1; EClearTimeout]).
Proof.
  intros Hf Ha Hff. unfold ApiUtils.request, maxRetries. simpl.
  unfold ApiUtils.try_attempt. rewrite Hf. unfold no_retry. rewrite Ha. simpl.
  by rewrite Hff, Ha.
Qed.

(** X6.  Whether an HTTP error is retried depends on the text of the
    response.  For a status other than 0, 404, 413, 500 and 503, the error
    message carries the body of the response; when that body contains
    "abort", "Network error" or "API endpoint not found", the request stops
    after that attempt although the failure is a server error; and a body
    that contains "abort" is reported as a timeout. *)
Theorem error_text_stops_retry status statusText body marker :
  fetch 1%nat = Response status statusText body ->
  response_ok status = false ->
  status <> 0 -> status <> 404 -> status <> 413 -> status <> 500 ->
  status <> 503 ->
  In marker ["abort"; "Network error"; "API endpoint not found"] ->
  includes body marker = true ->
  request
  = (Throw (summarize (Some (http_error status statusText body))),
     [EFetch 1; EClearTimeout; EClearTimeout])
  /\ (marker = "abort" ->
      includes (http_error status statusText body) "Failed to fetch" = false ->
      request.1
      = Throw "Request timed out. The server is taking longer than expected to process your audio. Please try again.").
Proof.
  intros Hf Hok H0 H404 H413 H500 H503 Hmarker Hbody.
  assert (Hne : String.eqb body "" = false).
  { destruct body; [|done]. destruct Hmarker as [<-|[<-|[<-|[]]]]; done. }
  assert (Hmsg : http_error status statusText body
                 = "Server error (" +:+ pretty status +:+ "): " +:+ body).
  { unfold http_error, or_else.
    repeat match goal with
           | H : status <> ?n |- _ =>
               apply Z.eqb_neq in H; rewrite H; clear H
           end.
    by rewrite Hne. }
  assert (Hin : includes (http_error status statusText body) marker = true).
  { rewrite Hmsg. by do 3 apply includes_app_r. }
  assert (Hno : no_retry (http_error status statusText body) = true).
  { unfold no_retry.
    destruct Hmarker as [<-|[<-|[<-|[]]]]; rewrite Hin;
      rewrite ?orb_true_r; done. }
  assert (Hreq : request
    = (Throw (summarize (Some (http_error status statusText body))),
       [EFetch 1; EClearTimeout; EClearTimeout])).
  { unfold ApiUtils.request, maxRetries. simpl.
    unfold ApiUtils.try_attempt. by rewrite Hf, Hok, Hno. }
  split; [exact Hreq|].
  intros -> Hff. rewrite Hreq. simpl. by rewrite Hff, Hin.
Qed.

End Send.

(** X7.  [ErrorUtils.isNetworkError] looks for "fetch", "network" and
    "abort" in lower case.  None of the messages that [request] throws for a
    connection failure, a timeout or a network error contains them, so it
    answers [false] on each of them. *)
Theorem summarized_errors_are_not_network_errors m :
  includes m "Failed to fetch" = true \/ includes m "abort" = true
  \/ includes m "signal is aborted" = true
  \/ includes m "Network error" = true ->
  ErrorUtils.isNetworkError (summarize (Some m)) = false.
Proof.
  intros H. unfold summarize.
  destruct (includes m "Failed to fetch"); [reflexivity|].
  destruct (includes m "abort"); [reflexivity|].
  destruct (includes m "signal is aborted"); [reflexivity|].
  destruct (includes m "Network error"); [reflexivity|].
  by destruct H as [|[|[|]]].
Qed.

Lemma abort_is_not_retried_witness :
  ApiUtils.request (fun _ => Throw "") MoreExamples.timed_out
  = (Throw "Request timed out. The server is taking longer than expected to process your audio. Please try again.",
     [EFetch 1; EClearTimeout]).
Proof.
  apply (abort_is_not_retried (fun _ => Throw "") MoreExamples.timed_out
           "signal is aborted without reason"); reflexivity.
Defined.

Lemma error_text_stops_retry_witness :
  fetches (ApiUtils.request (fun _ => Throw "") MoreExamples.bad_gateway).2
  = [1%nat]
  /\ (ApiUtils.request (fun _ => Throw "") MoreExamples.bad_gateway).1
     = Throw "Request timed out. The server is taking longer than expected to process your audio. Please try again.".
Proof.
  destruct (error_text_stops_retry (fun _ => Throw "") MoreExamples.bad_gateway
              502 "Bad Gateway" "upstream connect aborted" "abort")
    as [Hreq Htimeout]; try reflexivity; try discriminate.
  - by left.
  - split; [by rewrite Hreq|]. apply Htimeout; reflexivity.
Defined.

Lemma summarized_errors_are_not_network_errors_witness :
  ErrorUtils.isNetworkError (summarize (Some "Failed to fetch")) = false.
Proof.
  apply summarized_errors_are_not_network_errors. left. reflexivity.
Defined.

End TransportFacts.

(** ** The daily bucket and the legacy settings *)

Module ManagerFacts.
Import Store Managers ValueFacts.

#[local] Arguments String.eqb : simpl never.

Section Buckets.

Variable JSON_parse : string -> option value.
Variable JSON_stringify : value -> string.
Variable Date_toISOString : Z -> string.
Variable ToString : value -> string.
Variable StringToNumber : string -> option (Z * nat).

#[local] Abbreviation get := (get JSON_parse ToString StringToNumber).
#[local] Abbreviation getCurrentData :=
  (getCurrentData JSON_parse JSON_stringify Date_toISOString ToString
     StringToNumber).
#[local] Abbreviation getCurrentDate := (getCurrentDate Date_toISOString).
#[local] Abbreviation saveData := (saveData JSON_stringify).
#[local] Abbreviation holds := (holds JSON_parse).
#[local] Abbreviation reads_back :=
  (reads_back JSON_parse JSON_stringify Date_toISOString).

Lemma set_metadata_other k v data data' key :
  set_metadata k v data = Ok data' -> key <> "metadata" ->
  prop data' key = prop data key.
Proof.
  unfold set_metadata. intros H Hkey.
  destruct (prop data "metadata") as [md|] eqn:Hmd; [|done]. simpl in H.
  destruct md; try done; try (by injection H as <-).
  injection H as <-. destruct data; try done. simpl.
  by rewrite assoc_obj_set_ne.
Qed.

Lemma saveData_spec data now (ls : gmap string string) data' ls' :
  saveData data now ls = Ok (data', ls') ->
  ls' = <["tonebridge_daily_data" := JSON_stringify (item data' now)]> ls
  /\ forall key, key <> "metadata" -> prop data' key = prop data key.
Proof.
  unfold Store.saveData. intros H.
  destruct (set_metadata "lastUpdated" _ data) as [d1|] eqn:H1; [|done].
  simpl in H.
  destruct (set_metadata "storageSize" _ d1) as [d2|] eqn:H2; [|done].
  simpl in H. injection H as <- <-. split; [done|].
  intros key Hkey.
  rewrite (set_metadata_other _ _ _ _ _ H2 Hkey).
  apply (set_metadata_other _ _ _ _ _ H1 Hkey).
Qed.

Lemma getCurrentData_post now (ls : gmap string string) data ls' :
  getCurrentData now ls = Ok (data, ls') ->
  prop data "date" = Ok (VStr (getCurrentDate now))
  /\ forall settings,
      prop data "settings" = Ok settings -> truthy settings = true ->
      exists displayMode,
        prop settings "displayMode" = Ok displayMode
        /\ truthy displayMode = true.
Proof.
  unfold Store.getCurrentData.
  destruct (get STORAGE_KEY now ls) as [stored ls1].
  destruct (truthy stored) eqn:Hstored; simpl.
  - destruct (prop stored "date") as [date|] eqn:Hdate; [|done]. simpl.
    destruct (differs date (getCurrentDate now)) eqn:Hdiff.
    + intros [_ Hprops]%saveData_spec.
      rewrite !Hprops by done. simpl. split; [done|].
      intros settings [= <-] _. by eexists.
    + assert (date = VStr (getCurrentDate now)) as ->.
      { destruct date; try done. simpl in Hdiff.
        apply negb_false_iff, String.eqb_eq in Hdiff. by subst. }
      destruct (prop stored "settings") as [settings|] eqn:Hset; [|done].
      simpl. destruct (truthy settings) eqn:Htr; simpl.
      * destruct (prop settings "displayMode") as [dm|] eqn:Hdm; [|done].
        simpl. destruct (truthy dm) eqn:Htdm; simpl.
        -- intros [= <- <-]. split; [done|].
           intros s. rewrite Hset. intros [= <-] _. eauto.
        -- intros [_ Hprops]%saveData_spec. rewrite !Hprops by done.
           destruct stored; try done. simpl in *.
           rewrite assoc_obj_set_ne by discriminate.
           split; [done|]. rewrite assoc_obj_set_eq. simpl.
           intros s [= <-] _. simpl. rewrite assoc_obj_set_eq. by eexists.
      * intros [= <- <-]. split; [done|].
        intros s. rewrite Hset. intros [= <-]. congruence.
  - intros [_ Hprops]%saveData_spec.
    rewrite !Hprops by done. simpl. split; [done|].
    intros settings [= <-] _. by eexists.
Qed.

(** X8.  Every bucket that [getCurrentData] returns is dated today, and
    its settings, when it has any, carry a display mode. *)
Theorem getCurrentData_today now (ls : gmap string string) data ls' :
  getCurrentData now ls = Ok (data, ls') ->
  prop data "date" = Ok (VStr (getCurrentDate now))
  /\ forall settings,
      prop data "settings" = Ok settings -> truthy settings = true ->
      exists displayMode,
        prop settings "displayMode" = Ok displayMode
        /\ truthy displayMode = true.
Proof. apply getCurrentData_post. Qed.



(** X10.  The display-mode migration of [getCurrentData] saves through
    [saveData], which writes into [data.metadata]: on a bucket of today
    whose settings lack a display mode and which has no [metadata], or a
    [null] one, [getCurrentData] throws a TypeError instead of
    migrating. *)
Theorem migration_needs_metadata fs settings dm now
    (ls : gmap string string) :
  holds ls "daily_data" (VObj fs) ->
  assoc "date" fs = Some (VStr (getCurrentDate now)) ->
  assoc "settings" fs = Some settings -> truthy settings = true ->
  prop settings "displayMode" = Ok dm -> truthy dm = false ->
  assoc "metadata" fs = None \/ assoc "metadata" fs = Some VNull ->
  getCurrentData now ls = Throw "TypeError: Cannot set properties".
Proof.
  intros Hholds Hdate Hset Htr Hdm Htdm Hmeta.
  unfold Store.getCurrentData, STORAGE_KEY.
  rewrite (get_holds _ ToString StringToNumber _ _ _ now Hholds).
  simpl. rewrite Hdate. simpl. rewrite String.eqb_refl. simpl.
  rewrite Hset. simpl. rewrite Htr, Hdm. simpl. rewrite Htdm. simpl.
  unfold Store.saveData, set_metadata. simpl.
  rewrite assoc_obj_set_ne by discriminate.
  by destruct Hmeta as [->| ->].
Qed.

Ltac assoc_simpl :=
  repeat (rewrite assoc_obj_set_eq
          || rewrite assoc_obj_set_ne by discriminate).







End Buckets.

(** X13.  [StorageUtils.clear] removes every key of the application and no
    other: afterwards [StorageUtils.get] finds nothing under any key, and
    a key of the store that does not start with the prefix keeps its
    value. *)
Theorem clear_removes_prefixed (ls : gmap string string) :
  (forall key, clear ls !! (prefix +:+ key) = None)
  /\ (forall JSON_parse ToString StringToNumber key now,
        get JSON_parse ToString StringToNumber key now (clear ls)
        = (VNull, clear ls))
  /\ (forall k, String.prefix prefix k = false -> clear ls !! k = ls !! k).
Proof.
  assert (H : forall key, clear ls !! (prefix +:+ key) = None).
  { intros key. unfold clear. apply map_lookup_filter_None. right.
    intros x _ Hp. cbv in Hp. by destruct key. }
  split; [exact H|]. split.
  - intros JSON_parse ToString StringToNumber key now.
    unfold Store.get. by rewrite H.
  - intros k Hk. unfold clear.
    destruct (ls !! k) as [x|] eqn:E.
    + apply map_lookup_filter_Some. done.
    + apply map_lookup_filter_None. by left.
Qed.

End ManagerFacts.

(** ** Saving and loading *)

Module TranscriptFacts.
Import Store Managers ValueFacts.

#[local] Arguments String.eqb : simpl never.

Section Loading.

Variable JSON_parse : string -> option value.
Variable JSON_stringify : value -> string.
Variable Date_parse : string -> option Z.
Variable Date_toISOString : Z -> string.
Variable ToString : value -> string.
Variable StringToNumber : string -> option (Z * nat).
Variable quota_exceeded : string -> string -> gmap string string -> bool.

#[local] Abbreviation get := (get JSON_parse ToString StringToNumber).
#[local] Abbreviation set := (set JSON_stringify).
#[local] Abbreviation toJSON := (toJSON Date_toISOString).
#[local] Abbreviation revive := (revive Date_parse ToString).
#[local] Abbreviation is_loadable := (loadable Date_parse Date_toISOString).
#[local] Abbreviation getTranscripts :=
  (getTranscripts JSON_parse Date_parse ToString StringToNumber).
#[local] Abbreviation saveTranscripts :=
  (saveTranscripts JSON_stringify quota_exceeded).
#[local] Abbreviation refused ys now ls :=
  (quota_exceeded "tonebridge_transcripts"
     (JSON_stringify (item (VArr (Managers.evicted JSON_stringify ys)) now))
     ls).
#[local] Abbreviation evicted := (evicted JSON_stringify).
#[local] Abbreviation reads_back :=
  (reads_back JSON_parse JSON_stringify Date_toISOString).

(** X14.  A value stored with an expiry is returned by [StorageUtils.get]
    up to and including the instant [now + expiresIn]; after it, [get]
    returns [null] and removes the key, so that every later [get] returns
    [null] as well.  A value stored without expiry does not expire. *)
Theorem set_get_expiry key v d now now' now'' (ls : gmap string string) :
  v <> VUndef -> d <> 0 -> now + d <> 0 ->
  reads_back (expiring_item v now (now + d)) ->
  (now' <= now + d ->
   get key now' (set key v (Some d) now ls)
   = (toJSON v, set key v (Some d) now ls))
  /\ (now + d < now' ->
      get key now' (set key v (Some d) now ls)
      = (VNull, delete (prefix +:+ key) (set key v (Some d) now ls))
      /\ get key now'' (get key now' (set key v (Some d) now ls)).2
         = (VNull, delete (prefix +:+ key) (set key v (Some d) now ls)))
  /\ (reads_back (item v now) ->
      get key now' (set key v None now ls) = (toJSON v, set key v None now ls)).
Proof.
  intros Hv Hd Hnd [Hparse Hne].
  assert (Hget : get key now' (set key v (Some d) now ls)
    = if now + d <? now'
      then (VNull, delete (prefix +:+ key) (set key v (Some d) now ls))
      else (toJSON v, set key v (Some d) now ls)).
  { unfold Store.get, Store.set, parse.
    apply Z.eqb_neq in Hd as ->. rewrite lookup_insert_eq.
    apply String.eqb_neq in Hne. unfold expiring_item in *.
    rewrite Hne, Hparse.
    remember (toJSON (VObj [("value", v); ("timestamp", VInt now);
                            ("expiresAt", VInt (now + d))])) as parsed
      eqn:Hparsed.
    assert (Hexp : prop parsed "expiresAt" = Ok (VInt (now + d))).
    { subst parsed. by destruct v as [| | | | |[t|]| |]. }
    assert (Hval : prop parsed "value" = Ok (toJSON v)).
    { subst parsed. destruct v as [| | | | |[t|]| |]; try reflexivity; done. }
    clear Hparsed. simpl. rewrite Hexp. simpl.
    unfold gt, ToNumber, VInt.
    apply Z.eqb_neq in Hnd as ->. simpl.
    change (10 ^ Z.of_nat 0) with 1. rewrite Z.mul_1_r.
    destruct (now + d <? now'); [done|]. simpl. by rewrite Hval. }
  split; [|split].
  - intros Hle. rewrite Hget.
    by destruct (Z.ltb_spec (now + d) now'); [lia|].
  - intros Hlt. rewrite Hget.
    destruct (Z.ltb_spec (now + d) now'); [|lia]. split; [done|].
    simpl. unfold Store.get. by rewrite lookup_delete_eq.
  - intros Hrb.
    apply (get_holds _ ToString StringToNumber).
    by apply set_holds.
Qed.

Lemma obj_set_twice k v w fs : obj_set k v (obj_set k w fs) = obj_set k v fs.
Proof.
  induction fs as [|[k' x] fs IH]; simpl.
  - by rewrite String.eqb_refl.
  - destruct (String.eqb k k') eqn:E; simpl.
    + by rewrite String.eqb_refl.
    + by rewrite E, IH.
Qed.

Lemma obj_set_same k v fs : assoc k fs = Some v -> obj_set k v fs = fs.
Proof.
  induction fs as [|[k' x] fs IH]; simpl; [done|].
  destruct (String.eqb k k') eqn:E.
  - apply String.eqb_eq in E as <-. by intros [= ->].
  - intros H. by rewrite IH.
Qed.

Lemma toJSON_timestamp fs t :
  assoc "timestamp" fs = Some (VDate (Some t)) ->
  pure (VObj (obj_set "timestamp" VNull fs)) = true ->
  toJSON (VObj fs) = VObj (obj_set "timestamp" (VStr (Date_toISOString t)) fs).
Proof.
  induction fs as [|[k x] fs IH]; [done|].
  simpl assoc. simpl obj_set. destruct (String.eqb "timestamp" k) eqn:E.
  - apply String.eqb_eq in E as <-. intros [= ->] Hp.
    simpl in Hp.
    pose proof (toJSON_pure Date_toISOString (VObj fs) Hp) as Hfs.
    simpl in Hfs. injection Hfs as Hfs. simpl. by rewrite Hfs.
  - intros Ha Hp. simpl in Hp. apply andb_prop in Hp as [Hx Hp].
    specialize (IH Ha Hp). simpl in IH. injection IH as IH.
    simpl. rewrite IH, (toJSON_pure _ _ Hx). by destruct x.
Qed.

Lemma revive_loadable y :
  is_loadable y = true ->
  exists x, toJSON y = x /\ x <> VUndef /\ revive x = Ok y
            /\ (match y with VUndef => VNull | _ => toJSON y end) = x.
Proof.
  destruct y as [| | | | | | |fs]; try done. unfold loadable.
  destruct (assoc "timestamp" fs) as [[| | | | |[t|]| |]|] eqn:Ha; try done.
  destruct (Date_parse (Date_toISOString t)) as [t'|] eqn:Hp; [|done].
  intros [Ht Hpure]%andb_prop. apply Z.eqb_eq in Ht as ->.
  eexists. split; [reflexivity|].
  rewrite (toJSON_timestamp fs t Ha Hpure).
  split; [done|]. split; [|done].
  unfold Store.revive. simpl. rewrite assoc_obj_set_eq. simpl.
  rewrite Hp. unfold obj_lit. simpl.
  by rewrite obj_set_twice, (obj_set_same _ _ _ Ha).
Qed.

Lemma mapM_revive_loadable ys :
  forallb is_loadable ys = true ->
  exists xs, toJSON (VArr ys) = VArr xs /\ mapM revive xs = Ok ys.
Proof.
  induction ys as [|y ys IH]; simpl; [by exists []|].
  intros [Hy Hys]%andb_prop.
  destruct (revive_loadable y Hy) as (x & _ & _ & Hx & Hto).
  destruct (IH Hys) as (xs & Hxs & Hrev). simpl in Hxs. injection Hxs as Hxs.
  exists (x :: xs). rewrite Hto, Hxs. split; [done|].
  simpl. by rewrite Hx, Hrev.
Qed.

Lemma evicted_suffix ts : evicted ts `suffix_of` ts.
Proof. apply StoreFacts.evicted_spec. Qed.

Lemma evicted_bounds ts :
  (length (evicted ts) <= 1000)%nat
  /\ (size_of JSON_stringify (evicted ts) <= 5 * 1024 * 1024
      \/ evicted ts = []).
Proof.
  destruct (StoreFacts.evicted_spec JSON_stringify ts) as (_ & H1 & H2 & _).
  done.
Qed.

Lemma evicted_all ts :
  (length ts <= 1000)%nat -> size_of JSON_stringify ts <= 5 * 1024 * 1024 ->
  evicted ts = ts.
Proof.
  intros Hlen Hsize. unfold Managers.evicted, slice_last, MAX_TRANSCRIPTS.
  replace (length ts - 1000)%nat with 0%nat by lia.
  rewrite drop_0.
  destruct (Z.ltb_spec MAX_STORAGE_SIZE (size_of JSON_stringify ts))
    as [Hlt|_]; [|done].
  unfold MAX_STORAGE_SIZE in Hlt. lia.
Qed.

Lemma load_saved ys now now' (ls : gmap string string) :
  forallb is_loadable ys = true ->
  reads_back (item (VArr (evicted ys)) now) ->
  refused ys now ls = false ->
  getTranscripts now' (saveTranscripts ys now ls)
  = (evicted ys, saveTranscripts ys now ls).
Proof.
  intros Hys Hrb Htaken.
  assert (Hkept : forallb is_loadable (evicted ys) = true).
  { destruct (evicted_suffix ys) as [k Hk].
    rewrite Hk, forallb_app in Hys. by apply andb_prop in Hys as [_ ?]. }
  destruct (mapM_revive_loadable _ Hkept) as (xs & Hto & Hrev).
  rewrite StoreFacts.saveTranscripts_written, Htaken.
  change (<["tonebridge_transcripts" :=
              JSON_stringify (item (VArr (evicted ys)) now)]> ls)
    with (set TRANSCRIPTS_KEY (VArr (evicted ys)) None now ls).
  apply (set_holds _ _ _ ls TRANSCRIPTS_KEY _ now) in Hrb; [|done].
  rewrite Hto in Hrb.
  unfold Store.getTranscripts.
  rewrite (get_holds _ ToString StringToNumber _ _ _ now' Hrb).
  simpl. by rewrite Hrev.
Qed.

Lemma refused_unchanged ys now (ls : gmap string string) :
  refused ys now ls = true -> saveTranscripts ys now ls = ls.
Proof. intros H. by rewrite StoreFacts.saveTranscripts_written, H. Qed.

(** X15.  Saving and loading are inverse on what is kept.  For segments as
    the application builds them (objects with a valid [Date] as timestamp
    and JSON values elsewhere), when the browser takes the write,
    [getTranscripts] after [saveTranscripts] returns exactly the segments
    that were kept, the most recent ones, with their timestamps as [Date]
    objects again; the segments kept are all of them when they are within
    the two limits.  When [setItem] throws, [getTranscripts] returns what
    it returned before the save. *)
Theorem save_then_load ys now now' (ls : gmap string string) :
  forallb is_loadable ys = true ->
  reads_back (item (VArr (evicted ys)) now) ->
  (refused ys now ls = false ->
   getTranscripts now' (saveTranscripts ys now ls)
   = (evicted ys, saveTranscripts ys now ls))
  /\ (refused ys now ls = true ->
      getTranscripts now' (saveTranscripts ys now ls)
      = getTranscripts now' ls)
  /\ evicted ys `suffix_of` ys
  /\ ((length ys <= 1000)%nat ->
      size_of JSON_stringify ys <= 5 * 1024 * 1024 -> evicted ys = ys).
Proof.
  intros Hys Hrb. split; [by apply load_saved|].
  split; [by intros ->%refused_unchanged|].
  split; [apply evicted_suffix|apply evicted_all].
Qed.

(** X16.  After a [saveTranscripts] of such segments that the browser
    takes, [getStorageInfo] reports at most 1000 transcripts, and a size
    within the limit of 5*1024*1024 bytes unless nothing is stored.  After
    one that the browser refuses, it reports what it reported before. *)
Theorem storage_info_within_limits ys now now' (ls : gmap string string) :
  forallb is_loadable ys = true ->
  reads_back (item (VArr (evicted ys)) now) ->
  (refused ys now ls = false ->
   exists count size,
     (getStorageInfo JSON_parse JSON_stringify Date_parse ToString
        StringToNumber now' (saveTranscripts ys now ls)).1
     = (count, size, 5 * 1024 * 1024)
     /\ (count <= 1000)%nat
     /\ (size <= 5 * 1024 * 1024 \/ count = 0%nat))
  /\ (refused ys now ls = true ->
      getStorageInfo JSON_parse JSON_stringify Date_parse ToString
        StringToNumber now' (saveTranscripts ys now ls)
      = getStorageInfo JSON_parse JSON_stringify Date_parse ToString
          StringToNumber now' ls).
Proof.
  intros Hys Hrb. split.
  - intros Htaken. unfold getStorageInfo.
    rewrite (load_saved ys now now' ls Hys Hrb Htaken). simpl.
    eexists _, _. split; [reflexivity|].
    destruct (evicted_bounds ys) as [Hlen [Hsize|Hnil]].
    + split; [done|by left].
    + split; [done|]. right. by rewrite Hnil.
  - by intros ->%refused_unchanged.
Qed.

End Loading.

End TranscriptFacts.

(** ** The Home page *)

Module HomeFacts.
Import ApiUtils Home.

Section Page.

Variable body_json : string -> res value.
Variable fetch : string -> nat -> outcome.
Variable JSON_stringify : value -> string.
Variable ToString : value -> string.
Variable blobToBase64 : option string.
Variable quota_exceeded : string -> string -> gmap string string -> bool.

#[local] Abbreviation handleRecordingComplete :=
  (handleRecordingComplete body_json fetch JSON_stringify ToString
     blobToBase64 quota_exceeded).
#[local] Abbreviation try_block :=
  (try_block body_json fetch JSON_stringify ToString blobToBase64
     quota_exceeded).
#[local] Abbreviation saveTranscripts :=
  (Store.saveTranscripts JSON_stringify quota_exceeded).
#[local] Abbreviation evicted := (Managers.evicted JSON_stringify).
#[local] Abbreviation transcribe :=
  (request body_json (fetch "/api/transcribe")).
#[local] Abbreviation health := (request body_json (fetch "/health")).

(** What the [try] block leaves: nothing changed and an error, or one
    segment appended and saved. *)
Lemma try_block_cases now st :
  (transcriptionSegments (try_block now st).1 = transcriptionSegments st
   /\ localStorage (try_block now st).1 = localStorage st
   /\ toasts (try_block now st).1 = toasts st
   /\ (try_block now st).2 <> None)
  \/ (exists response success data segment,
        blobToBase64 <> None
        /\ (exists ok, health.1 = Ok ok)
        /\ transcribe.1 = Ok response
        /\ prop response "success" = Ok success /\ truthy success = true
        /\ prop response "data" = Ok data
        /\ prop segment "id" = Ok (VStr (pretty now))
        /\ prop segment "text" = prop data "transcript"
        /\ prop segment "timestamp" = Ok (VDate (Some now))
        /\ transcriptionSegments (try_block now st).1
           = (transcriptionSegments st ++ [segment])%list
        /\ localStorage (try_block now st).1
           = saveTranscripts (transcriptionSegments st ++ [segment]) now
               (localStorage st)
        /\ ((toasts (try_block now st).1 = toasts st
             /\ (try_block now st).2 <> None)
            \/ (toasts (try_block now st).1
                = (toasts st
                   ++ [("Transcription completed successfully!", "success")])%list
                /\ (try_block now st).2 = None))).
Proof.
  unfold Home.try_block.
  destruct blobToBase64 as [b|]; [|left; done].
  destruct health as [[ok|e] evs]; [|left; done].
  destruct transcribe as [[response|e] evs']; [|left; done].
  destruct (prop response "success") as [success|e] eqn:Hs; [|left; done].
  destruct (truthy success) eqn:Ht.
  - destruct (prop response "data") as [data|e] eqn:Hd; [|left; done].
    simpl.
    destruct (prop data "transcript") as [transcript|e] eqn:H1; [|left; done].
    destruct (prop data "emotion") as [emotion|e] eqn:H2; [|left; done].
    destruct (prop data "emotion_emoji") as [emoji|e] eqn:H3; [|left; done].
    destruct (prop data "confidence") as [confidence|e] eqn:H4;
      [|left; done].
    simpl. right.
    exists response, success, data,
      (VObj [("id", VStr (pretty now)); ("text", transcript);
             ("emotion", emotion); ("emoji", emoji);
             ("confidence", confidence); ("timestamp", VDate (Some now))]).
    split; [done|]. split; [by eexists|]. split; [done|].
    split; [done|]. split; [done|]. split; [done|].
    split; [reflexivity|]. split; [by rewrite H1|]. split; [reflexivity|].
    destruct (text_length _); simpl.
    + split; [done|]. split; [done|]. by right.
    + split; [done|]. split; [done|]. by left.
  - destruct (prop response "message"); left; done.
Qed.

(** X17.  A recording changes the transcript only by a successful
    transcription.  After [handleRecordingComplete] the page is no longer
    processing; and either the segments and the store are as before and an
    error toast was shown, or the health probe and the transcription both
    answered, the response has a true [success], and exactly one segment
    was appended, with the transcript of the response as text and the
    current time as id and timestamp, and handed to [saveTranscripts].
    That save is silent: either the browser took the write and the store
    holds the kept suffix of the new segments, or [setItem] threw and the
    store is as before, while the page shows the segment all the same. *)
Theorem recording_appends_only_on_success now st :
  isProcessing (handleRecordingComplete now st) = false
  /\ isRecording (handleRecordingComplete now st) = false
  /\ ((transcriptionSegments (handleRecordingComplete now st)
       = transcriptionSegments st
       /\ localStorage (handleRecordingComplete now st) = localStorage st
       /\ exists msg,
           toasts (handleRecordingComplete now st)
           = (toasts st ++ [(msg, "error")])%list)
      \/ (exists response success data segment,
            (exists ok, health.1 = Ok ok)
            /\ transcribe.1 = Ok response
            /\ prop response "success" = Ok success /\ truthy success = true
            /\ prop response "data" = Ok data
            /\ prop segment "id" = Ok (VStr (pretty now))
            /\ prop segment "text" = prop data "transcript"
            /\ prop segment "timestamp" = Ok (VDate (Some now))
            /\ transcriptionSegments (handleRecordingComplete now st)
               = (transcriptionSegments st ++ [segment])%list
            /\ localStorage (handleRecordingComplete now st)
               = saveTranscripts (transcriptionSegments st ++ [segment]) now
                   (localStorage st)
            /\ (localStorage (handleRecordingComplete now st)
                = <["tonebridge_transcripts" :=
                      JSON_stringify
                        (item (VArr (evicted (transcriptionSegments st
                                              ++ [segment])%list)) now)]>
                    (localStorage st)
                \/ localStorage (handleRecordingComplete now st)
                   = localStorage st)
            /\ length (toasts (handleRecordingComplete now st))
               = S (length (toasts st)))).
Proof.
  unfold Home.handleRecordingComplete.
  set (st0 := State (transcriptionSegments st) true false (toasts st)
                (localStorage st) (requests st)).
  pose proof (try_block_cases now st0) as Hcases.
  assert (Hwritten : forall ts,
    saveTranscripts ts now (localStorage st)
    = <["tonebridge_transcripts" :=
          JSON_stringify (item (VArr (evicted ts)) now)]> (localStorage st)
    \/ saveTranscripts ts now (localStorage st) = localStorage st).
  { intros ts. rewrite StoreFacts.saveTranscripts_written.
    destruct (quota_exceeded _ _ _); [by right|by left]. }
  assert (Hflag : isRecording (try_block now st0).1 = false).
  { unfold Home.try_block.
    repeat match goal with
           | |- context [match ?x with _ => _ end] => destruct x; simpl
           | |- context [if ?x then _ else _] => destruct x; simpl
           end; done. }
  destruct (try_block now st0) as [st1 err]. simpl in *.
  split; [done|]. split.
  { by destruct err. }
  destruct Hcases as [(Hseg & Hls & Htoasts & Herr)
                     |(response & success & data & segment & _ & Hh & Hr & Hs
                       & Ht & Hd & Hid & Htext & Hts & Hseg & Hls & Htoasts)].
  - left. destruct err as [e|]; [|done]. simpl.
    rewrite Hseg, Hls, Htoasts. eauto.
  - right. exists response, success, data, segment.
    repeat (split; [done|]).
    destruct Htoasts as [[Htoasts Herr]|[Htoasts ->]].
    + destruct err as [e|]; [|done]. simpl.
      rewrite Hseg, Hls, Htoasts, length_app. simpl.
      split; [done|]. split; [done|]. split; [apply Hwritten|lia].
    + simpl. rewrite Hseg, Hls, Htoasts, length_app. simpl.
      split; [done|]. split; [done|]. split; [apply Hwritten|lia].
Qed.

(** X18.  The health probe gates the transcription.  When the request to
    /health fails, /api/transcribe is not requested at all, the segments
    and the store are left as they were, and the page shows that the
    server cannot be reached. *)
Theorem failed_probe_stops_transcription now st b e :
  blobToBase64 = Some b ->
  health.1 = Throw e ->
  requests (handleRecordingComplete now st)
  = (requests st
     ++ [("/api/debug/audio", (request body_json (fetch "/api/debug/audio")).2);
         ("/health", health.2)])%list
  /\ ~ In "/api/transcribe"
       (map fst (drop (length (requests st))
                   (requests (handleRecordingComplete now st))))
  /\ transcriptionSegments (handleRecordingComplete now st)
     = transcriptionSegments st
  /\ localStorage (handleRecordingComplete now st) = localStorage st
  /\ toasts (handleRecordingComplete now st)
     = (toasts st
        ++ [("Transcription failed: Cannot connect to server. Please check your internet connection and try again.",
             "error")])%list.
Proof.
  intros Hb Hh. unfold Home.handleRecordingComplete, Home.try_block.
  rewrite Hb. destruct health as [r evs]. simpl in Hh. subst r. simpl.
  split; [by rewrite <- app_assoc|]. split; [|done].
  rewrite <- app_assoc, drop_app_length. simpl.
  intros [H|[H|[]]]; discriminate.
Qed.

(** X19.  When the transcription request fails, the page shows the error
    of the request, translated by the [catch] block, and leaves the
    segments and the store as they were. *)
Theorem failed_transcription_is_reported now st b ok e :
  blobToBase64 = Some b ->
  health.1 = Ok ok ->
  transcribe.1 = Throw e ->
  transcriptionSegments (handleRecordingComplete now st)
  = transcriptionSegments st
  /\ localStorage (handleRecordingComplete now st) = localStorage st
  /\ toasts (handleRecordingComplete now st)
     = (toasts st
        ++ [("Transcription failed: " +:+ user_message (AnError e),
             "error")])%list.
Proof.
  intros Hb Hh Ht. unfold Home.handleRecordingComplete, Home.try_block.
  rewrite Hb. destruct health as [r evs]. simpl in Hh. subst r.
  destruct transcribe as [r evs']. simpl in Ht. subst r. done.
Qed.

Lemma differs_false v s : Store.differs v s = false <-> v = VStr s.
Proof.
  destruct v; simpl; try done.
  rewrite negb_false_iff, String.eqb_eq. split; [by intros ->|by intros [= ->]].
Qed.

Lemma filterM_id segmentId xs ys :
  filterM (fun segment =>
             let* id := prop segment "id" in
             Ok (Store.differs id segmentId)) xs = Ok ys ->
  Forall (fun seg => prop seg "id" <> Ok (VStr segmentId)) ys
  /\ ys `sublist_of` xs
  /\ (forall seg, seg ∈ xs -> prop seg "id" <> Ok (VStr segmentId) ->
                  seg ∈ ys).
Proof.
  revert ys. induction xs as [|x xs IH]; simpl; intros ys.
  - intros [= <-]. split; [done|]. split; [done|]. by intros seg ?%elem_of_nil.
  - destruct (prop x "id") as [id|] eqn:Hid; [|done]. simpl.
    destruct (filterM _ xs) as [zs|]; [|done]. simpl.
    destruct (IH zs eq_refl) as (H1 & H2 & H3).
    destruct (Store.differs id segmentId) eqn:Hd; intros [= <-].
    + split; [|split].
      * constructor; [|done]. rewrite Hid. intros [= ->].
        by rewrite (proj2 (differs_false _ _) eq_refl) in Hd.
      * by apply sublist_skip.
      * intros seg [->|Hin]%elem_of_cons Hne; [by left|].
        right. by apply H3.
    + apply differs_false in Hd as ->. split; [done|]. split.
      * by apply sublist_cons.
      * intros seg [->|Hin]%elem_of_cons Hne; [done|]. by apply H3.
Qed.

(** X21.  [deleteTranscript] removes from the page the segments with the
    given id and no other: those that remain keep their order, none of
    them has the id, and they are handed to [saveTranscripts].  When the
    browser takes the write, what is persisted is a suffix of them, so no
    persisted segment has the id.  When [setItem] throws, the store is
    left as it was, with the deleted segment if it held it. *)
Theorem deleteTranscript_removes_id segmentId now st st' :
  deleteTranscript JSON_stringify quota_exceeded segmentId now st = Ok st' ->
  Forall (fun seg => prop seg "id" <> Ok (VStr segmentId))
    (transcriptionSegments st')
  /\ transcriptionSegments st' `sublist_of` transcriptionSegments st
  /\ (forall seg, seg ∈ transcriptionSegments st ->
        prop seg "id" <> Ok (VStr segmentId) ->
        seg ∈ transcriptionSegments st')
  /\ localStorage st'
     = saveTranscripts (transcriptionSegments st') now (localStorage st)
  /\ (quota_exceeded "tonebridge_transcripts"
        (JSON_stringify
           (item (VArr (evicted (transcriptionSegments st'))) now))
        (localStorage st) = false ->
      localStorage st'
      = <["tonebridge_transcripts" :=
            JSON_stringify
              (item (VArr (evicted (transcriptionSegments st'))) now)]>
          (localStorage st)
      /\ evicted (transcriptionSegments st')
         `suffix_of` transcriptionSegments st'
      /\ Forall (fun seg => prop seg "id" <> Ok (VStr segmentId))
           (evicted (transcriptionSegments st')))
  /\ (quota_exceeded "tonebridge_transcripts"
        (JSON_stringify
           (item (VArr (evicted (transcriptionSegments st'))) now))
        (localStorage st) = true ->
      localStorage st' = localStorage st).
Proof.
  unfold deleteTranscript.
  destruct (filterM _ _) as [ys|] eqn:Hf; [|done]. simpl. intros [= <-].
  destruct (filterM_id _ _ _ Hf) as (H1 & H2 & H3). simpl.
  split; [done|]. split; [done|]. split; [done|]. split; [done|].
  rewrite StoreFacts.saveTranscripts_written.
  destruct (StoreFacts.evicted_spec JSON_stringify ys) as (Hsuffix & _).
  split.
  - intros ->. split; [done|]. split; [done|].
    destruct Hsuffix as [k Hk]. rewrite Hk in H1.
    by apply Forall_app in H1 as [_ ?].
  - by intros ->.
Qed.

End Page.

(** X20.  What the user reads for each kind of failure of a request.  The
    request's own summary of a failed fetch, of an abort and of a network
    error, and its message for a 413, are translated by the page into its
    four messages; the summary of a timeout, which starts with "Request
    timed out", loses its explanation. *)
Theorem user_message_of_request_error m :
  (includes m "Failed to fetch" = true ->
   user_message (AnError (summarize (Some m)))
   = "Cannot connect to server. Please check your internet connection and try again.")
  /\ (includes m "Failed to fetch" = false -> includes m "abort" = true ->
      user_message (AnError (summarize (Some m)))
      = "Request timed out. Please try again.")
  /\ (includes m "Failed to fetch" = false -> includes m "abort" = false ->
      includes m "signal is aborted" = false ->
      includes m "Network error" = true ->
      user_message (AnError (summarize (Some m)))
      = "Network connection issue. Please check your connection and try again.")
  /\ (forall statusText body,
        user_message
          (AnError (summarize (Some (http_error 413 statusText body))))
        = "Recording too long. Please record a shorter message.").
Proof.
  unfold summarize. repeat split.
  - by intros ->.
  - by intros -> ->.
  - by intros -> -> -> ->.
Qed.

(** X27.  [clearTranscript] empties the transcript and removes it from the
    store: afterwards [getTranscripts] returns the empty list, and every
    other key of the store keeps its value. *)
Theorem clearTranscript_empties JSON_parse Date_parse ToString StringToNumber
    now st :
  transcriptionSegments (clearTranscript st) = []
  /\ localStorage (clearTranscript st) !! "tonebridge_transcripts" = None
  /\ Store.getTranscripts JSON_parse Date_parse ToString StringToNumber now
       (localStorage (clearTranscript st))
     = ([], localStorage (clearTranscript st))
  /\ (forall k, k <> "tonebridge_transcripts" ->
      localStorage (clearTranscript st) !! k = localStorage st !! k).
Proof.
  unfold clearTranscript, Store.clearTranscripts, Store.remove. simpl.
  assert (H : delete "tonebridge_transcripts" (localStorage st)
              !! "tonebridge_transcripts" = None) by apply lookup_delete_eq.
  split; [done|]. split; [exact H|]. split.
  - unfold Store.getTranscripts, Store.get, Store.TRANSCRIPTS_KEY.
    change (Store.prefix +:+ "transcripts") with "tonebridge_transcripts".
    by rewrite H.
  - intros k Hk. by rewrite lookup_delete_ne.
Qed.

End HomeFacts.

(** ** A capture session *)

Module SessionFacts.
Import AudioRecorder.

(** The chunks of a list of [dataavailable] events, in order. *)
Lemma chunks_received sizes st :
  let st' := foldl (fun s size => ondataavailable size s) st sizes in
  audioChunks st' = (audioChunks st ++ filter (fun size => 0 < size) sizes)%list
  /\ tracks_live st' = tracks_live st /\ timer_running st' = timer_running st
  /\ streamRef st' = streamRef st
  /\ durationIntervalRef st' = durationIntervalRef st
  /\ mediaRecorderRef st' = mediaRecorderRef st /\ mimeType st' = mimeType st
  /\ isRecording st' = isRecording st /\ error st' = error st
  /\ emitted st' = emitted st.
Proof.
  revert st. induction sizes as [|size sizes IH]; intros st; simpl.
  - by rewrite app_nil_r.
  - destruct (IH (ondataavailable size st)) as (H1 & H2 & H3 & H4 & H5 & H6
      & H7 & H8 & H9 & H10).
    rewrite H1, H2, H3, H4, H5, H6, H7, H8, H9, H10.
    unfold ondataavailable. rewrite filter_cons.
    destruct (Z.ltb_spec 0 size); simpl.
    + rewrite decide_True by done. by rewrite <- app_assoc.
    + by rewrite decide_False by lia.
Qed.

Lemma blob_size_app a b : blob_size (a ++ b) = blob_size a + blob_size b.
Proof. unfold blob_size. induction a; simpl; lia. Qed.

Section Session.

Variable onRecordingComplete : Z -> string -> option string.
Hypothesis returns : forall size format, onRecordingComplete size format = None.

(** X22.  A session that starts, receives chunks, is stopped, receives the
    last chunks and then the [stop] event, calls [onRecordingComplete]
    exactly once and [onRecordingError] never; the blob is made of the
    chunks that are not empty, in order; afterwards the tracks are
    stopped, the timer is cleared and the page no longer records. *)
Theorem session_completes_once p before after :
  isIOSSafari p && negb (isSecureContext p) = false ->
  getUserMedia p = None -> newMediaRecorder p = None -> start p = None ->
  let recording :=
    foldl (fun s size => ondataavailable size s) (startRecording p idle)
      before in
  let stopping :=
    foldl (fun s size => ondataavailable size s) (stopRecording recording)
      after in
  let st := onstop onRecordingComplete stopping in
  isRecording recording = true /\ tracks_live recording = true
  /\ emitted st
     = [RecordingComplete
          (blob_size (filter (fun size => 0 < size) (before ++ after)%list))
          (format_of (getSupportedMimeType p))]
  /\ tracks_live st = false /\ timer_running st = false
  /\ isRecording st = false /\ error st = None.
Proof.
  intros Hios Hgum Hrec Hstart recording stopping st.
  subst st stopping recording.
  assert (Hstarted : startRecording p idle
    = State true true true true true (getSupportedMimeType p) [] true None []).
  { unfold startRecording. by rewrite Hios, Hgum, Hrec, Hstart. }
  rewrite Hstarted.
  pose proof (chunks_received before
    (State true true true true true (getSupportedMimeType p) [] true None []))
    as Hbefore.
  destruct (foldl _ _ before) as [t1 t2 t3 t4 t5 t6 t7 t8 t9 t10].
  simpl in Hbefore.
  destruct Hbefore as (-> & -> & -> & -> & -> & -> & -> & -> & -> & ->).
  simpl.
  pose proof (chunks_received after
    (State true true true true true (getSupportedMimeType p)
       (filter (fun size => 0 < size) before) false None []))
    as Hafter.
  destruct (foldl _ _ after) as [u1 u2 u3 u4 u5 u6 u7 u8 u9 u10].
  simpl in Hafter.
  destruct Hafter as (-> & -> & -> & -> & -> & -> & -> & -> & -> & ->).
  unfold onstop. rewrite returns. simpl.
  by rewrite filter_app.
Qed.

End Session.

(** X23.  The format sent with a recording.  Whatever the browser
    supports, the MIME type chosen for the recorder yields one of the
    formats webm, mp4, wav and ogg; when the browser supports one of the
    listed types, the chosen type is supported, and it is the first
    supported one in the order of preference. *)
Theorem recording_format p :
  In (format_of (getSupportedMimeType p)) ["webm"; "mp4"; "wav"; "ogg"]
  /\ (forall type, In type types -> isTypeSupported p type = true ->
      isTypeSupported p (getSupportedMimeType p) = true
      /\ exists earlier later,
          types = (earlier ++ getSupportedMimeType p :: later)%list
          /\ Forall (fun t => isTypeSupported p t = false) earlier).
Proof.
  unfold getSupportedMimeType, types. simpl.
  destruct (isTypeSupported p "audio/webm;codecs=opus") eqn:E1.
  { split; [vm_compute; tauto|]. intros _ _ _. split; [done|].
    by exists [], (tl types). }
  destruct (isTypeSupported p "audio/webm") eqn:E2.
  { split; [vm_compute; tauto|]. intros _ _ _. split; [done|].
    exists (take 1 types), (drop 2 types). split; [done|].
    repeat constructor; done. }
  destruct (isTypeSupported p "audio/mp4") eqn:E3.
  { split; [vm_compute; tauto|]. intros _ _ _. split; [done|].
    exists (take 2 types), (drop 3 types). split; [done|].
    repeat constructor; done. }
  destruct (isTypeSupported p "audio/mp4;codecs=mp4a") eqn:E4.
  { split; [vm_compute; tauto|]. intros _ _ _. split; [done|].
    exists (take 3 types), (drop 4 types). split; [done|].
    repeat constructor; done. }
  destruct (isTypeSupported p "audio/wav") eqn:E5.
  { split; [vm_compute; tauto|]. intros _ _ _. split; [done|].
    exists (take 4 types), (drop 5 types). split; [done|].
    repeat constructor; done. }
  destruct (isTypeSupported p "audio/ogg;codecs=opus") eqn:E6.
  { split; [vm_compute; tauto|]. intros _ _ _. split; [done|].
    exists (take 5 types), (drop 6 types). split; [done|].
    repeat constructor; done. }
  destruct (isTypeSupported p "audio/ogg") eqn:E7.
  { split; [vm_compute; tauto|]. intros _ _ _. split; [done|].
    exists (take 6 types), (drop 7 types). split; [done|].
    repeat constructor; done. }
  split.
  - destruct (isIOSSafari p); vm_compute; tauto.
  - intros type Hin Hsup. simpl in Hin.
    destruct Hin as [<-|[<-|[<-|[<-|[<-|[<-|[<-|[]]]]]]]]; congruence.
Qed.

(** X24.  A start that fails before the stream is acquired (an insecure
    context on iOS Safari, or [getUserMedia] rejecting, as when the
    permission is denied or no microphone exists) acquires nothing: no
    track is live, no timer runs, the page does not record, and the
    failure is reported once through [onRecordingError]. *)
Theorem failed_start_acquires_nothing p :
  isIOSSafari p && negb (isSecureContext p) = true
  \/ (exists e, getUserMedia p = Some e) ->
  tracks_live (startRecording p idle) = false
  /\ timer_running (startRecording p idle) = false
  /\ streamRef (startRecording p idle) = false
  /\ isRecording (startRecording p idle) = false
  /\ exists msg,
      emitted (startRecording p idle) = [RecordingError msg]
      /\ error (startRecording p idle) = Some msg
      /\ (forall e,
            isIOSSafari p && negb (isSecureContext p) = false ->
            getUserMedia p = Some e ->
            msg = start_error_message e).
Proof.
  unfold startRecording.
  destruct (isIOSSafari p && negb (isSecureContext p)) eqn:Hios.
  - intros _. repeat split; try done. eexists. by repeat split.
  - intros [[=]|[e He]]. rewrite He. repeat split; try done.
    eexists. repeat split; try done. by intros e' _ [= <-].
Qed.

End SessionFacts.

(** ** Formatting *)

Module FormatFacts.
Import Format.

Lemma two_digits (k : nat) :
  (k < 60)%nat ->
  String.length (padStart 2 (pretty (Z.of_nat k))) = 2%nat
  /\ padStart 2 (pretty (Z.of_nat k))
     = (if (k <? 10)%nat then "0" +:+ pretty (Z.of_nat k)
        else pretty (Z.of_nat k)).
Proof.
  intros Hk.
  do 60 (destruct k as [|k]; [vm_compute; done|]). lia.
Qed.

(** X25.  [formatDuration] of a duration that is not negative shows the
    whole minutes, a colon, and the seconds as exactly two digits below
    60; minutes and seconds together are the duration rounded down to the
    second. *)
Theorem formatDuration_minutes_seconds (m : Z) (e : nat) :
  0 <= m ->
  exists mins secs,
    formatDuration m e = pretty mins +:+ ":" +:+ padStart 2 (pretty secs)
    /\ 0 <= mins /\ 0 <= secs < 60
    /\ 60 * mins + secs = m / 10 ^ Z.of_nat e
    /\ String.length (padStart 2 (pretty secs)) = 2%nat
    /\ padStart 2 (pretty secs)
       = (if secs <? 10 then "0" +:+ pretty secs else pretty secs).
Proof.
  intros Hm. unfold formatDuration.
  set (u := 10 ^ Z.of_nat e).
  assert (Hu : 0 < u) by (apply Z.pow_pos_nonneg; lia).
  exists (m / (60 * u)), (Z.rem m (60 * u) / u).
  rewrite Z.rem_mod_nonneg by lia.
  assert (Hr : 0 <= m mod (60 * u) < 60 * u) by (apply Z.mod_pos_bound; lia).
  assert (Hs : 0 <= m mod (60 * u) / u < 60).
  { split; [apply Z.div_pos; lia|]. apply Z.div_lt_upper_bound; lia. }
  split; [done|]. split; [apply Z.div_pos; lia|]. split; [done|]. split.
  - rewrite (Z.div_mod m (60 * u)) at 3 by lia.
    replace (60 * u * (m / (60 * u)) + m mod (60 * u))
      with (60 * (m / (60 * u)) * u + m mod (60 * u)) by lia.
    rewrite Z.div_add_l by lia. lia.
  - destruct (two_digits (Z.to_nat (m mod (60 * u) / u))) as [H1 H2]; [lia|].
    rewrite Z2Nat.id in H1, H2 by lia. split; [done|].
    rewrite H2.
    destruct (Nat.ltb_spec (Z.to_nat (m mod (60 * u) / u)) 10),
             (Z.ltb_spec (m mod (60 * u) / u) 10); try done; lia.
Qed.

(** X26.  [truncateText] counts UTF-16 code units.  It returns a text of
    at most [maxLength] units as it is.  A longer text is cut to its first
    [maxLength] units and "..." is added, so the result has
    [maxLength + 3] units: three more than the maximum that was asked for.
    For a negative [maxLength] the result is "..." alone. *)
Theorem truncateText_length (text : list N) (maxLength : Z) :
  (Z.of_nat (length text) <= maxLength ->
   truncateText text maxLength = text)
  /\ (0 <= maxLength < Z.of_nat (length text) ->
      exists kept,
        truncateText text maxLength = (kept ++ units "...")%list
        /\ kept `prefix_of` text
        /\ Z.of_nat (length kept) = maxLength
        /\ Z.of_nat (length (truncateText text maxLength))
           = maxLength + 3)
  /\ (maxLength < 0 -> truncateText text maxLength = units "...").
Proof.
  unfold truncateText, substring0. split; [|split].
  - intros H. by destruct (Z.leb_spec (Z.of_nat (length text)) maxLength);
      [|lia].
  - intros H.
    destruct (Z.leb_spec (Z.of_nat (length text)) maxLength); [lia|].
    exists (take (Z.to_nat maxLength) text).
    split; [done|]. split; [apply prefix_take|].
    rewrite length_app, length_take. simpl. lia.
  - intros H.
    destruct (Z.leb_spec (Z.of_nat (length text)) maxLength); [lia|].
    by replace (Z.to_nat maxLength) with 0%nat by lia.
Qed.

End FormatFacts.

(** ** The two probes of the server *)

Module ProbeFacts.
Import ApiUtils ApiCallers.

Section Probes.

Variable body_json : string -> res value.
Variable fetch : string -> nat -> outcome.
Variable baseUrl : string.
Variable elapsed : Z.

#[local] Abbreviation health := (request body_json (fetch "/health")).
#[local] Abbreviation testConnection := (testConnection body_json fetch).
#[local] Abbreviation getApiStatus :=
  (getApiStatus body_json fetch baseUrl elapsed).

(** X29.  [testConnection] and [getApiStatus] make the same request to
    /health and never throw, but they do not mean the same by a success.
    [getApiStatus] reports [connected] exactly when the request returns,
    and the error of the request otherwise; [testConnection] returns the
    [success] field of the response.  So a truthy [testConnection] implies
    [connected], and not conversely: on a response that is an object
    without [success], [getApiStatus] reports [connected] and
    [testConnection] returns [undefined]. *)
Theorem probes_agree_one_way :
  testConnection.2 = health.2 /\ getApiStatus.2 = health.2
  /\ (connected getApiStatus.1 = true <-> exists d, health.1 = Ok d)
  /\ (forall msg, health.1 = Throw msg ->
      testConnection.1 = VBool false
      /\ connected getApiStatus.1 = false
      /\ error getApiStatus.1 = Some msg)
  /\ (truthy testConnection.1 = true ->
      connected getApiStatus.1 = true /\ error getApiStatus.1 = None)
  /\ (forall fs, health.1 = Ok (VObj fs) -> assoc "success" fs = None ->
      connected getApiStatus.1 = true /\ testConnection.1 = VUndef).
Proof.
  unfold ApiCallers.testConnection, ApiCallers.getApiStatus, get.
  destruct health as [[d|m] evs]; simpl.
  - split; [done|]. split; [done|]. split; [split; eauto|].
    split; [by intros msg [=]|]. split; [done|].
    intros fs [= ->] Hnone. simpl. by rewrite Hnone.
  - split; [done|]. split; [done|].
    split; [split; [done|by intros [d [=]]]|].
    split; [by intros msg [= ->]|]. split; [done|]. by intros fs [=].
Qed.

End Probes.

Lemma probes_agree_one_way_witness :
  connected
    (ApiCallers.getApiStatus (fun _ => Ok (VObj [])) MoreExamples.audio_too_large
       "http://localhost:5000" 12).1 = true
  /\ (ApiCallers.testConnection (fun _ => Ok (VObj []))
        MoreExamples.audio_too_large).1 = VUndef.
Proof.
  destruct (probes_agree_one_way (fun _ => Ok (VObj []))
              MoreExamples.audio_too_large "http://localhost:5000" 12)
    as (_ & _ & _ & _ & _ & H).
  apply (H []); reflexivity.
Defined.

End ProbeFacts.

(** ** Unmounting the recorder *)

Module CleanupFacts.
Import AudioRecorder Lifecycle.

Lemma owned_report msg st : owned st -> owned (report msg st).
Proof. by intros [? ?]. Qed.

Lemma owned_startRecording p : owned (startRecording p idle).
Proof.
  unfold startRecording.
  destruct (isIOSSafari p && negb (isSecureContext p)); [done|].
  destruct (getUserMedia p); [done|].
  destruct (newMediaRecorder p); [done|].
  destruct (start p); done.
Qed.

Section Component.

Variable onRecordingComplete : Z -> string -> option string.

Lemma owned_handle st h :
  owned st -> owned (handle onRecordingComplete st h).
Proof.
  intros [Ht Hi]. destruct h as [size| | |msg]; simpl.
  - unfold ondataavailable. by destruct (0 <? size).
  - unfold stopRecording. by destruct (_ && _).
  - unfold onstop. destruct (onRecordingComplete _ _); [done|].
    split; simpl.
    + destruct (streamRef st); [done|]. intros H. by apply Ht in H.
    + destruct (durationIntervalRef st); [done|]. intros H. by apply Hi in H.
  - by apply owned_report.
Qed.

Lemma owned_foldl hs st :
  owned st -> owned (foldl (handle onRecordingComplete) st hs).
Proof.
  revert st. induction hs as [|h hs IH]; intros st Hst; simpl; [done|].
  by apply IH, owned_handle.
Qed.

(** X30.  Unmounting releases whatever a session holds.  After
    [startRecording] and any sequence of chunks, calls of [stopRecording],
    [stop] events and [error] events, with a parent callback that may
    throw, the cleanup of the unmount effect leaves no live track and no
    running timer, and calls neither callback. *)
Theorem unmount_releases p hs :
  tracks_live (unmount (session onRecordingComplete p hs)) = false
  /\ timer_running (unmount (session onRecordingComplete p hs)) = false
  /\ emitted (unmount (session onRecordingComplete p hs))
     = emitted (session onRecordingComplete p hs).
Proof.
  destruct (owned_foldl hs _ (owned_startRecording p)) as [Ht Hi].
  fold (session onRecordingComplete p hs) in Ht, Hi.
  unfold unmount. simpl. split; [|split; [|done]].
  - destruct (streamRef _); [done|].
    destruct (tracks_live _); [|done]. by specialize (Ht eq_refl).
  - destruct (durationIntervalRef _); [done|].
    destruct (timer_running _); [|done]. by specialize (Hi eq_refl).
Qed.

End Component.

End CleanupFacts.

(** ** The further properties on concrete inputs *)

Module MoreConcrete.
Import Store Examples MoreExamples Concrete.

Lemma request_succeeds_iff_witness :
  (ApiUtils.request (fun _ => Ok ok_body) flaky).1 = Ok ok_body.
Proof.
  apply (TransportFacts.request_succeeds_iff (fun _ => Ok ok_body) flaky).
  right. right. exists "Server error - please try again later",
    "Server error - please try again later". repeat split.
Defined.

Lemma request_fails_with_last_witness :
  exists (n : nat) m,
    (ApiUtils.try_attempt (fun _ => Ok ok_body) (always 503) n).1 = Throw m
    /\ "Service temporarily unavailable - please try again later"
       = ApiUtils.summarize (Some m)
    /\ n = 3%nat.
Proof.
  destruct (TransportFacts.request_fails_with_last (fun _ => Ok ok_body)
              (always 503)
              "Service temporarily unavailable - please try again later"
              eq_refl) as (n & m & H1 & H2 & H3 & _).
  exists n, m. split; [exact H1|]. split; [exact H2|].
  rewrite <- H3. reflexivity.
Defined.

Lemma getCurrentData_today_witness :
  exists data ls',
    Run.getCurrentData jan2
      (store_of "daily_data" (bucket "2024-01-01" dark_settings))
    = Ok (data, ls')
    /\ prop data "date" = Ok (VStr "2024-01-02").
Proof.
  assert (Hreturns :
    match Run.getCurrentData jan2
            (store_of "daily_data" (bucket "2024-01-01" dark_settings)) with
    | Ok _ => true
    | Throw _ => false
    end = true) by (vm_compute; reflexivity).
  destruct (Run.getCurrentData jan2
              (store_of "daily_data" (bucket "2024-01-01" dark_settings)))
    as [[data ls']|m] eqn:E; [|discriminate Hreturns].
  exists data, ls'. split; [reflexivity|].
  apply (ManagerFacts.getCurrentData_today Browser.JSON_parse
           Browser.JSON_stringify Browser.Date_toISOString Browser.ToString
           Browser.StringToNumber jan2 _ data ls' E).
Defined.

Lemma migration_needs_metadata_witness :
  Run.getCurrentData jan1 (store_of "daily_data" (bare_bucket "2024-01-01"))
  = Throw "TypeError: Cannot set properties".
Proof.
  apply (ManagerFacts.migration_needs_metadata Browser.JSON_parse
           Browser.JSON_stringify Browser.Date_toISOString Browser.ToString
           Browser.StringToNumber (spread (bare_bucket "2024-01-01"))
           old_settings VUndef jan1).
  - holds_stored (bare_bucket "2024-01-01").
  - vm_compute. reflexivity.
  - reflexivity.
  - reflexivity.
  - reflexivity.
  - reflexivity.
  - left. reflexivity.
Defined.



Lemma clear_removes_prefixed_witness :
  Managers.clear (<["theme" := "dark"]> corrupt_store) !! "theme" = Some "dark"
  /\ Managers.clear (<["theme" := "dark"]> corrupt_store)
       !! "tonebridge_settings" = None.
Proof.
  destruct (ManagerFacts.clear_removes_prefixed
              (<["theme" := "dark"]> corrupt_store)) as (H1 & _ & H2).
  split.
  - rewrite (H2 "theme"); [vm_compute; reflexivity|reflexivity].
  - apply (H1 "settings").
Defined.

Lemma set_get_expiry_witness :
  Run.get "draft" (jan1 + 60000)
    (Run.set "draft" (VStr "hello") (Some 60000) jan1 ∅)
  = (VStr "hello", Run.set "draft" (VStr "hello") (Some 60000) jan1 ∅)
  /\ (Run.get "draft" (jan1 + 60001)
        (Run.set "draft" (VStr "hello") (Some 60000) jan1 ∅)).1 = VNull.
Proof.
  destruct (TranscriptFacts.set_get_expiry Browser.JSON_parse
              Browser.JSON_stringify Browser.Date_toISOString Browser.ToString
              Browser.StringToNumber "draft" (VStr "hello") 60000 jan1
              (jan1 + 60000) (jan1 + 60001) ∅) as (H1 & _ & _);
    [discriminate|discriminate|vm_compute; discriminate
    |reads_back_computed|].
  destruct (TranscriptFacts.set_get_expiry Browser.JSON_parse
              Browser.JSON_stringify Browser.Date_toISOString Browser.ToString
              Browser.StringToNumber "draft" (VStr "hello") 60000 jan1
              (jan1 + 60001) (jan1 + 60001) ∅) as (_ & H2 & _);
    [discriminate|discriminate|vm_compute; discriminate
    |reads_back_computed|].
  split.
  - apply H1. lia.
  - destruct H2 as [-> _]; [unfold jan1; lia|reflexivity].
Defined.

Lemma save_then_load_witness :
  Run.getTranscripts jan2
    (Run.saveTranscripts (Home.transcriptionSegments home) jan1 ∅)
  = (Home.transcriptionSegments home,
     Run.saveTranscripts (Home.transcriptionSegments home) jan1 ∅)
  /\ Run.getTranscripts jan2
       (Store.saveTranscripts Browser.JSON_stringify full
          (Home.transcriptionSegments home) jan1 ∅)
     = Run.getTranscripts jan2 ∅.
Proof.
  destruct (TranscriptFacts.save_then_load Browser.JSON_parse
              Browser.JSON_stringify Browser.Date_parse
              Browser.Date_toISOString Browser.ToString Browser.StringToNumber
              roomy (Home.transcriptionSegments home) jan1 jan2 ∅)
    as (Htaken & _ & _ & Hall).
  { vm_compute. reflexivity. }
  { reads_back_computed. }
  destruct (TranscriptFacts.save_then_load Browser.JSON_parse
              Browser.JSON_stringify Browser.Date_parse
              Browser.Date_toISOString Browser.ToString Browser.StringToNumber
              full (Home.transcriptionSegments home) jan1 jan2 ∅)
    as (_ & Hrefused & _).
  { vm_compute. reflexivity. }
  { reads_back_computed. }
  split; [|exact (Hrefused eq_refl)].
  rewrite <- Hall at 3; [exact (Htaken eq_refl)|simpl; lia|vm_compute; discriminate].
Defined.

Lemma storage_info_within_limits_witness :
  exists size,
    (MoreExamples.Run.getStorageInfo jan2
       (Run.saveTranscripts (Home.transcriptionSegments home) jan1 ∅)).1
    = (2%nat, size, 5 * 1024 * 1024)
    /\ size <= 5 * 1024 * 1024.
Proof.
  destruct (TranscriptFacts.storage_info_within_limits Browser.JSON_parse
              Browser.JSON_stringify Browser.Date_parse
              Browser.Date_toISOString Browser.ToString Browser.StringToNumber
              roomy (Home.transcriptionSegments home) jan1 jan2 ∅)
    as [Htaken _].
  - vm_compute. reflexivity.
  - reads_back_computed.
  - destruct (Htaken eq_refl) as (count & size & H & _ & Hsize).
    assert (Hcount :
      (MoreExamples.Run.getStorageInfo jan2
         (Run.saveTranscripts (Home.transcriptionSegments home) jan1 ∅)).1.1.1
      = 2%nat) by (vm_compute; reflexivity).
    unfold MoreExamples.Run.getStorageInfo, Run.saveTranscripts in *.
    rewrite H in Hcount |- *. simpl in Hcount. subst count.
    exists size. split; [reflexivity|].
    destruct Hsize as [Hsize|Hzero]; [exact Hsize|discriminate Hzero].
Defined.

Lemma failed_probe_stops_transcription_witness :
  Home.toasts
    (MoreExamples.Run.handleRecordingComplete server_down (Some "UklGRg==")
       jan1 home)
  = [("Transcription failed: Cannot connect to server. Please check your internet connection and try again.",
      "error")]
  /\ Home.transcriptionSegments
       (MoreExamples.Run.handleRecordingComplete server_down
          (Some "UklGRg==") jan1 home)
     = Home.transcriptionSegments home.
Proof.
  destruct (HomeFacts.failed_probe_stops_transcription
              (fun _ => Ok ok_body) server_down Browser.JSON_stringify
              Browser.ToString (Some "UklGRg==") roomy jan1 home "UklGRg=="
              "Cannot connect to server. Please check your internet connection and try again."
              eq_refl ltac:(vm_compute; reflexivity))
    as (_ & _ & Hseg & _ & Htoast).
  split; [exact Htoast|exact Hseg].
Defined.

Lemma failed_transcription_is_reported_witness :
  Home.toasts
    (MoreExamples.Run.handleRecordingComplete audio_too_large
       (Some "UklGRg==") jan1 home)
  = [("Transcription failed: Recording too long. Please record a shorter message.",
      "error")].
Proof.
  destruct (HomeFacts.failed_transcription_is_reported
              (fun _ => Ok ok_body) audio_too_large Browser.JSON_stringify
              Browser.ToString (Some "UklGRg==") roomy jan1 home "UklGRg=="
              ok_body
              "Audio file too large - please record a shorter message"
              eq_refl ltac:(vm_compute; reflexivity)
              ltac:(vm_compute; reflexivity)) as (_ & _ & Htoast).
  exact Htoast.
Defined.

Lemma user_message_of_request_error_witness :
  Home.user_message
    (Home.AnError (ApiUtils.summarize (Some "signal is aborted without reason")))
  = "Request timed out. Please try again.".
Proof.
  apply (HomeFacts.user_message_of_request_error
           "signal is aborted without reason"); reflexivity.
Defined.

Lemma deleteTranscript_removes_id_witness :
  exists st',
    MoreExamples.Run.deleteTranscript "1" jan1 home = Ok st'
    /\ Home.transcriptionSegments st' = [live_segment "2" 1704103150000]
    /\ Forall (fun seg => prop seg "id" <> Ok (VStr "1"))
         (Home.transcriptionSegments st')
    /\ (Run.getTranscripts jan2 (Home.localStorage st')).1
       = [live_segment "2" 1704103150000].
Proof.
  assert (Hkept :
    match MoreExamples.Run.deleteTranscript "1" jan1 home with
    | Ok st' => Some (Home.transcriptionSegments st',
                      (Run.getTranscripts jan2 (Home.localStorage st')).1)
    | Throw _ => None
    end = Some ([live_segment "2" 1704103150000],
                [live_segment "2" 1704103150000]))
    by (vm_compute; reflexivity).
  destruct (MoreExamples.Run.deleteTranscript "1" jan1 home) as [st'|m] eqn:E;
    [|discriminate Hkept].
  injection Hkept as Hsegments Hstored.
  exists st'. split; [reflexivity|]. split; [exact Hsegments|].
  split; [|exact Hstored].
  apply (HomeFacts.deleteTranscript_removes_id Browser.JSON_stringify roomy
           "1" jan1 home st' E).
Defined.

Lemma session_completes_once_witness :
  AudioRecorder.emitted
    (AudioRecorder.onstop returns
       (foldl (fun s size => AudioRecorder.ondataavailable size s)
          (AudioRecorder.stopRecording
             (foldl (fun s size => AudioRecorder.ondataavailable size s)
                (AudioRecorder.startRecording chrome AudioRecorder.idle)
                [1200; 0; 800]))
          [300]))
  = [AudioRecorder.RecordingComplete 2300 "webm"].
Proof.
  destruct (SessionFacts.session_completes_once returns
              (fun _ _ => eq_refl) chrome [1200; 0; 800] [300]
              eq_refl eq_refl eq_refl eq_refl) as (_ & _ & H & _).
  vm_compute in H. vm_compute. exact H.
Defined.

Lemma recording_format_witness :
  AudioRecorder.isTypeSupported chrome
    (AudioRecorder.getSupportedMimeType chrome) = true.
Proof.
  destruct (SessionFacts.recording_format chrome) as [_ H].
  apply (H "audio/webm"); [right; left; reflexivity|reflexivity].
Defined.

Lemma failed_start_acquires_nothing_witness :
  AudioRecorder.tracks_live
    (AudioRecorder.startRecording
       (AudioRecorder.Platform false true (fun _ => true)
          (Some (AudioRecorder.JsError "NotAllowedError" "Permission denied"))
          None None)
       AudioRecorder.idle) = false.
Proof.
  apply (SessionFacts.failed_start_acquires_nothing
           (AudioRecorder.Platform false true (fun _ => true)
              (Some (AudioRecorder.JsError "NotAllowedError"
                       "Permission denied")) None None)).
  right. by eexists.
Defined.

Lemma formatDuration_minutes_seconds_witness :
  exists mins secs,
    Format.formatDuration 12534 2 = "2:05"
    /\ 60 * mins + secs = 125.
Proof.
  destruct (FormatFacts.formatDuration_minutes_seconds 12534 2)
    as (mins & secs & _ & _ & _ & H & _); [lia|].
  exists mins, secs. split; [vm_compute; reflexivity|exact H].
Defined.

Lemma truncateText_length_witness :
  Format.truncateText (Format.units "good morning") 4
  = Format.units "good..."
  /\ Format.truncateText [99; 97; 102; 233; 33]%N 5 = [99; 97; 102; 233; 33]%N.
Proof.
  destruct (FormatFacts.truncateText_length (Format.units "good morning") 4)
    as (_ & H & _).
  destruct (FormatFacts.truncateText_length [99; 97; 102; 233; 33]%N 5)
    as (H' & _).
  split; [|apply H'; simpl; lia].
  destruct H as (kept & H1 & _); [simpl; lia|].
  vm_compute. reflexivity.
Defined.

End MoreConcrete.
